(** * Iris classifier: data preparation, evaluation and inference validation

    A shallow embedding of the Python sources

      - [app.py]                  (Flask form handler, input validation)
      - [src/data_processing.py]  (IQR outlier handling, train/test split)
      - [src/model_training.py]   (evaluation, confusion matrix)

    together with the properties of the specification that concern them.

    Number models.  The serving code only parses and compares floats, so
    [app.py] is embedded over IEEE-754 binary64 values ([spec_float] with
    precision 53 and maximal exponent 1024): NaN, infinities and the
    rounding of decimal text are those of the interpreter.  The
    data-preparation code does arithmetic on a [float64] column
    (quantiles, bounds, median): it is embedded over the same binary64
    values, each operation rounded as the hardware rounds it, with NaN
    for a missing value. *)

From Stdlib Require Import ZArith QArith Qround Lia String Ascii List Bool DecimalString.
From Stdlib Require Import Sorting.Sorted Sorting.Permutation OrdersEx.
From Stdlib Require Import Floats.SpecFloat.
From stdpp Require Import base option list gmap strings sorting.

Local Open Scope Z_scope.

(* ===================================================================== *)
(** * Python floats: binary64, [float(str)] *)
(* ===================================================================== *)

Module PyFloat.

Abbreviation float := spec_float.

Definition prec : Z := 53.
Definition emax : Z := 1024.

Definition nan : float := S754_nan.
Definition inf (neg : bool) : float := S754_infinity neg.

(** Python's [<], [>] and [==] on floats: every comparison with NaN is
    false. *)
Definition ltb (x y : float) : bool := SFltb x y.
Definition gtb (x y : float) : bool := SFltb y x.
Definition eqb (x y : float) : bool := SFeqb x y.

(** The double nearest to [(-1)^neg * m * 10^e] (round to nearest, ties
    to even; overflow gives an infinity, underflow a zero).  This is the
    value of a decimal literal of the source and of [float] on decimal
    text. *)
Definition of_decimal (neg : bool) (m : Z) (e : Z) : float :=
  match m with
  | Zpos p =>
      match e with
      | Zneg k =>
          SFdiv prec emax (S754_finite neg p 0)
                (S754_finite false (Pos.pow 10 k) 0)
      | _ => binary_normalize prec emax
               (if neg then Z.neg (p * Z.to_pos (10 ^ e)) else Z.pos (p * Z.to_pos (10 ^ e)))
               0 neg
      end
  | _ => S754_zero neg
  end.

(** ** Lexical classes ([Py_ISSPACE], decimal digits) *)

Definition code (c : ascii) : N := N_of_ascii c.

Definition is_space (c : ascii) : bool :=
  let n := code c in ((9 <=? n) && (n <=? 13) || (n =? 32))%N.

Definition is_digit (c : ascii) : bool :=
  let n := code c in ((48 <=? n) && (n <=? 57))%N.

Definition digit_val (c : ascii) : Z := Z.of_N (code c) - 48.

Definition is_char (c d : ascii) : bool := (code c =? code d)%N.

(** ASCII lower-casing, as in [case_insensitive_match]. *)
Definition lower (c : ascii) : ascii :=
  let n := code c in
  if ((65 <=? n) && (n <=? 90))%N then ascii_of_N (n + 32) else c.

(** ** Underscores
    [_Py_string_to_number_with_underscores]: an underscore is allowed
    only between two digits; the underscores are then dropped. *)
Fixpoint strip_underscores (prev : option ascii) (s : list ascii)
  : option (list ascii) :=
  match s with
  | [] =>
      match prev with
      | Some p => if is_char p "_" then None else Some []
      | None => Some []
      end
  | c :: s' =>
      let prev_digit := from_option is_digit false prev in
      let prev_us := from_option (fun p => is_char p "_") false prev in
      if is_char c "_" then
        if prev_digit then strip_underscores (Some c) s' else None
      else if prev_us && negb (is_digit c) then None
      else cons c <$> strip_underscores (Some c) s'
  end.

(** ** Whitespace ([float_from_string_inner]) *)
Fixpoint lstrip (s : list ascii) : list ascii :=
  match s with
  | c :: s' => if is_space c then lstrip s' else s
  | [] => []
  end.

Definition strip (s : list ascii) : list ascii :=
  rev (lstrip (rev (lstrip s))).

(** ** Digits *)
Fixpoint span_digits (s : list ascii) : list ascii * list ascii :=
  match s with
  | c :: s' =>
      if is_digit c then
        let '(d, r) := span_digits s' in (c :: d, r)
      else ([], s)
  | [] => ([], [])
  end.

Definition digits_value (d : list ascii) : Z :=
  fold_left (fun acc c => 10 * acc + digit_val c) d 0.

Definition take_sign (s : list ascii) : bool * list ascii :=
  match s with
  | c :: s' =>
      if is_char c "-" then (true, s')
      else if is_char c "+" then (false, s')
      else (false, s)
  | [] => (false, [])
  end.

(** Optional exponent: [e] or [E], optional sign, at least one digit.
    When no digit follows, the [e] is not part of the number and is
    left in the remainder. *)
Definition take_exponent (s : list ascii) : Z * list ascii :=
  match s with
  | c :: s' =>
      if is_char (lower c) "e" then
        let '(neg, s1) := take_sign s' in
        let '(d, r) := span_digits s1 in
        match d with
        | [] => (0, s)
        | _ => ((if neg then - digits_value d else digits_value d), r)
        end
      else (0, s)
  | [] => (0, [])
  end.

(** [strtod] restricted as in the interpreter: decimal digits with an
    optional point and exponent; at least one digit; the whole text
    must be consumed. *)
Definition parse_decimal (neg : bool) (s : list ascii) : option float :=
  let '(ip, r1) := span_digits s in
  let '(fp, r2) :=
    match r1 with
    | c :: r1' => if is_char c "." then span_digits r1' else ([], r1)
    | [] => ([], [])
    end in
  match ip ++ fp with
  | [] => None
  | ds =>
      let '(e, r3) := take_exponent r2 in
      match r3 with
      | [] => Some (of_decimal neg (digits_value ds) (e - Z.of_nat (length fp)))
      | _ => None
      end
  end.

(** [_Py_parse_inf_or_nan]: [inf], [infinity], [nan] in any casing. *)
Definition parse_inf_or_nan (neg : bool) (s : list ascii) : option float :=
  let w := String.string_of_list_ascii (map lower s) in
  if String.eqb w "inf" || String.eqb w "infinity" then Some (inf neg)
  else if String.eqb w "nan" then Some nan
  else None.

(** [float(value)] for a [str] argument: [None] stands for the
    [ValueError] the interpreter raises.  Text is ASCII; the
    interpreter also maps Unicode spaces and digits to ASCII first,
    which is outside this model. *)
Definition py_float (value : string) : option float :=
  s ← strip_underscores None (String.list_ascii_of_string value);
  let '(neg, body) := take_sign (strip s) in
  match parse_decimal neg body with
  | Some x => Some x
  | None => parse_inf_or_nan neg body
  end.

(** ** [repr(float)]
    The shortest decimal text that reads back as the same double, the
    nearest to it among those of that length; printed with an exponent
    when the decimal point falls left of [-4] or right of [16] digits,
    and with [.0] added to an integer in positional notation. *)

(** [x = n / d], both positive. *)
Definition ratio_of (m : positive) (e : Z) : Z * Z :=
  match e with
  | Zneg k => (Z.pos m, 2 ^ Z.pos k)
  | _ => (Z.pos m * 2 ^ e, 1)
  end.

(** [10^t <= n / d] *)
Definition pow10_le (t n d : Z) : bool :=
  if 0 <=? t then 10 ^ t * d <=? n else d <=? n * 10 ^ (- t).

Fixpoint adjust_up (fuel : nat) (t n d : Z) : Z :=
  match fuel with
  | O => t
  | S f => if pow10_le (t + 1) n d then adjust_up f (t + 1) n d else t
  end.

Fixpoint adjust_down (fuel : nat) (t n d : Z) : Z :=
  match fuel with
  | O => t
  | S f => if pow10_le t n d then t else adjust_down f (t - 1) n d
  end.

(** The [t] with [10^t <= n / d < 10^(t+1)]. *)
Definition decimal_exponent (n d : Z) : Z :=
  let t0 := ((Z.log2 n - Z.log2 d) * 30103) / 100000 in
  adjust_up 4 (adjust_down 4 t0 n d) n d.

(** The [k]-digit candidate: [Some (c, p)] with [c * 10^p] reading back
    as [x]. *)
Definition candidate (x : float) (n d t : Z) (k : nat) : option (Z * Z) :=
  let p := t - (Z.of_nat k - 1) in
  let lo := if 0 <=? p then n / (d * 10 ^ p) else (n * 10 ^ (- p)) / d in
  let hi := lo + 1 in
  let ok c := (0 <? c) && SFeqb (of_decimal false c p) x in
  (* is x at least as near to lo as to hi, i.e. 2 x <= (lo + hi) 10^p *)
  let cmp := if 0 <=? p then (2 * n ?= (lo + hi) * 10 ^ p * d)
             else (2 * n * 10 ^ (- p) ?= (lo + hi) * d) in
  let lo_first := match cmp with Lt => true | Eq => Z.even lo | Gt => false end in
  match ok lo, ok hi with
  | true, true => Some (if lo_first then lo else hi, p)
  | true, false => Some (lo, p)
  | false, true => Some (hi, p)
  | false, false => None
  end.

Fixpoint shortest (x : float) (n d t : Z) (ks : list nat) : Z * Z :=
  match ks with
  | [] => (0, 0)
  | k :: ks' =>
      match candidate x n d t k with
      | Some r => r
      | None => shortest x n d t ks'
      end
  end.

Definition digits_of (c : Z) : list ascii :=
  String.list_ascii_of_string (NilZero.string_of_uint (N.to_uint (Z.to_N c))).

Fixpoint drop_zeros (s : list ascii) : list ascii :=
  match s with
  | c :: s' => if is_char c "0" then drop_zeros s' else s
  | [] => []
  end.

Definition rstrip_zeros (s : list ascii) : list ascii :=
  rev (drop_zeros (rev s)).

Definition zeros (n : Z) : list ascii := repeat ("0"%char) (Z.to_nat n).

Definition format_repr (neg : bool) (ds0 : list ascii) (p : Z) : string :=
  let decpt := Z.of_nat (length ds0) + p in
  let ds := rstrip_zeros ds0 in
  let nd := Z.of_nat (length ds) in
  let body :=
    if (decpt <=? -4) || (16 <? decpt) then
      let ex := decpt - 1 in
      let exd := digits_of (Z.abs ex) in
      take 1 ds ++ (match drop 1 ds with [] => [] | r => "."%char :: r end)
        ++ "e"%char :: (if ex <? 0 then "-"%char else "+"%char)
        :: (if Z.abs ex <? 10 then "0"%char :: exd else exd)
    else if decpt <=? 0 then
      "0"%char :: "."%char :: zeros (- decpt) ++ ds
    else if nd <=? decpt then
      ds ++ zeros (decpt - nd) ++ "."%char :: "0"%char :: []
    else
      take (Z.to_nat decpt) ds ++ "."%char :: drop (Z.to_nat decpt) ds in
  String.string_of_list_ascii (if neg then "-"%char :: body else body).

Definition py_repr (x : float) : string :=
  match x with
  | S754_nan => "nan"
  | S754_infinity s => if s then "-inf" else "inf"
  | S754_zero s => if s then "-0.0" else "0.0"
  | S754_finite s m e =>
      let '(n, d) := ratio_of m e in
      let t := decimal_exponent n d in
      let '(c, p) := shortest (S754_finite false m e) n d t (seq 1 17) in
      format_repr s (digits_of c) p
  end.

End PyFloat.

(* ===================================================================== *)
(** * [app.py]: the form handler and its input validation *)
(* ===================================================================== *)

Module App.
Import PyFloat.

Local Open Scope string_scope.

(** One entry of [IRIS_FEATURES]. *)
Record FeatureConf := {
  f_label : string;
  f_min : float;
  f_max : float;
  f_step : float;
  f_mean : float;
  f_iqr : float * float;
  f_suggested : list float
}.

(** A decimal literal of the source, e.g. [4.3] is [lit 43 (-1)]. *)
Definition lit (m e : Z) : float := of_decimal false m e.

Definition IRIS_FEATURES : gmap string FeatureConf :=
  {[ "SepalLengthCm" :=
       {| f_label := "Sepal Length (cm)";
          f_min := lit 43 (-1); f_max := lit 79 (-1); f_step := lit 1 (-1);
          f_mean := lit 584 (-2); f_iqr := (lit 510 (-2), lit 640 (-2));
          f_suggested := [lit 51 (-1); lit 58 (-1); lit 64 (-1)] |};
     "SepalWidthCm" :=
       {| f_label := "Sepal Width (cm)";
          f_min := lit 20 (-1); f_max := lit 44 (-1); f_step := lit 1 (-1);
          f_mean := lit 305 (-2); f_iqr := (lit 280 (-2), lit 330 (-2));
          f_suggested := [lit 28 (-1); lit 30 (-1); lit 33 (-1)] |};
     "PetalLengthCm" :=
       {| f_label := "Petal Length (cm)";
          f_min := lit 10 (-1); f_max := lit 69 (-1); f_step := lit 1 (-1);
          f_mean := lit 376 (-2); f_iqr := (lit 160 (-2), lit 510 (-2));
          f_suggested := [lit 16 (-1); lit 38 (-1); lit 51 (-1)] |};
     "PetalWidthCm" :=
       {| f_label := "Petal Width (cm)";
          f_min := lit 1 (-1); f_max := lit 25 (-1); f_step := lit 1 (-1);
          f_mean := lit 120 (-2); f_iqr := (lit 30 (-2), lit 180 (-2));
          f_suggested := [lit 3 (-1); lit 12 (-1); lit 18 (-1)] |} ]}.

(** [DEFAULTS = {k: v["mean"] for k, v in IRIS_FEATURES.items()}] *)
Definition DEFAULTS : gmap string float := f_mean <$> IRIS_FEATURES.

(** The module-level objects a request can reach. *)
Record Globals := {
  g_IRIS_FEATURES : gmap string FeatureConf;
  g_DEFAULTS : gmap string float
}.

(** The state of the module once it is loaded. *)
Definition module_load : Globals :=
  {| g_IRIS_FEATURES := IRIS_FEATURES; g_DEFAULTS := DEFAULTS |}.

(** Exceptions that can travel through the handler. *)
Inductive exn :=
| CustomException (message : string)
| KeyError (key : string)
| ModelError (text : string).

(** What the handler does besides computing its response. *)
Inductive event :=
| Predict (sl sw pl pw : float)
| LogInfo (msg : string)
| LogError (msg : string).

(** The route accepts GET and POST (and HEAD, which comes with GET).
    The form is given by the first value posted for each field name. *)
Inductive Method := GET | POST | HEAD.

Record Request := {
  method : Method;
  form : gmap string string
}.

(** The keyword arguments handed to [render_template]. *)
Record Response := {
  r_prediction : option string;
  r_error : option string;
  r_features : gmap string FeatureConf;
  r_inputs : gmap string float
}.

(** The store: module globals, the locals of [index], the effects so
    far. *)
Record State := {
  st_globals : Globals;
  st_prediction : option string;
  st_error : option string;
  st_inputs : gmap string float;
  st_trace : list event
}.

Inductive outcome (A : Type) :=
| Return (a : A)
| Raise (e : exn).
Arguments Return {A} a.
Arguments Raise {A} e.

Definition M (A : Type) : Type := State -> outcome A * State.

Definition ret {A} (a : A) : M A := fun st => (Return a, st).
Definition raise {A} (e : exn) : M A := fun st => (Raise e, st).
Definition bind {A B} (m : M A) (k : A -> M B) : M B :=
  fun st =>
    match m st with
    | (Return a, st') => k a st'
    | (Raise e, st') => (Raise e, st')
    end.
(** [try: body except Exception as e: handler e] *)
Definition try_except {A} (body : M A) (handler : exn -> M A) : M A :=
  fun st =>
    match body st with
    | (Return a, st') => (Return a, st')
    | (Raise e, st') => handler e st'
    end.

#[local] Instance M_ret : MRet M := @ret.
#[local] Instance M_bind : MBind M := fun A B k m => bind m k.

Definition emit (ev : event) : M unit :=
  fun st =>
    (Return tt,
     {| st_globals := st_globals st; st_prediction := st_prediction st;
        st_error := st_error st; st_inputs := st_inputs st;
        st_trace := st_trace st ++ [ev] |}).

Definition read_IRIS_FEATURES : M (gmap string FeatureConf) :=
  fun st => (Return (g_IRIS_FEATURES (st_globals st)), st).
Definition read_DEFAULTS : M (gmap string float) :=
  fun st => (Return (g_DEFAULTS (st_globals st)), st).

Definition set_prediction (p : option string) : M unit :=
  fun st =>
    (Return tt,
     {| st_globals := st_globals st; st_prediction := p;
        st_error := st_error st; st_inputs := st_inputs st;
        st_trace := st_trace st |}).
Definition set_error (e : option string) : M unit :=
  fun st =>
    (Return tt,
     {| st_globals := st_globals st; st_prediction := st_prediction st;
        st_error := e; st_inputs := st_inputs st;
        st_trace := st_trace st |}).
Definition set_inputs (i : gmap string float) : M unit :=
  fun st =>
    (Return tt,
     {| st_globals := st_globals st; st_prediction := st_prediction st;
        st_error := st_error st; st_inputs := i;
        st_trace := st_trace st |}).

(** [render_template("index.html", prediction=prediction, error=error,
    features=..., inputs=inputs)]: the response is the tuple of keyword
    arguments, read from the locals. *)
Definition render_template (features : gmap string FeatureConf) : M Response :=
  fun st =>
    (Return {| r_prediction := st_prediction st; r_error := st_error st;
               r_features := features; r_inputs := st_inputs st |}, st).

(** [request.form.get(key, "")] *)
Definition form_get (request : Request) (key : string) : string :=
  default "" (form request !! key).

Section Serving.

(** The persisted classifier: [model.predict(data)[0]] either gives a
    class label or raises; [inr] carries the text of the exception. *)
Variable model_predict : float -> float -> float -> float -> string + string.

(** [str(e)] for the project's [CustomException], whose class is
    imported from [src.custom_exception]; the fallback class of
    [app.py] prints the message itself. *)
Variable CustomException_str : string -> string.

Definition exn_str (e : exn) : string :=
  match e with
  | CustomException message => CustomException_str message
  | KeyError key => "'" ++ key ++ "'"
  | ModelError text => text
  end.

Definition _parse_and_validate (name value : string) : M float :=
  features ← read_IRIS_FEATURES;
  conf ← match features !! name with
          | Some conf => ret conf
          | None => raise (KeyError name)
          end;
  (* Convert to float *)
  x ← match py_float value with
       | Some x => ret x
       | None =>
           raise (CustomException (f_label conf ++ ": value must be numeric."))
       end;
  (* Range validation *)
  if ltb x (f_min conf) || gtb x (f_max conf) then
    raise (CustomException
             (f_label conf ++ ": " ++ py_repr x ++ " is out of range "
                ++ "[" ++ py_repr (f_min conf) ++ ", "
                ++ py_repr (f_max conf) ++ "]."))
  else ret x.

Definition predict (sl sw pl pw : float) : M string :=
  emit (Predict sl sw pl pw);;
  match model_predict sl sw pl pw with
  | inl label => ret label
  | inr text => raise (ModelError text)
  end.

Definition index (request : Request) : M Response :=
  set_prediction None;;
  set_error None;;
  (* Persist user inputs on page state *)
  defaults ← read_DEFAULTS;
  set_inputs defaults;;
  match method request with
  | POST =>
       try_except
         (sl ← _parse_and_validate "SepalLengthCm" (form_get request "SepalLengthCm");
          sw ← _parse_and_validate "SepalWidthCm" (form_get request "SepalWidthCm");
          pl ← _parse_and_validate "PetalLengthCm" (form_get request "PetalLengthCm");
          pw ← _parse_and_validate "PetalWidthCm" (form_get request "PetalWidthCm");
          set_inputs {[ "SepalLengthCm" := sl; "SepalWidthCm" := sw;
                        "PetalLengthCm" := pl; "PetalWidthCm" := pw ]};;
          prediction ← predict sl sw pl pw;
          set_prediction (Some prediction);;
          emit (LogInfo ("Prediction successful: " ++ prediction)))
         (fun e =>
            set_error (Some (exn_str e));;
            emit (LogError ("Prediction failed: " ++ exn_str e)))
  | _ => ret tt
  end;;
  features ← read_IRIS_FEATURES;
  render_template features.

End Serving.

(** The fallback [CustomException] defined in [app.py]: [str] of it is
    its message. *)
Definition fallback_str (message : string) : string := message.

(** A state at the start of a request: the loaded globals, nothing
    logged yet. *)
Definition fresh (g : Globals) : State :=
  {| st_globals := g; st_prediction := None; st_error := None;
     st_inputs := ∅; st_trace := [] |}.

Definition post (sl sw pl pw : string) : Request :=
  {| method := POST;
     form := {[ "SepalLengthCm" := sl; "SepalWidthCm" := sw;
                "PetalLengthCm" := pl; "PetalWidthCm" := pw ]} |}.

(** ** Notions used to state the properties of the handler *)

Definition range_message (conf : FeatureConf) (x : float) : string :=
  f_label conf ++ ": " ++ py_repr x ++ " is out of range "
    ++ "[" ++ py_repr (f_min conf) ++ ", " ++ py_repr (f_max conf) ++ "].".

Definition parse_message (conf : FeatureConf) : string :=
  f_label conf ++ ": value must be numeric.".

(** The outcome of [_parse_and_validate] as a function of the
    configuration it reads (see [parse_and_validate_run]). *)
Definition validate_field (features : gmap string FeatureConf)
           (name value : string) : outcome float :=
  match features !! name with
  | None => Raise (KeyError name)
  | Some conf =>
      match py_float value with
      | None => Raise (CustomException (parse_message conf))
      | Some x =>
          if ltb x (f_min conf) || gtb x (f_max conf)
          then Raise (CustomException (range_message conf x))
          else Return x
      end
  end.

(** The four fields in the order in which [index] validates them. *)
Definition field_order : list string :=
  ["SepalLengthCm"; "SepalWidthCm"; "PetalLengthCm"; "PetalWidthCm"].

(** The first failure met when the fields are validated in that order. *)
Fixpoint first_failure (features : gmap string FeatureConf)
         (request : Request) (names : list string) : option exn :=
  match names with
  | [] => None
  | name :: rest =>
      match validate_field features name (form_get request name) with
      | Raise e => Some e
      | Return _ => first_failure features request rest
      end
  end.

Definition is_predict (ev : event) : bool :=
  match ev with Predict _ _ _ _ => true | _ => false end.

(** The model is not called between two states when no [Predict] event
    was added to the trace. *)
Definition model_not_invoked (st st' : State) : Prop :=
  exists evs, st_trace st' = (st_trace st ++ evs)%list
              /\ forallb (fun ev => negb (is_predict ev)) evs = true.

(** Text that is [nan] up to the case of its letters. *)
Definition nan_text (value : string) : Prop :=
  map lower (String.list_ascii_of_string value)
  = String.list_ascii_of_string "nan".

(** The state in which the [try] block of [index] starts. *)
Definition entered (st : State) : State :=
  {| st_globals := st_globals st; st_prediction := None; st_error := None;
     st_inputs := g_DEFAULTS (st_globals st); st_trace := st_trace st |}.

(** The state after a failure [e] inside the [try] block. *)
Definition failed (cstr : string -> string) (inputs : gmap string float)
           (evs : list event) (e : exn) (st : State) : State :=
  {| st_globals := st_globals st; st_prediction := None;
     st_error := Some (exn_str cstr e); st_inputs := inputs;
     st_trace := (st_trace st ++ evs)
                   ++ [LogError ("Prediction failed: " ++ exn_str cstr e)] |}.

Definition response_of (st : State) : Response :=
  {| r_prediction := st_prediction st; r_error := st_error st;
     r_features := g_IRIS_FEATURES (st_globals st); r_inputs := st_inputs st |}.

Definition posted_inputs (sl sw pl pw : float) : gmap string float :=
  {[ "SepalLengthCm" := sl; "SepalWidthCm" := sw;
     "PetalLengthCm" := pl; "PetalWidthCm" := pw ]}.

(** The state after a prediction [label] for validated values. *)
Definition predicted (sl sw pl pw : float) (label : string) (st : State) : State :=
  {| st_globals := st_globals st; st_prediction := Some label;
     st_error := None; st_inputs := posted_inputs sl sw pl pw;
     st_trace := (st_trace st ++ [Predict sl sw pl pw])
                   ++ [LogInfo ("Prediction successful: " ++ label)] |}.

(** A predictor that answers one fixed label, to run the handler on
    concrete requests. *)
Definition constant_model (label : string) : float -> float -> float -> float -> string + string :=
  fun _ _ _ _ => inl label.

(** [min <= x <= max] for the bounds of a feature. *)
Definition within (conf : FeatureConf) (x : float) : bool :=
  SFleb (f_min conf) x && SFleb x (f_max conf).

(** Text made of white space only (the empty text included). *)
Definition blank (value : string) : bool :=
  forallb is_space (String.list_ascii_of_string value).

(** A predictor that raises with a fixed text. *)
Definition failing_model (text : string) : float -> float -> float -> float -> string + string :=
  fun _ _ _ _ => inr text.

End App.

(* ===================================================================== *)
(** * [src/data_processing.py]: outlier handling and the train/test split *)
(* ===================================================================== *)

Module DataProcessing.
Import PyFloat.

Local Open Scope Q_scope.

(** ** Frames
    A column is numeric or holds text; a frame has a row index (the
    labels [0 .. n-1] after [read_csv]) and named columns with one value
    per row.  A numeric column is a [float64] column: its values are
    binary64 numbers, NaN standing for a missing value.  The calls to
    the logger are left out of this module. *)
Inductive Column :=
| NumCol (values : list float)
| ObjCol (values : list string).

Record DataFrame := {
  df_index : list nat;
  df_columns : gmap string Column
}.

Record Series := {
  s_index : list nat;
  s_values : Column
}.

Inductive outcome (A : Type) :=
| Ok (a : A)
| Err (message : string).
Arguments Ok {A} a.
Arguments Err {A} message.

(** ** binary64 arithmetic
    [+], [-], [*], [/] and [<=] on doubles: round to nearest, ties to
    even; an overflow gives an infinity, [inf - inf] and [inf * 0] give
    NaN, and every comparison with NaN is false. *)
Definition fadd (x y : float) : float := SFadd prec emax x y.
Definition fsub (x y : float) : float := SFsub prec emax x y.
Definition fmul (x y : float) : float := SFmul prec emax x y.
Definition fdiv (x y : float) : float := SFdiv prec emax x y.
Definition fleb (x y : float) : bool := SFleb x y.

(** The double of an integer ([float(z)]). *)
Definition of_int (z : Z) : float := binary_normalize prec emax z 0 false.

Definition isnan (x : float) : bool :=
  match x with
  | S754_nan => true
  | _ => false
  end.

(** [np.floor(x)] as an index, for a finite [x]. *)
Definition ffloor (x : float) : Z :=
  match x with
  | S754_finite s m e =>
      let v := if s then Z.neg m else Z.pos m in
      if (0 <=? e)%Z then (v * 2 ^ e)%Z else (v / 2 ^ (- e))%Z
  | _ => 0%Z
  end.

(** ** Order statistics of a numeric column *)

(** The values in increasing order (the lists sorted here hold no NaN).
    Values that compare equal, that is zeros of either sign, keep their
    order; numpy's partition may order them otherwise, which can only
    change the sign of a zero result. *)
Fixpoint insert_sorted (x : float) (l : list float) : list float :=
  match l with
  | [] => [x]
  | y :: l' => if fleb x y then x :: l else y :: insert_sorted x l'
  end.

Definition sort (l : list float) : list float := foldr insert_sorted [] l.

(** numpy's [_lerp(a, b, t)]: [a + (b - a) * t], and
    [b - (b - a) * (1 - t)] where [t >= 0.5]. *)
Definition lerp (a b t : float) : float :=
  let diff_b_a := fsub b a in
  if fleb (of_decimal false 5 (-1)) t
  then fsub b (fmul diff_b_a (fsub (of_int 1) t))
  else fadd a (fmul diff_b_a t).

(** [Series.quantile(q)] with the default linear interpolation.  pandas
    drops the missing values and hands the rest to [np.percentile]: on
    the [n] sorted values the virtual index is [(n - 1) * q]; the two
    neighbours are at its floor and the next position (both at the last
    position when the virtual index reaches [n - 1]; the index [-1]
    counts from the end); [gamma] is the virtual index minus the previous
    index; the result is [_lerp] of the neighbours.  With no value left
    the result is NaN. *)
Definition quantile (values : list float) (q : float) : float :=
  let arr := sort (List.filter (fun x => negb (isnan x)) values) in
  match arr with
  | [] => nan
  | _ =>
      let n := Z.of_nat (length arr) in
      let virtual_index := fmul (of_int (n - 1)) q in
      let above := fleb (of_int (n - 1)) virtual_index in
      let previous := if above then (-1)%Z else ffloor virtual_index in
      let next := if above then (-1)%Z else (previous + 1)%Z in
      let gamma := fsub virtual_index (of_int previous) in
      let at_index (i : Z) :=
        nth (Z.to_nat (if (i <? 0)%Z then n + i else i)%Z) arr nan in
      lerp (at_index previous) (at_index next) gamma
  end.

(** [np.median]: NaN when a value is missing or the column is empty;
    otherwise the middle value of the sorted column, or the mean
    [(a + b) / 2] of the two middle values when the length is even. *)
Definition median (values : list float) : float :=
  if existsb isnan values then nan
  else
    let s := sort values in
    let n := length s in
    let index := (n / 2)%nat in
    match n with
    | O => nan
    | _ =>
        if Nat.even n
        then fdiv (fadd (nth (index - 1) s nan) (nth index s nan)) (of_int 2)
        else nth index s nan
    end.

(** [Series.replace(to_replace, value)]: every element equal ([==]) to
    [to_replace] becomes [value]. *)
Definition replace (col : list float) (to_replace value : float) : list float :=
  map (fun x => if eqb x to_replace then value else x) col.

(** The test of the loop body: [i > Upper_value or i < Lower_value]. *)
Definition out_of_bounds (Lower_value Upper_value i : float) : bool :=
  gtb i Upper_value || ltb i Lower_value.

Definition Q1_of (col : list float) : float :=
  quantile col (of_decimal false 25 (-2)).
Definition Q3_of (col : list float) : float :=
  quantile col (of_decimal false 75 (-2)).
Definition IQR_of (col : list float) : float := fsub (Q3_of col) (Q1_of col).
Definition Lower_value (col : list float) : float :=
  fsub (Q1_of col) (fmul (of_decimal false 15 (-1)) (IQR_of col)).
Definition Upper_value (col : list float) : float :=
  fadd (Q3_of col) (fmul (of_decimal false 15 (-1)) (IQR_of col)).

(** One pass of the loop body for the value [i] on the current column. *)
Definition outlier_step (lo up med : float) (cur : list float) (i : float)
  : list float :=
  if out_of_bounds lo up i then replace cur i med else cur.

(** The loop [for i in self.df[column]] over the values the column had
    when the loop started; each step rebinds the column. *)
Definition outlier_loop (lo up med : float) (values cur : list float)
  : list float :=
  fold_left (outlier_step lo up med) values cur.

(** The body of [handle_outliers] on the values of the column: bounds
    and median are computed first, from the column as it is given. *)
Definition handle_outliers_values (col : list float) : list float :=
  let Lower := Lower_value col in
  let Upper := Upper_value col in
  let sepal_median := median col in
  outlier_loop Lower Upper sepal_median col col.

(** The same loop when the iterator reads the column through a view
    that the assignments write into: position [k] is read after the
    earlier replacements. *)
Definition outlier_loop_view (lo up med : float) (n : nat) (cur : list float)
  : list float :=
  fold_left (fun cur k => outlier_step lo up med cur (nth k cur nan))
            (seq 0 n) cur.

Definition handle_outliers_values_view (col : list float) : list float :=
  outlier_loop_view (Lower_value col) (Upper_value col) (median col)
                    (length col) col.

(** ** The object *)
Record DataProcessing := {
  file_path : string;
  df : option DataFrame;
  processed_data_path : string
}.

(** [DataProcessing(file_path)] *)
Definition __init__ (file_path : string) : DataProcessing :=
  {| file_path := file_path; df := None;
     processed_data_path := "artifacts/processed" |}.

Definition set_df (self : DataProcessing) (d : DataFrame) : DataProcessing :=
  {| file_path := file_path self; df := Some d;
     processed_data_path := processed_data_path self |}.

(** [handle_outliers(column)]: a missing frame, a missing column or a
    column that is not numeric makes a library call raise, which is
    wrapped in [CustomException("Failed to handle outliers", e)]. *)
Definition handle_outliers (self : DataProcessing) (column : string)
  : outcome DataProcessing :=
  match df self with
  | Some d =>
      match df_columns d !! column with
      | Some (NumCol values) =>
          Ok (set_df self
                {| df_index := df_index d;
                   df_columns :=
                     <[column := NumCol (handle_outliers_values values)]>
                       (df_columns d) |})
      | _ => Err "Failed to handle outliers"
      end
  | None => Err "Failed to handle outliers"
  end.

(** ** Positional selection of rows ([iloc], [_safe_indexing]) *)
Definition pick {A} (l : list A) (idx : list nat) : list A :=
  omap (fun i => l !! i) idx.

Definition col_pick (idx : list nat) (c : Column) : Column :=
  match c with
  | NumCol values => NumCol (pick values idx)
  | ObjCol values => ObjCol (pick values idx)
  end.

Definition in_range (n : nat) (idx : list nat) : bool :=
  forallb (fun i => i <? n)%nat idx.

Definition frame_iloc (d : DataFrame) (idx : list nat) : option DataFrame :=
  if in_range (length (df_index d)) idx then
    Some {| df_index := pick (df_index d) idx;
            df_columns := col_pick idx <$> df_columns d |}
  else None.

Definition series_iloc (s : Series) (idx : list nat) : option Series :=
  if in_range (length (s_index s)) idx then
    Some {| s_index := pick (s_index s) idx;
            s_values := col_pick idx (s_values s) |}
  else None.

(** [df[[c1, ..., ck]]]: [None] is the [KeyError] of a missing column. *)
Definition select (d : DataFrame) (names : list string) : option DataFrame :=
  cols ← mapM (fun c => pair c <$> df_columns d !! c) names;
  Some {| df_index := df_index d; df_columns := list_to_map cols |}.

(** [df[c]] *)
Definition column (d : DataFrame) (name : string) : option Series :=
  c ← df_columns d !! name;
  Some {| s_index := df_index d; s_values := c |}.

(** ** [train_test_split] *)

(** [_validate_shuffle_split] for a fractional [test_size] and no
    [train_size]: [n_test = ceil(test_size * n_samples)], the rest is
    the train set, and an empty train set is refused ([None] is the
    [ValueError]).  The product is exact here; for [test_size = 0.2] the
    rounded product of the library has the same ceiling. *)
Definition validate_shuffle_split (n_samples : nat) (test_size : Q)
  : option (nat * nat) :=
  if Qle_bool test_size 0 || Qle_bool 1 test_size then None
  else
    let n_test := Z.to_nat (Qceiling (test_size * inject_Z (Z.of_nat n_samples))) in
    let n_train := (n_samples - n_test)%nat in
    if (n_train =? 0)%nat then None else Some (n_train, n_test).

(** What [joblib.dump] writes. *)
Inductive Artifact :=
| FramePkl (d : DataFrame)
| SeriesPkl (s : Series).

Section Split.

(** numpy's [RandomState]: seeding and [permutation(n)], which also
    advances the generator. *)
Variable RandomState : Type.
Variable RandomState_seed : Z -> RandomState.
Variable permutation : RandomState -> nat -> list nat * RandomState.

(** The process around the object: the global generator of numpy and
    the files written so far. *)
Record World := {
  w_rng : RandomState;
  w_files : gmap string Artifact
}.

(** [check_random_state]: [None] is the global generator, an integer
    seeds a fresh one. *)
Definition shuffle_indices (w : World) (random_state : option Z) (n : nat)
  : list nat * World :=
  match random_state with
  | Some seed => (fst (permutation (RandomState_seed seed) n), w)
  | None =>
      let '(p, g) := permutation (w_rng w) n in
      (p, {| w_rng := g; w_files := w_files w |})
  end.

(** [train_test_split(X, Y, test_size=..., random_state=...)] with
    shuffling and no stratification: the first [n_test] entries of
    the permutation are the test rows, the next [n_train] the train
    rows. *)
Definition train_test_split (w : World) (X : DataFrame) (Y : Series)
           (test_size : Q) (random_state : option Z)
  : option (DataFrame * DataFrame * Series * Series) * World :=
  let n_samples := length (df_index X) in
  if negb (length (s_index Y) =? n_samples)%nat then (None, w)
  else
    match validate_shuffle_split n_samples test_size with
    | None => (None, w)
    | Some (n_train, n_test) =>
        let '(p, w') := shuffle_indices w random_state n_samples in
        let ind_test := take n_test p in
        let ind_train := take n_train (drop n_test p) in
        (X_train ← frame_iloc X ind_train;
         X_test ← frame_iloc X ind_test;
         y_train ← series_iloc Y ind_train;
         y_test ← series_iloc Y ind_test;
         Some (X_train, X_test, y_train, y_test), w')
    end.

Definition dump (w : World) (path : string) (a : Artifact) : World :=
  {| w_rng := w_rng w; w_files := <[path := a]> (w_files w) |}.

(** [os.path.join(dir, name)] for a relative [name]. *)
Definition path_join (dir name : string) : string :=
  (dir ++ "/" ++ name)%string.

Definition feature_columns : list string :=
  ["SepalLengthCm"; "SepalWidthCm"; "PetalLengthCm"; "PetalWidthCm"]%string.

(** [split_data()]: any failure is wrapped in
    [CustomException("Failed to split data", e)]. *)
Definition split_data (self : DataProcessing) (w : World) : outcome unit * World :=
  match df self with
  | None => (Err "Failed to split data", w)
  | Some d =>
      match select d feature_columns, column d "Species" with
      | Some X, Some Y =>
          match train_test_split w X Y (2 # 10) (Some 42%Z) with
          | (Some (X_train, X_test, y_train, y_test), w1) =>
              let dir := processed_data_path self in
              let w2 := dump w1 (path_join dir "X_train.pkl") (FramePkl X_train) in
              let w3 := dump w2 (path_join dir "X_test.pkl") (FramePkl X_test) in
              let w4 := dump w3 (path_join dir "y_train.pkl") (SeriesPkl y_train) in
              let w5 := dump w4 (path_join dir "y_test.pkl") (SeriesPkl y_test) in
              (Ok tt, w5)
          | (None, w1) => (Err "Failed to split data", w1)
          end
      | _, _ => (Err "Failed to split data", w)
      end
  end.

(** [pd.read_csv(path)]: the frame read, or [None] when reading fails. *)
Variable read_csv : string -> option DataFrame.

(** [load_data()] *)
Definition load_data (self : DataProcessing) : outcome DataProcessing :=
  match read_csv (file_path self) with
  | Some d => Ok (set_df self d)
  | None => Err "Failed to read data"
  end.

(** [run()]: load, handle the outliers of [SepalWidthCm], split. *)
Definition run (self : DataProcessing) (w : World)
  : outcome DataProcessing * World :=
  match load_data self with
  | Err message => (Err message, w)
  | Ok self1 =>
      match handle_outliers self1 "SepalWidthCm" with
      | Err message => (Err message, w)
      | Ok self2 =>
          match split_data self2 w with
          | (Ok _, w') => (Ok self2, w')
          | (Err message, w') => (Err message, w')
          end
      end
  end.

End Split.

Arguments w_rng {RandomState} w.
Arguments w_files {RandomState} w.
Arguments shuffle_indices {RandomState} RandomState_seed permutation w random_state n.
Arguments train_test_split {RandomState} RandomState_seed permutation w X Y test_size random_state.
Arguments dump {RandomState} w path a.
Arguments split_data {RandomState} RandomState_seed permutation self w.
Arguments run {RandomState} RandomState_seed permutation read_csv self w.

(** ** Notions used to state the properties of the data preparation *)

(** What one value of the column becomes: the median when it is out of
    bounds, itself otherwise. *)
Definition clip_to_median (lo up med x : float) : float :=
  if out_of_bounds lo up x then med else x.

(** Does the value [x] occur among [seen] (up to [==] on floats)? *)
Definition occurs (x : float) (seen : list float) : bool :=
  existsb (eqb x) seen.

(** [Lower_value <= v <= Upper_value]. *)
Definition within_bounds (lo up v : float) : bool :=
  fleb lo v && fleb v up.

(** The column after the values [seen] have been visited: a value is
    replaced as soon as an equal out-of-bounds value has been visited,
    wherever it stands in the column. *)
Definition after_visiting (lo up med : float) (seen col : list float)
  : list float :=
  map (fun x => if out_of_bounds lo up x && occurs x seen then med else x) col.

(** The four files of the split, as they stand in a world. *)
Definition persisted_split {RandomState} (self : DataProcessing)
           (w : World RandomState) : list (option Artifact) :=
  map (fun name => w_files w !! path_join (processed_data_path self) name)
      ["X_train.pkl"; "X_test.pkl"; "y_train.pkl"; "y_test.pkl"]%string.

(** A generator whose [permutation] reverses [0 .. n-1], to run the
    split on concrete frames. *)
Definition reversing_permutation (g : unit) (n : nat) : list nat * unit :=
  (rev (seq 0 n), g).

(** A generator with one bit of state: [permutation] gives [0 .. n-1] or
    its reverse according to the bit, and flips it. *)
Definition flipping_permutation (g : bool) (n : nat) : list nat * bool :=
  (if g then seq 0 n else rev (seq 0 n), negb g).

(** The rows of a frame, of a series, at the positions [idx]. *)
Definition frame_rows (d : DataFrame) (idx : list nat) : DataFrame :=
  {| df_index := pick (df_index d) idx;
     df_columns := col_pick idx <$> df_columns d |}.

Definition series_rows (s : Series) (idx : list nat) : Series :=
  {| s_index := pick (s_index s) idx;
     s_values := col_pick idx (s_values s) |}.

(** The positions that [split_data] sends to the train set and to the
    test set among [n] rows. *)
Definition split_positions {RandomState} (RandomState_seed : Z -> RandomState)
           (permutation : RandomState -> nat -> list nat * RandomState)
           (n : nat) : list nat * list nat :=
  let p := fst (permutation (RandomState_seed 42%Z) n) in
  let n_test := Z.to_nat (Qceiling ((2 # 10) * inject_Z (Z.of_nat n))) in
  (take (n - n_test) (drop n_test p), take n_test p).

(** The values of a column, whatever its kind, as a count. *)
Definition column_length (c : Column) : nat :=
  match c with
  | NumCol values => length values
  | ObjCol values => length values
  end.

(** The values of a numeric column all satisfy [P]. *)
Definition numeric_all (P : float -> Prop) (c : option Column) : Prop :=
  exists values, c = Some (NumCol values) /\ Forall P values.

(** The four paths that [split_data] writes. *)
Definition split_paths (self : DataProcessing) : list string :=
  map (path_join (processed_data_path self))
      ["X_train.pkl"; "X_test.pkl"; "y_train.pkl"; "y_test.pkl"]%string.

(** The frame restricted to the four measurement columns. *)
Definition features_of (d : DataFrame) : DataFrame :=
  {| df_index := df_index d;
     df_columns :=
       filter (fun kv : string * Column => kv.1 ∈ feature_columns)
              (df_columns d) |}.

(** The target column of the frame, as a series. *)
Definition target_of (d : DataFrame) (species : Column) : Series :=
  {| s_index := df_index d; s_values := species |}.

(** The frame read from the file, with the sepal widths [widths] after
    their outliers have been handled. *)
Definition cleaned_frame (raw : DataFrame) (widths : list float) : DataFrame :=
  {| df_index := df_index raw;
     df_columns :=
       <["SepalWidthCm"%string := NumCol (handle_outliers_values widths)]>
         (df_columns raw) |}.

(** The double nearest to a decimal of the data file, the decimal being
    written as a fraction ([3.5] is [35 # 10]). *)
Definition dec (q : Q) : float :=
  fdiv (of_int (Qnum q)) (of_int (Zpos (Qden q))).

(** A frame with the five columns of the data set, given by rows of
    decimals. *)
Definition iris_frame (rows : list (Q * Q * Q * Q * string)) : DataFrame :=
  {| df_index := seq 0 (length rows);
     df_columns :=
       {[ "SepalLengthCm" := NumCol (map (fun r => dec r.1.1.1.1) rows);
          "SepalWidthCm" := NumCol (map (fun r => dec r.1.1.1.2) rows);
          "PetalLengthCm" := NumCol (map (fun r => dec r.1.1.2) rows);
          "PetalWidthCm" := NumCol (map (fun r => dec r.1.2) rows);
          "Species" := ObjCol (map (fun r => r.2) rows) ]}%string |}.

End DataProcessing.

(* ===================================================================== *)
(** * [src/model_training.py]: evaluation *)
(* ===================================================================== *)

Module ModelTraining.

Local Open Scope string_scope.

(** ** Sorted unique labels ([np.unique], [unique_labels]) *)
Fixpoint insert_unique (x : string) (l : list string) : list string :=
  match l with
  | [] => [x]
  | y :: l' =>
      match String.compare x y with
      | Lt => x :: l
      | Eq => l
      | Gt => y :: insert_unique x l'
      end
  end.

Definition np_unique (l : list string) : list string :=
  foldr insert_unique [] l.

(** ** [confusion_matrix(y_true, y_pred)]
    With no [labels] argument the classes are those that occur in
    [y_true] or in [y_pred], in sorted order; entry [(i, j)] counts the
    samples whose true class is the [i]-th and whose predicted class is
    the [j]-th. *)
Definition cm_labels (y_true y_pred : list string) : list string :=
  np_unique (y_true ++ y_pred).

Definition count_pairs (actual predicted : string)
           (pairs : list (string * string)) : nat :=
  length (filter (fun p => fst p = actual /\ snd p = predicted) pairs).

Definition confusion_matrix (y_true y_pred : list string) : list (list nat) :=
  let labels := cm_labels y_true y_pred in
  let pairs := zip y_true y_pred in
  map (fun actual =>
         map (fun predicted => count_pairs actual predicted pairs) labels)
      labels.

(** The figure handed to [plt.savefig]: the heat map of [cm] with its
    tick labels, title and axis labels. *)
Record Figure := {
  fig_data : list (list nat);
  fig_xticklabels : list string;
  fig_yticklabels : list string;
  fig_title : string;
  fig_xlabel : string;
  fig_ylabel : string
}.

Inductive event :=
| LogInfo (msg : string)
| LogError (msg : string)
| SaveFig (path : string) (fig : Figure).

Record ModelTraining := {
  processed_data_path : string;
  model_path : string
}.

(** [ModelTraining()] *)
Definition __init__ : ModelTraining :=
  {| processed_data_path := "artifacts/processed";
     model_path := "artifacts/models" |}.

(** [load_data()]: the four objects that [joblib.load] reads from the
    processed directory, in the order [X_train, X_test, y_train, y_test];
    a file that is not there makes [joblib.load] raise, which is wrapped
    in [CustomException("Failed to load processed data", e)].  The calls
    to the logger are left out of this method. *)
Definition load_data (self : ModelTraining)
           (files : gmap string DataProcessing.Artifact)
  : DataProcessing.outcome
      (DataProcessing.Artifact * DataProcessing.Artifact
       * DataProcessing.Artifact * DataProcessing.Artifact) :=
  let dir := processed_data_path self in
  match files !! DataProcessing.path_join dir "X_train.pkl",
        files !! DataProcessing.path_join dir "X_test.pkl",
        files !! DataProcessing.path_join dir "y_train.pkl",
        files !! DataProcessing.path_join dir "y_test.pkl" with
  | Some X_train, Some X_test, Some y_train, Some y_test =>
      DataProcessing.Ok (X_train, X_test, y_train, y_test)
  | _, _, _, _ => DataProcessing.Err "Failed to load processed data"
  end.

Section Evaluate.

(** The feature rows of the test split; the fitted classifier maps
    them to one label per row, or raises ([inr] carries the text of the
    exception). *)
Variable Rows : Type.
Variable model_predict : Rows -> list string + string.

(** The four scores of [sklearn.metrics] and the [:.4f] format. *)
Variable Score : Type.
Variable accuracy_score : list string -> list string -> Score.
Variable precision_score_weighted : list string -> list string -> Score.
Variable recall_score_weighted : list string -> list string -> Score.
Variable f1_score_weighted : list string -> list string -> Score.
Variable format_4f : Score -> string.

(** [evaluate_model(X_test, y_test)]: the method returns nothing
    ([Some tt]) or raises [CustomException("Failed to evaluate model", e)]
    ([None]); the trace is what was logged and saved. *)
Definition evaluate_model (self : ModelTraining) (X_test : Rows)
           (y_test : list string) : option unit * list event :=
  match model_predict X_test with
  | inr text => (None, [LogError ("Error during model evaluation: " ++ text)])
  | inl y_pred =>
      let accuracy := accuracy_score y_test y_pred in
      let precision := precision_score_weighted y_test y_pred in
      let recall := recall_score_weighted y_test y_pred in
      let f1 := f1_score_weighted y_test y_pred in
      let cm := confusion_matrix y_test y_pred in
      let fig :=
        {| fig_data := cm;
           fig_xticklabels := np_unique y_test;
           fig_yticklabels := np_unique y_test;
           fig_title := "Confusion Matrix";
           fig_xlabel := "Predicted Label";
           fig_ylabel := "Actual Label" |} in
      (Some tt,
       [ LogInfo ("Accuracy Score  : " ++ format_4f accuracy);
         LogInfo ("Precision Score : " ++ format_4f precision);
         LogInfo ("Recall Score    : " ++ format_4f recall);
         LogInfo ("F1 Score        : " ++ format_4f f1);
         SaveFig (model_path self ++ "/" ++ "confusion_matrix.png") fig;
         LogInfo "Confusion matrix saved successfully." ])
  end.

End Evaluate.

(** ** Notions used to state the properties of the evaluation *)

(** The strict order in which [np_unique] sorts. *)
Definition label_lt (a b : string) : Prop := String.compare a b = Lt.

(** The sum of the entries of a matrix, and of its diagonal. *)
Definition matrix_total (cm : list (list nat)) : nat :=
  sum_list (sum_list <$> cm).

Definition matrix_diagonal (cm : list (list nat)) : nat :=
  sum_list (imap (fun i row => default 0%nat (row !! i)) cm).

(** The number of samples whose predicted label is the true one. *)
Definition correct_predictions (y_true y_pred : list string) : nat :=
  length (filter (fun p : string * string => p.1 = p.2) (zip y_true y_pred)).

(** The figures that a trace saves, with their paths. *)
Definition saved_figures (trace : list event) : list (string * Figure) :=
  omap (fun e => match e with
                 | SaveFig path fig => Some (path, fig)
                 | _ => None
                 end) trace.

End ModelTraining.

(* ===================================================================== *)
(** * Properties of the form handler *)
(* ===================================================================== *)

Module AppProps.
Import PyFloat App.

Local Open Scope string_scope.

(** ** Running the monadic code *)

Lemma parse_and_validate_run name value st :
  _parse_and_validate name value st
  = (validate_field (g_IRIS_FEATURES (st_globals st)) name value, st).
Proof.
  unfold _parse_and_validate, validate_field, mbind, M_bind, bind,
    read_IRIS_FEATURES, ret, raise, parse_message, range_message.
  destruct (g_IRIS_FEATURES (st_globals st) !! name) as [conf|]; [|reflexivity].
  destruct (py_float value) as [x|]; [|reflexivity].
  destruct (ltb x (f_min conf) || gtb x (f_max conf)); reflexivity.
Qed.

Ltac run_index :=
  unfold index, mbind, M_bind, bind, set_prediction, set_error, read_DEFAULTS,
    set_inputs, read_IRIS_FEATURES, render_template, try_except, ret, raise,
    predict, emit;
  cbn [st_globals st_prediction st_error st_inputs st_trace].

Ltac step_field H :=
  rewrite parse_and_validate_run;
  cbn [st_globals st_prediction st_error st_inputs st_trace];
  rewrite H;
  cbn [st_globals st_prediction st_error st_inputs st_trace].

Lemma index_other_method model cstr request st :
  method request <> POST ->
  index model cstr request st = (Return (response_of (entered st)), entered st).
Proof.
  intros Hm. run_index. destruct (method request); congruence || reflexivity.
Qed.

Lemma index_post_failure model cstr request st e :
  method request = POST ->
  first_failure (g_IRIS_FEATURES (st_globals st)) request field_order = Some e ->
  let st' := failed cstr (g_DEFAULTS (st_globals st)) [] e st in
  index model cstr request st = (Return (response_of st'), st').
Proof.
  intros Hm Hf. run_index. rewrite Hm.
  unfold field_order in Hf. cbn [first_failure] in Hf.
  unfold failed, response_of. rewrite app_nil_r.
  repeat (rewrite parse_and_validate_run;
    cbn [st_globals st_prediction st_error st_inputs st_trace];
    match goal with
    | H : context [validate_field ?f ?n ?v] |- _ =>
        destruct (validate_field f n v);
        cbn [st_globals st_prediction st_error st_inputs st_trace];
        [| injection H as <-; reflexivity]
    end).
  discriminate.
Qed.

Lemma index_post_valid model cstr request st sl sw pl pw :
  method request = POST ->
  let features := g_IRIS_FEATURES (st_globals st) in
  validate_field features "SepalLengthCm" (form_get request "SepalLengthCm") = Return sl ->
  validate_field features "SepalWidthCm" (form_get request "SepalWidthCm") = Return sw ->
  validate_field features "PetalLengthCm" (form_get request "PetalLengthCm") = Return pl ->
  validate_field features "PetalWidthCm" (form_get request "PetalWidthCm") = Return pw ->
  let st' :=
    match model sl sw pl pw with
    | inl label => predicted sl sw pl pw label st
    | inr text =>
        failed cstr (posted_inputs sl sw pl pw) [Predict sl sw pl pw]
               (ModelError text) st
    end in
  index model cstr request st = (Return (response_of st'), st').
Proof.
  intros Hm features H1 H2 H3 H4. subst features. run_index. rewrite Hm.
  step_field H1. step_field H2. step_field H3. step_field H4.
  unfold predicted, failed, response_of, posted_inputs.
  destruct (model sl sw pl pw); reflexivity.
Qed.

(** Either some field fails first, or all four validate. *)
Lemma validation_cases features request :
  (exists e, first_failure features request field_order = Some e)
  \/ (exists sl sw pl pw,
        validate_field features "SepalLengthCm" (form_get request "SepalLengthCm") = Return sl
        /\ validate_field features "SepalWidthCm" (form_get request "SepalWidthCm") = Return sw
        /\ validate_field features "PetalLengthCm" (form_get request "PetalLengthCm") = Return pl
        /\ validate_field features "PetalWidthCm" (form_get request "PetalWidthCm") = Return pw).
Proof.
  unfold field_order. cbn [first_failure].
  destruct (validate_field features "SepalLengthCm" _) as [sl|e]; [|left; eauto].
  destruct (validate_field features "SepalWidthCm" _) as [sw|e]; [|left; eauto].
  destruct (validate_field features "PetalLengthCm" _) as [pl|e]; [|left; eauto].
  destruct (validate_field features "PetalWidthCm" _) as [pw|e]; [|left; eauto].
  right. do 4 eexists. repeat split; reflexivity.
Qed.

Lemma first_failure_exists features request names name e0 :
  name ∈ names ->
  validate_field features name (form_get request name) = Raise e0 ->
  exists e, first_failure features request names = Some e.
Proof.
  induction names as [|n names IH]; intros Hin Hv.
  - inversion Hin.
  - cbn [first_failure].
    destruct (validate_field features n (form_get request n)) as [x|e] eqn:E;
      [|eauto].
    apply IH; [|exact Hv].
    inversion Hin; subst; [congruence | assumption].
Qed.

Lemma first_failure_at features request pre name post e0 :
  Forall (fun n => exists x,
            validate_field features n (form_get request n) = Return x) pre ->
  validate_field features name (form_get request name) = Raise e0 ->
  first_failure features request (pre ++ name :: post) = Some e0.
Proof.
  induction 1 as [|n pre [x Hx] _ IH]; intros Hv; cbn [first_failure app].
  - now rewrite Hv.
  - rewrite Hx. now apply IH.
Qed.

Lemma model_not_invoked_failed cstr inputs e st :
  model_not_invoked st (failed cstr inputs [] e st).
Proof.
  exists [LogError ("Prediction failed: " ++ exn_str cstr e)].
  split; [|reflexivity]. unfold failed. cbn [st_trace]. now rewrite app_nil_r.
Qed.

(** Any failing field blocks the prediction. *)
Lemma failure_blocks_prediction model cstr request st name e0 :
  method request = POST ->
  name ∈ field_order ->
  validate_field (g_IRIS_FEATURES (st_globals st)) name (form_get request name)
  = Raise e0 ->
  exists e resp st',
    first_failure (g_IRIS_FEATURES (st_globals st)) request field_order = Some e
    /\ index model cstr request st = (Return resp, st')
    /\ r_prediction resp = None
    /\ r_error resp = Some (exn_str cstr e)
    /\ model_not_invoked st st'.
Proof.
  intros Hm Hin Hv.
  destruct (first_failure_exists _ _ _ _ _ Hin Hv) as [e He].
  exists e. do 2 eexists. split; [exact He|].
  split; [apply (index_post_failure model cstr request st e Hm He)|].
  repeat split. apply model_not_invoked_failed.
Qed.

Lemma features_keys name conf :
  IRIS_FEATURES !! name = Some conf -> name ∈ field_order.
Proof.
  intros H.
  assert (Hd : dom IRIS_FEATURES = (list_to_set field_order : gset string))
    by (apply (bool_decide_unpack _); vm_compute; exact I).
  apply (elem_of_list_to_set (C := gset string)).
  rewrite <- Hd. apply elem_of_dom. eauto.
Qed.

Lemma SFeqb_finite x s m e :
  SFeqb x (S754_finite s m e) = true -> x = S754_finite s m e.
Proof.
  unfold SFeqb.
  destruct x as [sx|sx| |sx mx ex]; cbn [SFcompare];
    try discriminate; try (destruct s; discriminate);
    try (destruct sx; discriminate).
  destruct sx, s; try discriminate;
    destruct (Z.compare_spec ex e); try discriminate; subst;
    destruct (Pos.compare_cont Eq mx m) eqn:E; try discriminate;
    apply Pos.compare_eq in E; now subst.
Qed.

(** ** The properties *)

(** Claim C5.  A POST request never makes [index] raise: whatever the form
    holds and whatever the model does, the handler returns a response;
    an exception of validation or of the model ends up as the text of
    [error]; and exactly one of [prediction] and [error] is set: a label
    with no error, or an error with no label. *)
Theorem post_returns_label_xor_error
        (model : float -> float -> float -> float -> string + string)
        (cstr : string -> string) (posted : gmap string string) (st : State) :
  let request := {| method := POST; form := posted |} in
  exists resp st',
    index model cstr request st = (Return resp, st')
    /\ ((exists sl sw pl pw label,
            model sl sw pl pw = inl label
            /\ r_prediction resp = Some label /\ r_error resp = None)
        \/ (exists e,
              (first_failure (g_IRIS_FEATURES (st_globals st)) request field_order
               = Some e
               \/ exists sl sw pl pw text,
                   model sl sw pl pw = inr text /\ e = ModelError text)
              /\ r_prediction resp = None
              /\ r_error resp = Some (exn_str cstr e))).
Proof.
  intros request.
  destruct (validation_cases (g_IRIS_FEATURES (st_globals st)) request)
    as [[e He] | (sl & sw & pl & pw & H1 & H2 & H3 & H4)].
  - do 2 eexists. split.
    + apply (index_post_failure model cstr request st e eq_refl He).
    + right. exists e. repeat split. now left.
  - pose proof (index_post_valid model cstr request st sl sw pl pw
                  eq_refl H1 H2 H3 H4) as Hrun.
    cbv zeta in Hrun. do 2 eexists. split; [exact Hrun|].
    destruct (model sl sw pl pw) as [label|text] eqn:Em.
    + left. exists sl, sw, pl, pw, label. repeat split. exact Em.
    + right. exists (ModelError text). repeat split.
      right. exists sl, sw, pl, pw, text. now split.
Qed.

(** Claim C3 (as amended).  On a POST request in which some field fails
    parsing or range validation, the model is not invoked, no prediction
    is set, and the error shown is the first failure in the order
    SepalLengthCm, SepalWidthCm, PetalLengthCm, PetalWidthCm.  Text that
    is not numeric in a field gives the parse error with that field's
    label when the fields before it pass validation, whatever the fields
    after it hold. *)
Theorem first_failure_is_surfaced
        (model : float -> float -> float -> float -> string + string)
        (cstr : string -> string) (request : Request) (st : State)
        (pre post : list string) (name : string) (e0 : exn) :
  method request = POST ->
  st_globals st = module_load ->
  field_order = (pre ++ name :: post)%list ->
  validate_field IRIS_FEATURES name (form_get request name) = Raise e0 ->
  exists e resp st',
    first_failure IRIS_FEATURES request field_order = Some e
    /\ index model cstr request st = (Return resp, st')
    /\ r_prediction resp = None
    /\ r_error resp = Some (exn_str cstr e)
    /\ model_not_invoked st st'
    /\ (Forall (fun n => exists x,
                  validate_field IRIS_FEATURES n (form_get request n) = Return x)
               pre ->
        e = e0
        /\ (py_float (form_get request name) = None ->
            exists conf,
              IRIS_FEATURES !! name = Some conf
              /\ r_error resp
                 = Some (cstr (f_label conf ++ ": value must be numeric.")))).
Proof.
  intros Hm Hg Hord Hv.
  assert (Hin : name ∈ field_order).
  { rewrite Hord. apply elem_of_app. right. constructor. }
  assert (Hf : g_IRIS_FEATURES (st_globals st) = IRIS_FEATURES)
    by now rewrite Hg.
  destruct (failure_blocks_prediction model cstr request st name e0 Hm Hin)
    as (e & resp & st' & He & Hrun & Hp & Herr & Hni).
  { now rewrite Hf. }
  rewrite Hf in He.
  exists e, resp, st'. repeat (split; [assumption|]).
  intros Hpre.
  assert (e = e0) as ->.
  { rewrite Hord in He.
    rewrite (first_failure_at _ _ _ _ _ _ Hpre Hv) in He. congruence. }
  split; [reflexivity|].
  intros Hnone. unfold validate_field in Hv.
  destruct (IRIS_FEATURES !! name) as [conf|] eqn:Ec.
  - exists conf. split; [reflexivity|].
    rewrite Hnone in Hv. injection Hv as <-. exact Herr.
  - rewrite Hord in Hin.
    assert (is_Some (IRIS_FEATURES !! name)) as [c Hc].
    { apply elem_of_dom.
      assert (Hd : dom IRIS_FEATURES = (list_to_set field_order : gset string))
        by (apply (bool_decide_unpack _); vm_compute; exact I).
      rewrite Hd. apply elem_of_list_to_set. now rewrite Hord. }
    congruence.
Qed.

(** The theorem at the request [5.1, abc, 1.4, 0.2]: the second field is
    the first to fail. *)
Lemma first_failure_is_surfaced_witness :
  let request := post "5.1" "abc" "1.4" "0.2" in
  let st := fresh module_load in
  let e0 := CustomException "Sepal Width (cm): value must be numeric." in
  (method request = POST
   /\ st_globals st = module_load
   /\ field_order = (["SepalLengthCm"] ++ "SepalWidthCm"
                       :: ["PetalLengthCm"; "PetalWidthCm"])%list
   /\ validate_field IRIS_FEATURES "SepalWidthCm"
                     (form_get request "SepalWidthCm") = Raise e0
   /\ Forall (fun n => exists x,
                 validate_field IRIS_FEATURES n (form_get request n) = Return x)
              ["SepalLengthCm"]
   /\ py_float (form_get request "SepalWidthCm") = None)
  /\ exists resp st',
      index (constant_model "Iris-setosa") fallback_str request st
      = (Return resp, st')
      /\ r_prediction resp = None
      /\ r_error resp = Some "Sepal Width (cm): value must be numeric."
      /\ model_not_invoked st st'.
Proof.
  intros request st e0.
  assert (H1 : method request = POST) by reflexivity.
  assert (H2 : st_globals st = module_load) by reflexivity.
  assert (H3 : field_order = (["SepalLengthCm"] ++ "SepalWidthCm"
                                :: ["PetalLengthCm"; "PetalWidthCm"])%list)
    by reflexivity.
  assert (H4 : validate_field IRIS_FEATURES "SepalWidthCm"
                              (form_get request "SepalWidthCm") = Raise e0)
    by (vm_compute; reflexivity).
  assert (H5 : Forall (fun n => exists x,
                         validate_field IRIS_FEATURES n (form_get request n)
                         = Return x) ["SepalLengthCm"]).
  { repeat constructor. eexists. vm_compute. reflexivity. }
  assert (H6 : py_float (form_get request "SepalWidthCm") = None)
    by (vm_compute; reflexivity).
  split; [repeat split; assumption|].
  destruct (first_failure_is_surfaced (constant_model "Iris-setosa") fallback_str
              request st _ _ _ e0 H1 H2 H3 H4)
    as (e & resp & st' & Ha & Hb & Hc & Hd & He & Hf).
  destruct (Hf H5) as [-> Hparse].
  exists resp, st'. repeat split; assumption.
Defined.

(** Claim C3 as first stated fails: with [100, abc, 1.4, 0.2] the second
    field is not numeric, yet the error shown is the range error of the
    first field, not a parse error naming [Sepal Width (cm)]. *)
Lemma nonnumeric_field_hidden_by_earlier_failure :
  let request := post "100" "abc" "1.4" "0.2" in
  py_float (form_get request "SepalWidthCm") = None
  /\ exists resp st',
      index (constant_model "Iris-setosa") fallback_str request
            (fresh module_load) = (Return resp, st')
      /\ r_error resp
         = Some "Sepal Length (cm): 100.0 is out of range [4.3, 7.9]."
      /\ r_error resp
         <> Some (fallback_str "Sepal Width (cm): value must be numeric.").
Proof.
  split; [vm_compute; reflexivity|].
  do 2 eexists. split; [vm_compute; reflexivity|].
  cbn [r_error]. split; [reflexivity|discriminate].
Qed.

(** Claim C4.  For a configured feature, a posted value equal to the
    minimum or to the maximum passes validation; a value below the minimum
    or above the maximum is rejected by an exception whose message holds
    the feature's label, the value and the two bounds, and a POST request
    carrying it gets no prediction and does not reach the model. *)
Theorem bounds_are_inclusive
        (model : float -> float -> float -> float -> string + string)
        (cstr : string -> string) (name value : string)
        (conf : FeatureConf) (x : float) (st : State) :
  st_globals st = module_load ->
  IRIS_FEATURES !! name = Some conf ->
  py_float value = Some x ->
  ((eqb x (f_min conf) = true \/ eqb x (f_max conf) = true) ->
   _parse_and_validate name value st = (Return x, st))
  /\ ((ltb x (f_min conf) = true \/ gtb x (f_max conf) = true) ->
      _parse_and_validate name value st
      = (Raise (CustomException
                  (f_label conf ++ ": " ++ py_repr x ++ " is out of range ["
                     ++ py_repr (f_min conf) ++ ", " ++ py_repr (f_max conf)
                     ++ "].")), st)
      /\ forall request,
          method request = POST ->
          form_get request name = value ->
          exists resp st',
            index model cstr request st = (Return resp, st')
            /\ r_prediction resp = None
            /\ is_Some (r_error resp)
            /\ model_not_invoked st st').
Proof.
  intros Hg Hc Hx.
  assert (Hf : g_IRIS_FEATURES (st_globals st) = IRIS_FEATURES)
    by now rewrite Hg.
  rewrite parse_and_validate_run, Hf.
  unfold validate_field. rewrite Hc, Hx.
  split.
  - intros Hb.
    pose proof (features_keys _ _ Hc) as Hin.
    unfold field_order in Hin.
    repeat (apply elem_of_cons in Hin as [-> | Hin]);
      [..| now apply elem_of_nil in Hin];
      vm_compute in Hc; injection Hc as <-;
      cbn [f_min f_max] in *;
      (destruct Hb as [Hb | Hb];
       unfold eqb in Hb;
       match type of Hb with
       | SFeqb _ ?c = true =>
           let c' := eval vm_compute in c in
           change c with c' in Hb
       end;
       apply SFeqb_finite in Hb; subst x; vm_compute; reflexivity).
  - intros Hout.
    assert (Hor : ltb x (f_min conf) || gtb x (f_max conf) = true).
    { destruct Hout as [-> | ->]; [reflexivity | apply orb_true_r]. }
    rewrite Hor. split; [reflexivity|].
    intros request Hm Hv.
    destruct (failure_blocks_prediction model cstr request st name
                (CustomException (range_message conf x)) Hm
                (features_keys _ _ Hc))
      as (e & resp & st' & _ & Hrun & Hp & Herr & Hni).
    { rewrite Hf, Hv. unfold validate_field. now rewrite Hc, Hx, Hor. }
    exists resp, st'. repeat split; eauto.
Qed.

(** The theorem at the sepal length: [7.9] is the maximum and passes,
    [8.0] is above it and is rejected. *)
Lemma bounds_are_inclusive_witness :
  let st := fresh module_load in
  let rejected := post "8.0" "3.0" "4.0" "1.0" in
  (exists conf,
      IRIS_FEATURES !! "SepalLengthCm" = Some conf
      /\ py_float "7.9" = Some (f_max conf)
      /\ eqb (f_max conf) (f_max conf) = true
      /\ (exists x, py_float "8.0" = Some x /\ gtb x (f_max conf) = true))
  /\ _parse_and_validate "SepalLengthCm" "7.9" st = (Return (lit 79 (-1)), st)
  /\ _parse_and_validate "SepalLengthCm" "8.0" st
     = (Raise (CustomException
                 "Sepal Length (cm): 8.0 is out of range [4.3, 7.9]."), st)
  /\ exists resp st',
      index (constant_model "Iris-setosa") fallback_str rejected st
      = (Return resp, st')
      /\ r_prediction resp = None
      /\ is_Some (r_error resp)
      /\ model_not_invoked st st'.
Proof.
  intros st rejected.
  destruct (IRIS_FEATURES !! "SepalLengthCm") as [conf|] eqn:Ec;
    [|vm_compute in Ec; discriminate].
  assert (Hconf : Some conf = IRIS_FEATURES !! "SepalLengthCm") by now rewrite Ec.
  vm_compute in Hconf. injection Hconf as ->.
  assert (Hg : st_globals st = module_load) by reflexivity.
  assert (Hmax : py_float "7.9" = Some (lit 79 (-1))) by (vm_compute; reflexivity).
  assert (Hbig : py_float "8.0" = Some (lit 8 0)) by (vm_compute; reflexivity).
  split.
  { eexists. split; [reflexivity|]. cbn [f_max].
    split; [vm_compute; reflexivity|].
    split; [vm_compute; reflexivity|].
    exists (lit 8 0). split; [exact Hbig | vm_compute; reflexivity]. }
  split.
  { apply (proj1 (bounds_are_inclusive (constant_model "Iris-setosa")
                    fallback_str "SepalLengthCm" "7.9" _ _ st Hg Ec Hmax)).
    right. vm_compute. reflexivity. }
  destruct (proj2 (bounds_are_inclusive (constant_model "Iris-setosa")
                     fallback_str "SepalLengthCm" "8.0" _ _ st Hg Ec Hbig))
    as [Hraise Hreq].
  { right. vm_compute. reflexivity. }
  split.
  { rewrite Hraise. vm_compute. reflexivity. }
  apply (Hreq rejected); reflexivity.
Defined.

(** Claim C9.  [IRIS_FEATURES] has exactly the four features; their
    minimum, maximum and mean are the doubles written 4.3, 7.9, 5.84 for
    the sepal length, 2.0, 4.4, 3.05 for the sepal width, 1.0, 6.9, 3.76
    for the petal length and 0.1, 2.5, 1.20 for the petal width; the
    loaded module holds this table, and no request changes the module's
    globals: after [index], whatever the request and the model, they are
    what they were, and the response shows the same table. *)
Theorem feature_range_config_fixed :
  dom IRIS_FEATURES
  = ({["SepalLengthCm"; "SepalWidthCm"; "PetalLengthCm"; "PetalWidthCm"]}
     : gset string)
  /\ (let bounds name :=
        (fun c => (Some (f_min c), Some (f_max c), Some (f_mean c)))
          <$> IRIS_FEATURES !! name in
      bounds "SepalLengthCm"
      = Some (py_float "4.3", py_float "7.9", py_float "5.84")
      /\ bounds "SepalWidthCm"
         = Some (py_float "2.0", py_float "4.4", py_float "3.05")
      /\ bounds "PetalLengthCm"
         = Some (py_float "1.0", py_float "6.9", py_float "3.76")
      /\ bounds "PetalWidthCm"
         = Some (py_float "0.1", py_float "2.5", py_float "1.20"))
  /\ g_IRIS_FEATURES module_load = IRIS_FEATURES
  /\ forall (model : float -> float -> float -> float -> string + string)
            (cstr : string -> string) (request : Request) (st : State),
      exists resp st',
        index model cstr request st = (Return resp, st')
        /\ st_globals st' = st_globals st
        /\ r_features resp = g_IRIS_FEATURES (st_globals st).
Proof.
  split; [apply (bool_decide_unpack _); vm_compute; exact I|].
  split; [cbv zeta; repeat split; vm_compute; reflexivity|].
  split; [reflexivity|].
  intros model cstr request st.
  destruct (method request) eqn:Hm.
  1,3: do 2 eexists; split;
    [apply index_other_method; congruence | split; reflexivity].
  destruct (validation_cases (g_IRIS_FEATURES (st_globals st)) request)
    as [[e He] | (sl & sw & pl & pw & H1 & H2 & H3 & H4)].
  - do 2 eexists. split; [apply (index_post_failure _ _ _ _ e Hm He)|].
    split; reflexivity.
  - pose proof (index_post_valid model cstr request st sl sw pl pw
                  Hm H1 H2 H3 H4) as Hrun.
    cbv zeta in Hrun. do 2 eexists. split; [exact Hrun|].
    destruct (model sl sw pl pw); split; reflexivity.
Qed.

(** ** Requests of the specification, run *)

Example smallest_petals_are_predicted :
  exists st',
    index (constant_model "Iris-setosa") fallback_str
          (post "5.1" "3.5" "1.4" "0.2") (fresh module_load)
    = (Return {| r_prediction := Some "Iris-setosa"; r_error := None;
                 r_features := IRIS_FEATURES;
                 r_inputs := posted_inputs (lit 51 (-1)) (lit 35 (-1))
                                           (lit 14 (-1)) (lit 2 (-1)) |}, st').
Proof. eexists. vm_compute. reflexivity. Qed.

Example all_maximum_is_accepted :
  exists resp st',
    index (constant_model "Iris-virginica") fallback_str
          (post "7.9" "2.0" "6.9" "2.5") (fresh module_load)
    = (Return resp, st')
    /\ r_prediction resp = Some "Iris-virginica" /\ r_error resp = None.
Proof. do 2 eexists. split; [vm_compute; reflexivity|]. now split. Qed.

Example abc_is_a_parse_error :
  exists resp st',
    index (constant_model "Iris-setosa") fallback_str
          (post "5.1" "3.5" "abc" "0.2") (fresh module_load)
    = (Return resp, st')
    /\ r_prediction resp = None
    /\ r_error resp = Some "Petal Length (cm): value must be numeric."
    /\ st_trace st'
       = [LogError "Prediction failed: Petal Length (cm): value must be numeric."].
Proof. do 2 eexists. split; [vm_compute; reflexivity|]. now repeat split. Qed.

(** ** NaN *)

Lemma nan_compares_false (a b : float) : ltb nan a || gtb nan b = false.
Proof.
  unfold ltb, gtb, SFltb, nan. cbn [SFcompare].
  now destruct b as [| | |? ? ?].
Qed.

Lemma lower_is_n (c : ascii) : lower c = "n"%char -> c = "n"%char \/ c = "N"%char.
Proof.
  destruct c as [[] [] [] [] [] [] [] []]; vm_compute; intros H;
    first [discriminate H | now left | now right].
Qed.

Lemma lower_is_a (c : ascii) : lower c = "a"%char -> c = "a"%char \/ c = "A"%char.
Proof.
  destruct c as [[] [] [] [] [] [] [] []]; vm_compute; intros H;
    first [discriminate H | now left | now right].
Qed.

Lemma nan_text_parses (value : string) :
  nan_text value -> py_float value = Some nan.
Proof.
  unfold nan_text.
  destruct value as [|a [|b [|c [|d rest]]]]; cbn [String.list_ascii_of_string map];
    intros H; try discriminate H.
  injection H as Ha Hb Hc.
  apply lower_is_n in Ha, Hc. apply lower_is_a in Hb.
  destruct Ha as [-> | ->], Hb as [-> | ->], Hc as [-> | ->]; reflexivity.
Qed.

(** Claim C10.  Text that spells [nan] in any casing parses to the float
    NaN; both comparisons of the range check are then false, so
    [_parse_and_validate] returns NaN for each of the four features; and
    when the other three fields are valid the handler calls the model
    with NaN in that feature's place. *)
Theorem nan_is_accepted
        (model : float -> float -> float -> float -> string + string)
        (cstr : string -> string) (name value : string) :
  nan_text value ->
  name ∈ field_order ->
  py_float value = Some nan
  /\ (forall conf, IRIS_FEATURES !! name = Some conf ->
                   ltb nan (f_min conf) = false /\ gtb nan (f_max conf) = false)
  /\ (forall st, st_globals st = module_load ->
                 _parse_and_validate name value st = (Return nan, st))
  /\ forall request st,
      method request = POST ->
      st_globals st = module_load ->
      form_get request name = value ->
      (forall other, other ∈ field_order -> other <> name ->
                     exists x, validate_field IRIS_FEATURES other
                                              (form_get request other) = Return x) ->
      exists sl sw pl pw resp st' evs,
        index model cstr request st = (Return resp, st')
        /\ st_trace st' = (st_trace st ++ Predict sl sw pl pw :: evs)%list
        /\ posted_inputs sl sw pl pw !! name = Some nan
        /\ r_inputs resp = posted_inputs sl sw pl pw.
Proof.
  intros Hnan Hin.
  pose proof (nan_text_parses value Hnan) as Hp.
  assert (Hval : validate_field IRIS_FEATURES name value = Return nan).
  { unfold validate_field.
    assert (is_Some (IRIS_FEATURES !! name)) as [c Hc].
    { apply elem_of_dom.
      assert (Hd : dom IRIS_FEATURES = (list_to_set field_order : gset string))
        by (apply (bool_decide_unpack _); vm_compute; exact I).
      rewrite Hd. now apply elem_of_list_to_set. }
    now rewrite Hc, Hp, nan_compares_false. }
  split; [exact Hp|].
  split.
  { intros conf _. apply orb_false_iff. apply nan_compares_false. }
  split.
  { intros st Hg. rewrite parse_and_validate_run, Hg.
    change (g_IRIS_FEATURES module_load) with IRIS_FEATURES. now rewrite Hval. }
  intros request st Hm Hg Hform Hothers.
  assert (Hf : g_IRIS_FEATURES (st_globals st) = IRIS_FEATURES)
    by now rewrite Hg.
  assert (Hall : forall n, n ∈ field_order ->
            exists x, validate_field IRIS_FEATURES n (form_get request n) = Return x
                      /\ (n = name -> x = nan)).
  { intros n Hn. destruct (decide (n = name)) as [-> | Hne].
    - exists nan. rewrite Hform. now split.
    - destruct (Hothers n Hn Hne) as [x Hx]. exists x. now split. }
  destruct (Hall "SepalLengthCm") as (sl & H1 & N1); [unfold field_order; repeat constructor|].
  destruct (Hall "SepalWidthCm") as (sw & H2 & N2); [unfold field_order; repeat constructor|].
  destruct (Hall "PetalLengthCm") as (pl & H3 & N3); [unfold field_order; repeat constructor|].
  destruct (Hall "PetalWidthCm") as (pw & H4 & N4); [unfold field_order; repeat constructor|].
  rewrite <- Hf in H1, H2, H3, H4.
  pose proof (index_post_valid model cstr request st sl sw pl pw
                Hm H1 H2 H3 H4) as Hrun.
  cbv zeta in Hrun.
  exists sl, sw, pl, pw. do 2 eexists.
  exists (match model sl sw pl pw with
          | inl label => [LogInfo ("Prediction successful: " ++ label)]
          | inr text => [LogError ("Prediction failed: "
                                     ++ exn_str cstr (ModelError text))]
          end).
  split; [exact Hrun|].
  split.
  { destruct (model sl sw pl pw); unfold predicted, failed; cbn [st_trace];
      now rewrite <- app_assoc. }
  split.
  { unfold field_order in Hin. unfold posted_inputs.
    repeat (apply elem_of_cons in Hin as [-> | Hin]);
      [..| now apply elem_of_nil in Hin].
    - rewrite N1 by reflexivity. now simplify_map_eq.
    - rewrite N2 by reflexivity. now simplify_map_eq.
    - rewrite N3 by reflexivity. now simplify_map_eq.
    - rewrite N4 by reflexivity. now simplify_map_eq. }
  destruct (model sl sw pl pw); reflexivity.
Qed.

(** The theorem at the request [5.1, NaN, 1.4, 0.2]. *)
Lemma nan_is_accepted_witness :
  let request := post "5.1" "NaN" "1.4" "0.2" in
  let st := fresh module_load in
  (nan_text "NaN" /\ "SepalWidthCm" ∈ field_order)
  /\ py_float "NaN" = Some nan
  /\ _parse_and_validate "SepalWidthCm" "NaN" st = (Return nan, st)
  /\ exists sl sw pl pw resp st' evs,
      index (constant_model "Iris-setosa") fallback_str request st
      = (Return resp, st')
      /\ st_trace st' = (st_trace st ++ Predict sl sw pl pw :: evs)%list
      /\ posted_inputs sl sw pl pw !! "SepalWidthCm" = Some nan
      /\ r_inputs resp = posted_inputs sl sw pl pw.
Proof.
  intros request st.
  assert (Ht : nan_text "NaN") by reflexivity.
  assert (Hin : "SepalWidthCm" ∈ field_order)
    by (unfold field_order; repeat constructor).
  destruct (nan_is_accepted (constant_model "Iris-setosa") fallback_str
              "SepalWidthCm" "NaN" Ht Hin) as (Hp & _ & Hv & Hreq).
  split; [now split|].
  split; [exact Hp|].
  split; [now apply Hv|].
  apply Hreq; try reflexivity.
  intros other Ho Hne. unfold field_order in Ho.
  repeat (apply elem_of_cons in Ho as [-> | Ho]);
    [..| now apply elem_of_nil in Ho];
    first [congruence | eexists; vm_compute; reflexivity].
Defined.

End AppProps.

(* ===================================================================== *)
(** * Properties of the outlier handling *)
(* ===================================================================== *)

Module OutlierProps.
Import PyFloat DataProcessing.

(** ** Comparisons of doubles *)

Lemma compare_swap (x y : float) (c : comparison) :
  SFcompare x y = Some c -> SFcompare y x = Some (CompOpp c).
Proof.
  destruct x as [sx|sx| |sx mx ex], y as [sy|sy| |sy my ey]; cbn;
    intros H; try discriminate H; injection H as <-;
    try (destruct sx; reflexivity); try (destruct sy; reflexivity);
    try (destruct sx, sy; reflexivity).
  destruct sx, sy; try reflexivity;
    rewrite (Z.compare_antisym ex ey);
    destruct (ex ?= ey)%Z; cbn; try reflexivity;
    rewrite (Pos.compare_cont_antisym mx my Eq); cbn;
    now rewrite ?CompOpp_involutive.
Qed.


Lemma eqb_refl (x : float) : isnan x = false -> eqb x x = true.
Proof.
  unfold eqb, SFeqb. destruct x as [s|s| |s m e]; cbn; try discriminate;
    intros _; try (destruct s; reflexivity).
  destruct s; rewrite Z.compare_refl, Pos.compare_cont_refl; reflexivity.
Qed.

(** Two doubles that compare equal are the same double, or two zeros. *)
Lemma eqb_cases (x y : float) :
  eqb x y = true ->
  x = y \/ exists s1 s2, x = S754_zero s1 /\ y = S754_zero s2.
Proof.
  unfold eqb, SFeqb.
  destruct x as [sx|sx| |sx mx ex], y as [sy|sy| |sy my ey]; cbn;
    try discriminate;
    try (destruct sx; discriminate); try (destruct sy; discriminate).
  - intros _. right. eauto.
  - destruct sx, sy; try discriminate; intros _; now left.
  - destruct sx, sy; try discriminate;
      destruct (ex ?= ey)%Z eqn:Ee; try discriminate;
      destruct (Pos.compare_cont Eq mx my) eqn:Em; try discriminate;
      intros _; left;
      apply Z.compare_eq in Ee; apply Pos.compare_eq in Em; congruence.
Qed.

Lemma compare_zero_l (s1 s2 : bool) (z : float) :
  SFcompare (S754_zero s1) z = SFcompare (S754_zero s2) z.
Proof. destruct z; reflexivity. Qed.

Lemma compare_zero_r (s1 s2 : bool) (z : float) :
  SFcompare z (S754_zero s1) = SFcompare z (S754_zero s2).
Proof. destruct z; reflexivity. Qed.

Lemma compare_eqb_l (x y z : float) :
  eqb x y = true -> SFcompare x z = SFcompare y z.
Proof.
  intros H. apply eqb_cases in H as [-> | (s1 & s2 & -> & ->)];
    [reflexivity | apply compare_zero_l].
Qed.

Lemma compare_eqb_r (x y z : float) :
  eqb x y = true -> SFcompare z x = SFcompare z y.
Proof.
  intros H. apply eqb_cases in H as [-> | (s1 & s2 & -> & ->)];
    [reflexivity | apply compare_zero_r].
Qed.

Lemma out_of_bounds_compat lo up x y :
  eqb x y = true -> out_of_bounds lo up x = out_of_bounds lo up y.
Proof.
  intros H. unfold out_of_bounds, gtb, ltb, SFltb.
  now rewrite (compare_eqb_r x y up H), (compare_eqb_l x y lo H).
Qed.

(** A missing value is never out of bounds. *)
Lemma out_of_bounds_number lo up x :
  out_of_bounds lo up x = true -> isnan x = false.
Proof.
  destruct x; try reflexivity.
  unfold out_of_bounds, gtb, ltb, SFltb. cbn.
  destruct up, lo; discriminate.
Qed.


Lemma leb_ltb_false (x y : float) : fleb y x = true -> ltb x y = false.
Proof.
  unfold ltb, fleb, SFltb, SFleb.
  destruct (SFcompare y x) as [c|] eqn:Hc; [|discriminate].
  rewrite (compare_swap y x c Hc). now destruct c.
Qed.



Lemma within_not_out lo up x :
  within_bounds lo up x = true -> out_of_bounds lo up x = false.
Proof.
  unfold out_of_bounds, within_bounds, gtb.
  rewrite orb_false_iff, andb_true_iff. intros [H1 H2].
  split; now apply leb_ltb_false.
Qed.

Lemma occurs_app x l1 l2 : occurs x (l1 ++ l2) = occurs x l1 || occurs x l2.
Proof. apply existsb_app. Qed.

Lemma occurs_In x l : isnan x = false -> In x l -> occurs x l = true.
Proof.
  intros Hx Hin. unfold occurs. apply existsb_exists.
  exists x. split; [exact Hin | now apply eqb_refl].
Qed.

(** ** The loop *)

Lemma outlier_step_visits lo up med seen col i :
  outlier_step lo up med (after_visiting lo up med seen col) i
  = after_visiting lo up med (seen ++ [i]) col.
Proof.
  unfold outlier_step, after_visiting, replace.
  destruct (out_of_bounds lo up i) eqn:Ei.
  - rewrite map_map. apply map_ext. intros x.
    rewrite occurs_app. unfold occurs. cbn [existsb]. rewrite orb_false_r.
    destruct (out_of_bounds lo up x) eqn:Ex,
             (existsb (eqb x) seen) eqn:Es;
      cbn [andb orb]; try reflexivity.
    + now destruct (eqb med i).
    + destruct (eqb x i) eqn:E; [|reflexivity].
      rewrite (out_of_bounds_compat lo up x i E) in Ex. congruence.
    + destruct (eqb x i) eqn:E; [|reflexivity].
      rewrite (out_of_bounds_compat lo up x i E) in Ex. congruence.
  - apply map_ext. intros x.
    rewrite occurs_app. unfold occurs. cbn [existsb]. rewrite orb_false_r.
    destruct (out_of_bounds lo up x) eqn:Ex,
             (existsb (eqb x) seen) eqn:Es;
      cbn [andb orb]; try reflexivity.
    destruct (eqb x i) eqn:E; [|reflexivity].
    rewrite (out_of_bounds_compat lo up x i E) in Ex. congruence.
Qed.

Lemma after_visiting_nil lo up med col : after_visiting lo up med [] col = col.
Proof.
  unfold after_visiting. rewrite <- (map_id col) at 2.
  apply map_ext. intros x. cbn [occurs existsb]. now rewrite andb_false_r.
Qed.

Lemma outlier_loop_visits lo up med values seen col :
  outlier_loop lo up med values (after_visiting lo up med seen col)
  = after_visiting lo up med (seen ++ values) col.
Proof.
  unfold outlier_loop. revert seen.
  induction values as [|i values IH]; intros seen; cbn [fold_left].
  - now rewrite app_nil_r.
  - rewrite outlier_step_visits, IH, <- app_assoc. reflexivity.
Qed.

(** Once every out-of-bounds value of the column has been visited, each
    of them is the median and the others are as they were. *)
Lemma after_visiting_every lo up med seen col :
  (forall x, In x col -> out_of_bounds lo up x = true -> occurs x seen = true) ->
  after_visiting lo up med seen col = map (clip_to_median lo up med) col.
Proof.
  intros H. unfold after_visiting, clip_to_median.
  apply map_ext_in. intros x Hx.
  destruct (out_of_bounds lo up x) eqn:E; [|reflexivity].
  now rewrite (H x Hx E).
Qed.

Lemma after_visiting_all lo up med col :
  after_visiting lo up med col col = map (clip_to_median lo up med) col.
Proof.
  apply after_visiting_every. intros x Hx Ho.
  apply occurs_In; [|exact Hx]. now apply out_of_bounds_number in Ho.
Qed.

Lemma outlier_loop_closed_form lo up med col :
  outlier_loop lo up med col col = map (clip_to_median lo up med) col.
Proof.
  rewrite <- (after_visiting_nil lo up med col) at 2.
  rewrite outlier_loop_visits. cbn [app]. apply after_visiting_all.
Qed.

(** ** The closed form of [handle_outliers] on a column *)

Lemma handle_outliers_values_closed_form col :
  handle_outliers_values col
  = map (clip_to_median (Lower_value col) (Upper_value col) (median col)) col.
Proof. apply outlier_loop_closed_form. Qed.


(** ** Reading the column through a view *)

Lemma outlier_loop_view_visits lo up med col (k : nat) :
  (k <= length col)%nat ->
  exists seen,
    outlier_loop_view lo up med k col = after_visiting lo up med seen col
    /\ forall j : nat, (j < k)%nat ->
         out_of_bounds lo up (nth j col nan) = true ->
         occurs (nth j col nan) seen = true.
Proof.
  unfold outlier_loop_view. induction k as [|k IH]; intros Hk.
  - exists []. split; [symmetry; apply after_visiting_nil|]. intros j Hj. lia.
  - destruct IH as (seen & Hcur & Hseen); [lia|].
    rewrite seq_S, fold_left_app, Hcur. cbn [fold_left Nat.add].
    set (g := fun x => if out_of_bounds lo up x && occurs x seen
                       then med else x).
    assert (Hnth : nth k (after_visiting lo up med seen col) nan
                   = g (nth k col nan)).
    { unfold after_visiting. fold g.
      rewrite (nth_indep _ nan (g nan)) by (rewrite length_map; lia).
      apply (map_nth g). }
    rewrite Hnth, outlier_step_visits.
    exists (seen ++ [g (nth k col nan)]). split; [reflexivity|].
    intros j Hj Ho. rewrite occurs_app.
    destruct (Nat.eq_dec j k) as [-> | Hne].
    + unfold g. rewrite Ho. cbn [andb].
      destruct (occurs (nth k col nan) seen) eqn:Es; [reflexivity|].
      cbn [orb occurs existsb]. rewrite eqb_refl; [reflexivity|].
      now apply out_of_bounds_number in Ho.
    + rewrite Hseen by (lia || assumption). reflexivity.
Qed.

Lemma handle_outliers_values_view_agrees col :
  handle_outliers_values_view col = handle_outliers_values col.
Proof.
  rewrite handle_outliers_values_closed_form.
  unfold handle_outliers_values_view.
  destruct (outlier_loop_view_visits
              (Lower_value col) (Upper_value col) (median col) col (length col))
    as (seen & -> & Hseen); [lia|].
  apply after_visiting_every. intros x Hx Ho.
  apply (In_nth _ _ nan) in Hx as (j & Hj & <-). now apply Hseen.
Qed.

(** ** The properties *)




(** The bounds are those of binary64.  On [2.6; 3.2; 3.9; 3.6; 3.3] the
    lower bound [3.2 - 1.5 * (3.6 - 3.2)] is 2.6000000000000005, so 2.6 is
    out of bounds and becomes the median 3.3.  On
    [-1.5; -2.0; -1.0; -1.2; -40.0; 0.0; -1.1] the upper bound is
    -2.220446049250313e-16, so 0.0 is out of bounds, like -40.0, and both
    become the median -1.2. *)
Example bounds_are_rounded :
  let col := map dec [2.6; 3.2; 3.9; 3.6; 3.3]%Q in
  let col' := map dec [-1.5; -2.0; -1.0; -1.2; -40.0; 0.0; -1.1]%Q in
  py_repr (Lower_value col) = "2.6000000000000005"%string
  /\ handle_outliers_values col = map dec [3.3; 3.2; 3.9; 3.6; 3.3]%Q
  /\ py_repr (Upper_value col') = "-2.220446049250313e-16"%string
  /\ handle_outliers_values col'
     = map dec [-1.5; -2.0; -1.0; -1.2; -1.2; -1.2; -1.1]%Q.
Proof. repeat split; vm_compute; reflexivity. Qed.

(** Claim C2.  Replacement goes by value: a loop step for an
    out-of-bounds value rewrites every element of the column equal to it;
    after the first [k] values have been visited, each value of the
    column that is out of bounds and equal to one of them has become the
    median, at whatever row it stands; the median is that of the column
    as it was before the loop, unaffected by the replacements; at the end
    each out-of-bounds value is the median and the others are untouched.
    Reading the column through a view that sees the earlier replacements
    gives the same column. *)
Theorem replacement_is_by_value (col : list float) :
  let lo := Lower_value col in
  let up := Upper_value col in
  let med := median col in
  (forall cur i,
      out_of_bounds lo up i = true ->
      outlier_step lo up med cur i
      = map (fun x => if eqb x i then med else x) cur)
  /\ (forall cur i,
         out_of_bounds lo up i = false -> outlier_step lo up med cur i = cur)
  /\ (forall k : nat,
         outlier_loop lo up med (firstn k col) col
         = map (fun x => if out_of_bounds lo up x && occurs x (firstn k col)
                         then med else x) col)
  /\ handle_outliers_values col
     = map (fun x => if out_of_bounds lo up x then med else x) col
  /\ handle_outliers_values_view col = handle_outliers_values col.
Proof.
  intros lo up med.
  split; [intros cur i Hi; unfold outlier_step; now rewrite Hi|].
  split; [intros cur i Hi; unfold outlier_step; now rewrite Hi|].
  split.
  { intros k.
    pose proof (outlier_loop_visits lo up med (firstn k col) [] col) as H.
    rewrite after_visiting_nil in H. exact H. }
  split; [apply handle_outliers_values_closed_form|].
  apply handle_outliers_values_view_agrees.
Qed.

(** On [9.0; 3.5; 3.2; 3.1; 3.3; 3.4; 3.0; 3.6; 9.0] the first loop step,
    for the first row, also rewrites the last row. *)
Example first_step_replaces_every_occurrence :
  let col := map dec [9.0; 3.5; 3.2; 3.1; 3.3; 3.4; 3.0; 3.6; 9.0]%Q in
  median col = dec 3.4
  /\ out_of_bounds (Lower_value col) (Upper_value col) (dec 9.0) = true
  /\ outlier_loop (Lower_value col) (Upper_value col) (median col)
                  (firstn 1 col) col
     = map dec [3.4; 3.5; 3.2; 3.1; 3.3; 3.4; 3.0; 3.6; 3.4]%Q.
Proof. repeat split; vm_compute; reflexivity. Qed.

End OutlierProps.

(* ===================================================================== *)
(** * Properties of the train/test split *)
(* ===================================================================== *)

Module SplitProps.
Import DataProcessing.

Local Open Scope nat_scope.

Section WithGenerator.

Context {RandomState : Type}.
Variable RandomState_seed : Z -> RandomState.
Variable permutation : RandomState -> nat -> list nat * RandomState.

Local Abbreviation split_data := (split_data RandomState_seed permutation).
Local Abbreviation train_test_split :=
  (train_test_split RandomState_seed permutation).

(** ** A seeded split does not look at the world *)

Lemma train_test_split_seeded (w : World RandomState) X Y test_size seed :
  train_test_split w X Y test_size (Some seed)
  = (fst (train_test_split w X Y test_size (Some seed)), w).
Proof.
  unfold DataProcessing.train_test_split.
  destruct (negb _); [reflexivity|].
  destruct (validate_shuffle_split _ _) as [[n_train n_test]|]; reflexivity.
Qed.

Lemma train_test_split_seeded_indep (w1 w2 : World RandomState) X Y test_size seed :
  fst (train_test_split w1 X Y test_size (Some seed))
  = fst (train_test_split w2 X Y test_size (Some seed)).
Proof.
  unfold DataProcessing.train_test_split.
  destruct (negb _); [reflexivity|].
  destruct (validate_shuffle_split _ _) as [[n_train n_test]|]; reflexivity.
Qed.

(** The files of a successful [split_data], as a function of the frame. *)
Lemma split_data_run (self : DataProcessing) (w : World RandomState) :
  (exists X_train X_test y_train y_test,
      (forall w0 : World RandomState,
          split_data self w0
          = (Ok tt,
             dump (dump (dump (dump w0
                (path_join (processed_data_path self) "X_train.pkl") (FramePkl X_train))
                (path_join (processed_data_path self) "X_test.pkl") (FramePkl X_test))
                (path_join (processed_data_path self) "y_train.pkl") (SeriesPkl y_train))
                (path_join (processed_data_path self) "y_test.pkl") (SeriesPkl y_test))))
  \/ (forall w0 : World RandomState,
         split_data self w0 = (Err "Failed to split data", w0)).
Proof.
  unfold DataProcessing.split_data.
  destruct (df self) as [d|]; [|now right].
  destruct (select d feature_columns) as [X|]; [|now right].
  destruct (column d "Species") as [Y|]; [|now right].
  destruct (fst (train_test_split w X Y (2 # 10)%Q (Some 42%Z)))
    as [[[[X_train X_test] y_train] y_test]|] eqn:E.
  - left. exists X_train, X_test, y_train, y_test. intros w0.
    rewrite train_test_split_seeded.
    rewrite (train_test_split_seeded_indep w0 w), E. reflexivity.
  - right. intros w0.
    rewrite train_test_split_seeded.
    rewrite (train_test_split_seeded_indep w0 w), E. reflexivity.
Qed.

Lemma dump_again (w : World RandomState) k1 a1 k2 a2 k3 a3 k4 a4 :
  let once w0 := dump (dump (dump (dump w0 k1 a1) k2 a2) k3 a3) k4 a4 in
  once (once w) = once w.
Proof.
  cbv zeta. unfold dump. cbn [w_rng w_files]. f_equal.
  apply map_eq. intros k. rewrite !lookup_insert.
  repeat case_decide; reflexivity.
Qed.

Lemma lookup_dumped (m1 m2 : gmap string Artifact) k1 a1 k2 a2 k3 a3 k4 a4 k :
  k = k1 \/ k = k2 \/ k = k3 \/ k = k4 ->
  <[k4:=a4]> (<[k3:=a3]> (<[k2:=a2]> (<[k1:=a1]> m1))) !! k
  = <[k4:=a4]> (<[k3:=a3]> (<[k2:=a2]> (<[k1:=a1]> m2))) !! k.
Proof.
  intros Hk. rewrite !lookup_insert.
  repeat case_decide; try reflexivity. exfalso. intuition congruence.
Qed.

(** Claim C6.  The split is fixed by the frame: two runs of [split_data]
    on the same object end the same way and, when they succeed, leave the
    same four artifacts, whatever the state of the global generator and
    the files in the two worlds they start from; the global generator is
    not advanced; and a second run right after a first one changes
    nothing. *)
Theorem split_is_reproducible (self : DataProcessing) (w1 w2 : World RandomState) :
  fst (split_data self w1) = fst (split_data self w2)
  /\ (fst (split_data self w1) = Ok tt ->
      persisted_split self (snd (split_data self w1))
      = persisted_split self (snd (split_data self w2)))
  /\ w_rng (snd (split_data self w1)) = w_rng w1
  /\ split_data self (snd (split_data self w1)) = split_data self w1.
Proof.
  destruct (split_data_run self w1)
    as [(X_train & X_test & y_train & y_test & Hrun) | Hrun].
  - rewrite !Hrun. cbn [fst snd].
    split; [reflexivity|]. split.
    { intros _. unfold persisted_split, dump. cbn [w_files map].
      do 3 (f_equal; [apply lookup_dumped; tauto|]).
      f_equal. apply lookup_dumped; tauto. }
    split; [reflexivity|].
    f_equal. apply dump_again.
  - rewrite !Hrun. cbn [fst snd].
    split; [reflexivity|]. split; [discriminate|].
    split; reflexivity.
Qed.

(** ** Positional selection *)

Lemma pick_seq_from {A} (l1 l2 : list A) :
  omap (fun i => (l1 ++ l2) !! i) (seq (length l1) (length l2)) = l2.
Proof.
  revert l1. induction l2 as [|a l2 IH]; intros l1; [reflexivity|].
  cbn [length seq omap list_omap]. rewrite list_lookup_middle by reflexivity.
  f_equal.
  specialize (IH (l1 ++ [a])).
  rewrite <- app_assoc, length_app in IH. cbn [app length] in IH.
  now rewrite Nat.add_1_r in IH.
Qed.

Lemma pick_seq {A} (l : list A) : pick l (seq 0 (length l)) = l.
Proof. apply (pick_seq_from [] l). Qed.

Lemma pick_length {A} (l : list A) (idx : list nat) :
  Forall (fun i => i < length l) idx -> length (pick l idx) = length idx.
Proof.
  unfold pick. induction 1 as [|i idx Hi _ IH]; [reflexivity|].
  cbn [omap list_omap]. apply lookup_lt_is_Some in Hi as [x ->].
  cbn [length]. now rewrite IH.
Qed.

Lemma in_range_Forall (n : nat) (idx : list nat) :
  Forall (fun i => i < n) idx -> in_range n idx = true.
Proof.
  unfold in_range. induction 1 as [|i idx Hi _ IH]; [reflexivity|].
  cbn [forallb]. rewrite IH, andb_true_r. now apply Nat.ltb_lt.
Qed.

(** ** Sizes *)

Lemma test_size_fifth (n : nat) :
  2 <= n ->
  exists n_test,
    validate_shuffle_split n (2 # 10) = Some (n - n_test, n_test)
    /\ n <= 5 * n_test < n + 5
    /\ 0 < n_test < n.
Proof.
  intros Hn. unfold validate_shuffle_split.
  change (Qle_bool (2 # 10) 0 || Qle_bool 1 (2 # 10)) with false. cbv iota.
  set (x := ((2 # 10) * inject_Z (Z.of_nat n))%Q).
  pose proof (Qle_ceiling x) as Hup.
  pose proof (Qceiling_lt x) as Hlo.
  set (c := Qceiling x) in *.
  unfold x, Qle, Qlt in Hup, Hlo. cbn in Hup, Hlo.
  exists (Z.to_nat c).
  assert (Hnz : (n - Z.to_nat c =? 0) = false) by (apply Nat.eqb_neq; lia).
  rewrite Hnz. split; [reflexivity|]. lia.
Qed.

(** ** The split of a frame with the five columns *)

Lemma select_features (d : DataFrame) :
  (forall c, c ∈ feature_columns -> is_Some (df_columns d !! c)) ->
  exists X, select d feature_columns = Some X /\ df_index X = df_index d.
Proof.
  intros Hc. unfold select.
  destruct (mapM_is_Some_2
              (fun c => pair c <$> df_columns d !! c) feature_columns)
    as [cols Hcols].
  { apply Forall_forall. intros c Hin. destruct (Hc c Hin) as [x Hx].
    cbv [compose]. rewrite Hx. now eexists. }
  rewrite Hcols. cbn. eexists. split; reflexivity.
Qed.

Lemma iloc_rows (X : DataFrame) (Y : Series) (idx : list nat) :
  s_index Y = df_index X ->
  Forall (fun i => i < length (df_index X)) idx ->
  exists X' Y',
    frame_iloc X idx = Some X' /\ series_iloc Y idx = Some Y'
    /\ df_index X' = pick (df_index X) idx
    /\ s_index Y' = pick (df_index X) idx.
Proof.
  intros HY Hidx. unfold frame_iloc, series_iloc.
  rewrite HY, (in_range_Forall _ _ Hidx).
  do 2 eexists. repeat split.
Qed.

Hypothesis permutation_permutes :
  forall g n, Permutation (fst (permutation g n)) (seq 0 n).

(** Claim C7 (as amended).  On a frame with the five columns and at least
    two rows, [split_data] succeeds and persists a test set of
    [ceil(n / 5)] rows, that is within one row of a fifth of the [n] rows
    ([n <= 5 n_test < n + 5]), and a train set made of all the other
    rows: the row labels of the two sets together are those of the frame,
    and the labels of the target vectors are those of the feature
    matrices.  On a frame with fewer than two rows the split is refused:
    [split_data] raises [Failed to split data] and the files are left as
    they were. *)
Theorem split_keeps_a_fifth_for_test
        (path : string) (d : DataFrame) (w : World RandomState) :
  (forall c, c ∈ "Species"%string :: feature_columns ->
             is_Some (df_columns d !! c)) ->
  let self := set_df (__init__ path) d in
  (2 <= length (df_index d) ->
   exists X_train X_test y_train y_test w',
     split_data self w = (Ok tt, w')
     /\ persisted_split self w'
        = [Some (FramePkl X_train); Some (FramePkl X_test);
           Some (SeriesPkl y_train); Some (SeriesPkl y_test)]
     /\ (let n := length (df_index d) in
         let n_test := length (df_index X_test) in
         let n_train := length (df_index X_train) in
         n <= 5 * n_test < n + 5
         /\ n_train = n - n_test
         /\ 0 < n_train)
     /\ Permutation (df_index X_train ++ df_index X_test) (df_index d)
     /\ s_index y_train = df_index X_train
     /\ s_index y_test = df_index X_test)
  /\ (length (df_index d) < 2 ->
      split_data self w = (Err "Failed to split data", w)).
Proof.
  intros Hcols self.
  destruct (select_features d) as (X & HX & HXi).
  { intros c Hc. apply Hcols. now right. }
  destruct (Hcols "Species"%string) as [sp Hsp]; [left|].
  assert (HY : column d "Species"
               = Some {| s_index := df_index d; s_values := sp |}).
  { unfold column. now rewrite Hsp. }
  split; [intros Hn | intros Hlt].
  2:{ unfold DataProcessing.split_data. cbn [df self set_df].
      rewrite HX, HY. unfold DataProcessing.train_test_split. cbn [s_index].
      rewrite HXi, Nat.eqb_refl. cbn [negb].
      assert (Hv : validate_shuffle_split (length (df_index d)) (2 # 10) = None).
      { destruct (length (df_index d)) as [|[|n]];
          [reflexivity | reflexivity | lia]. }
      rewrite Hv. reflexivity. }
  destruct (test_size_fifth _ Hn) as (n_test & Hv & Hfifth & Hpos).
  set (n := length (df_index d)) in *.
  set (p := fst (permutation (RandomState_seed 42%Z) n)).
  pose proof (permutation_permutes (RandomState_seed 42%Z) n) as Hp.
  fold p in Hp.
  assert (Hplen : length p = n).
  { rewrite (Permutation_length Hp). apply length_seq. }
  assert (Hprange : Forall (fun i => i < n) p).
  { apply Forall_forall. intros i Hi. rewrite Hp in Hi.
    apply elem_of_seq in Hi. lia. }
  set (ind_test := take n_test p).
  set (ind_train := take (n - n_test) (drop n_test p)).
  assert (Htrain_all : ind_train = drop n_test p).
  { unfold ind_train. apply take_ge. rewrite length_drop. lia. }
  assert (Hr_test : Forall (fun i => i < length (df_index X)) ind_test).
  { rewrite HXi. fold n. unfold ind_test.
    apply Forall_forall. intros i Hi.
    rewrite Forall_forall in Hprange. apply Hprange.
    rewrite <- (take_drop n_test p). apply elem_of_app. now left. }
  assert (Hr_train : Forall (fun i => i < length (df_index X)) ind_train).
  { rewrite HXi. fold n. rewrite Htrain_all.
    apply Forall_forall. intros i Hi.
    rewrite Forall_forall in Hprange. apply Hprange.
    rewrite <- (take_drop n_test p). apply elem_of_app. now right. }
  destruct (iloc_rows X {| s_index := df_index d; s_values := sp |} ind_train)
    as (X_train & y_train & E1 & E2 & I1 & I2); [now rewrite HXi | assumption|].
  destruct (iloc_rows X {| s_index := df_index d; s_values := sp |} ind_test)
    as (X_test & y_test & E3 & E4 & I3 & I4); [now rewrite HXi | assumption|].
  assert (Hsplit : train_test_split w X
                     {| s_index := df_index d; s_values := sp |}
                     (2 # 10)%Q (Some 42%Z)
                   = (Some (X_train, X_test, y_train, y_test), w)).
  { unfold DataProcessing.train_test_split. cbn [s_index].
    rewrite HXi. fold n. rewrite Nat.eqb_refl. cbn [negb].
    rewrite Hv. unfold shuffle_indices. fold p. fold ind_test. fold ind_train.
    rewrite E1, E2, E3, E4. reflexivity. }
  exists X_train, X_test, y_train, y_test. eexists.
  split.
  { unfold DataProcessing.split_data. cbn [df self set_df].
    rewrite HX, HY, Hsplit. reflexivity. }
  split.
  { unfold persisted_split, dump. cbn [w_files map].
    change (processed_data_path self) with "artifacts/processed"%string.
    repeat match goal with
    | |- context [path_join ?a ?b] =>
        let v := eval vm_compute in (path_join a b) in
        change (path_join a b) with v
    end.
    repeat (rewrite lookup_insert_ne by congruence).
    rewrite !lookup_insert_eq.
    repeat (rewrite lookup_insert_ne by congruence).
    rewrite !lookup_insert_eq.
    repeat (rewrite lookup_insert_ne by congruence).
    rewrite !lookup_insert_eq. reflexivity. }
  rewrite I1, I3, I2, I4, HXi.
  assert (Ltest : length (pick (df_index d) ind_test) = n_test).
  { rewrite pick_length; [unfold ind_test; rewrite length_take; lia|].
    now rewrite HXi in Hr_test. }
  assert (Ltrain : length (pick (df_index d) ind_train) = n - n_test).
  { rewrite pick_length; [rewrite Htrain_all, length_drop; lia|].
    now rewrite HXi in Hr_train. }
  split; [cbv zeta; rewrite Ltest, Ltrain; fold n; lia|].
  split; [|split; reflexivity].
  transitivity (pick (df_index d) (seq 0 n));
    [|unfold n; now rewrite pick_seq].
  unfold pick. rewrite <- omap_app.
  apply omap_Permutation. rewrite <- Hp, Htrain_all.
  rewrite Permutation_app_comm. unfold ind_test. now rewrite take_drop.
Qed.

End WithGenerator.

(** Without a seed the split follows the global generator: the same
    frame is split differently from two states of it, and the generator
    is advanced. *)
Remark unseeded_split_follows_global_generator :
  let d := iris_frame [(5.1, 3.5, 1.4, 0.2, "Iris-setosa");
                       (7.0, 3.2, 4.7, 1.4, "Iris-versicolor");
                       (6.3, 3.3, 6.0, 2.5, "Iris-virginica")]%Q%string in
  let Y := {| s_index := df_index d; s_values := ObjCol [] |} in
  let split g :=
    train_test_split (fun _ => true) flipping_permutation
                     {| w_rng := g; w_files := ∅ |} d Y (2 # 10) None in
  fst (split true) <> fst (split false)
  /\ w_rng (snd (split true)) = false.
Proof. split; [vm_compute; discriminate | reflexivity]. Qed.

Lemma reversing_permutation_permutes (g : unit) (n : nat) :
  Permutation (fst (reversing_permutation g n)) (seq 0 n).
Proof. cbn [reversing_permutation fst]. symmetry. apply Permutation_rev. Qed.

(** The theorem on a frame of six rows: two rows go to the test set. *)
Lemma split_keeps_a_fifth_for_test_witness :
  let d := iris_frame [(5.1, 3.5, 1.4, 0.2, "Iris-setosa");
                       (4.9, 3.0, 1.4, 0.2, "Iris-setosa");
                       (7.0, 3.2, 4.7, 1.4, "Iris-versicolor");
                       (6.4, 3.2, 4.5, 1.5, "Iris-versicolor");
                       (6.3, 3.3, 6.0, 2.5, "Iris-virginica");
                       (5.8, 2.7, 5.1, 1.9, "Iris-virginica")]%Q%string in
  let self := set_df (__init__ "artifacts/raw/data.csv") d in
  let w := {| w_rng := tt; w_files := ∅ |} in
  ((forall g n, Permutation (fst (reversing_permutation g n)) (seq 0 n))
   /\ (forall c, c ∈ "Species"%string :: feature_columns ->
                 is_Some (df_columns d !! c))
   /\ 2 <= length (df_index d))
  /\ exists X_train X_test y_train y_test w',
      split_data (fun _ => tt) reversing_permutation self w = (Ok tt, w')
      /\ persisted_split self w'
         = [Some (FramePkl X_train); Some (FramePkl X_test);
            Some (SeriesPkl y_train); Some (SeriesPkl y_test)]
      /\ length (df_index d) = 6
      /\ length (df_index X_test) = 2
      /\ length (df_index X_train) = 4
      /\ Permutation (df_index X_train ++ df_index X_test) (df_index d).
Proof.
  intros d self w.
  assert (H1 : forall c, c ∈ "Species"%string :: feature_columns ->
                         is_Some (df_columns d !! c)).
  { intros c Hc. unfold feature_columns in Hc.
    repeat (apply elem_of_cons in Hc as [-> | Hc]);
      [..| now apply elem_of_nil in Hc]; vm_compute; eauto. }
  assert (H2 : 2 <= length (df_index d)) by (vm_compute; lia).
  split; [split; [exact reversing_permutation_permutes | now split]|].
  destruct (proj1 (split_keeps_a_fifth_for_test
                     (fun _ => tt) reversing_permutation
                     reversing_permutation_permutes
                     "artifacts/raw/data.csv" d w H1) H2)
    as (X_train & X_test & y_train & y_test & w' & Hrun & Hfiles
        & (Hfifth & Htrain & _) & Hperm & _).
  exists X_train, X_test, y_train, y_test, w'.
  change (length (df_index d)) with 6 in *.
  repeat (split; [first [assumption | reflexivity | lia]|]).
  exact Hperm.
Defined.

(** Claim C7 as first stated fails on a frame of one row: the only row
    would go to the test set, the empty train set is refused and
    [split_data] raises, leaving the files as they were. *)
Lemma single_row_is_not_split :
  let d := iris_frame [(5.1, 3.5, 1.4, 0.2, "Iris-setosa")]%Q%string in
  let self := set_df (__init__ "artifacts/raw/data.csv") d in
  let w := {| w_rng := tt; w_files := ∅ |} in
  validate_shuffle_split 1 (2 # 10) = None
  /\ split_data (fun _ => tt) reversing_permutation self w
     = (Err "Failed to split data", w).
Proof. split; vm_compute; reflexivity. Qed.

End SplitProps.

(* ===================================================================== *)
(** * Properties of the evaluation *)
(* ===================================================================== *)

Module EvaluateProps.
Import ModelTraining.

Local Open Scope string_scope.

(** ** Sorted unique labels *)

Lemma label_lt_trans a b c : label_lt a b -> label_lt b c -> label_lt a c.
Proof.
  intros H1 H2. pose proof String_as_OT.lt_strorder as [_ T].
  exact (T a b c H1 H2).
Qed.

Lemma label_lt_irrefl a : ~ label_lt a a.
Proof.
  unfold label_lt. intros H.
  pose proof (String.compare_antisym a a) as Ha. rewrite H in Ha. discriminate.
Qed.

Lemma label_gt_lt a b : String.compare a b = Gt -> label_lt b a.
Proof.
  unfold label_lt. intros H. rewrite String.compare_antisym, H. reflexivity.
Qed.

Lemma insert_unique_elem x y l : y ∈ insert_unique x l <-> y = x \/ y ∈ l.
Proof.
  induction l as [|z l IH]; cbn [insert_unique].
  - rewrite elem_of_cons. tauto.
  - destruct (String.compare x z) eqn:E.
    + apply String.compare_eq_iff in E as ->.
      rewrite elem_of_cons. tauto.
    + rewrite elem_of_cons. tauto.
    + rewrite !elem_of_cons, IH. tauto.
Qed.

Lemma insert_unique_sorted x l :
  StronglySorted label_lt l -> StronglySorted label_lt (insert_unique x l).
Proof.
  induction 1 as [|z l Hs IH Hz]; cbn [insert_unique].
  - repeat constructor.
  - destruct (String.compare x z) eqn:E.
    + now constructor.
    + constructor; [now constructor|].
      constructor; [exact E|].
      eapply Forall_impl; [exact Hz|]. intros w Hw.
      now apply label_lt_trans with z.
    + constructor; [exact IH|].
      apply Forall_forall. intros w Hw.
      apply insert_unique_elem in Hw as [-> | Hw].
      * now apply label_gt_lt.
      * rewrite Forall_forall in Hz. now apply Hz.
Qed.

Lemma np_unique_sorted l : StronglySorted label_lt (np_unique l).
Proof.
  induction l as [|x l IH]; cbn [np_unique foldr]; [constructor|].
  now apply insert_unique_sorted.
Qed.

Lemma np_unique_elem x l : x ∈ np_unique l <-> x ∈ l.
Proof.
  induction l as [|y l IH]; cbn [np_unique foldr]; [reflexivity|].
  fold (np_unique l). rewrite insert_unique_elem, elem_of_cons, IH. tauto.
Qed.

Lemma sorted_labels_NoDup l : StronglySorted label_lt l -> NoDup l.
Proof.
  induction 1 as [|x l Hs IH Hx]; constructor; [|exact IH].
  intros Hin. rewrite Forall_forall in Hx.
  exact (label_lt_irrefl x (Hx x Hin)).
Qed.

(** The sorted unique labels depend only on which labels occur. *)
Lemma np_unique_same_labels l1 l2 :
  (forall x, x ∈ l1 <-> x ∈ l2) -> np_unique l1 = np_unique l2.
Proof.
  intros H.
  apply (StronglySorted_unique_strong label_lt);
    [| apply np_unique_sorted | apply np_unique_sorted |].
  - intros a b _ _ Hab Hba. exfalso.
    exact (label_lt_irrefl a (label_lt_trans a b a Hab Hba)).
  - apply NoDup_Permutation;
      [apply sorted_labels_NoDup, np_unique_sorted
      |apply sorted_labels_NoDup, np_unique_sorted|].
    intros x. rewrite !np_unique_elem. apply H.
Qed.

(** When every predicted label occurs in the test set, the classes of the
    matrix are the sorted unique labels of the test set, which are the
    tick labels of the figure. *)
Lemma cm_labels_of_seen_predictions y_test y_pred :
  (forall p, p ∈ y_pred -> p ∈ y_test) ->
  cm_labels y_test y_pred = np_unique y_test.
Proof.
  intros H. unfold cm_labels. apply np_unique_same_labels.
  intros x. rewrite elem_of_app. split; [intros [Hx | Hx]; auto | now left].
Qed.

(** Rows are actual classes and columns predicted classes: the entry at
    row [i] and column [j] counts the samples whose true label is the
    [i]-th class and whose predicted label is the [j]-th class. *)
Lemma confusion_matrix_entry y_true y_pred (i j : nat) actual predicted :
  cm_labels y_true y_pred !! i = Some actual ->
  cm_labels y_true y_pred !! j = Some predicted ->
  confusion_matrix y_true y_pred !! i ≫= (fun row => row !! j)
  = Some (count_pairs actual predicted (zip y_true y_pred)).
Proof.
  intros Hi Hj. unfold confusion_matrix.
  change (map ?f ?l) with (f <$> l).
  rewrite list_lookup_fmap, Hi. cbn [fmap option_fmap option_map mbind option_bind].
  change (map ?f ?l) with (f <$> l).
  now rewrite list_lookup_fmap, Hj.
Qed.

(** Claim C8, on a test set whose single row is an [Iris-setosa] that the
    model calls [Iris-versicolor].  [evaluate_model] returns nothing, logs
    the four scores and saves one figure; but the matrix it draws has the
    two classes [Iris-setosa; Iris-versicolor] on its rows (actual) and
    columns (predicted), while the tick labels of both axes are the
    sorted unique labels of the test set, [Iris-setosa] alone: the class
    order of the matrix is not the one the axes show. *)
Theorem confusion_matrix_classes_exceed_tick_labels
        (Rows Score : Type) (X_test : Rows)
        (accuracy precision recall f1 : list string -> list string -> Score)
        (format_4f : Score -> string) :
  let y_test := ["Iris-setosa"] in
  let y_pred := ["Iris-versicolor"] in
  let model_predict := fun _ : Rows => inl y_pred in
  cm_labels y_test y_pred = ["Iris-setosa"; "Iris-versicolor"]
  /\ np_unique y_test = ["Iris-setosa"]
  /\ confusion_matrix y_test y_pred = [[0; 1]; [0; 0]]%nat
  /\ evaluate_model Rows model_predict Score accuracy precision recall f1
                    format_4f __init__ X_test y_test
     = (Some tt,
        [ LogInfo ("Accuracy Score  : " ++ format_4f (accuracy y_test y_pred));
          LogInfo ("Precision Score : " ++ format_4f (precision y_test y_pred));
          LogInfo ("Recall Score    : " ++ format_4f (recall y_test y_pred));
          LogInfo ("F1 Score        : " ++ format_4f (f1 y_test y_pred));
          SaveFig "artifacts/models/confusion_matrix.png"
                  {| fig_data := [[0; 1]; [0; 0]]%nat;
                     fig_xticklabels := ["Iris-setosa"];
                     fig_yticklabels := ["Iris-setosa"];
                     fig_title := "Confusion Matrix";
                     fig_xlabel := "Predicted Label";
                     fig_ylabel := "Actual Label" |};
          LogInfo "Confusion matrix saved successfully." ]).
Proof.
  intros y_test y_pred model_predict.
  repeat split; vm_compute; reflexivity.
Qed.

End EvaluateProps.

(* ===================================================================== *)
(** * Further properties of the form handler *)
(* ===================================================================== *)

Module AppExtra.
Import PyFloat App AppProps.

Local Open Scope string_scope.

(** ** Requests that are not POST *)

(** A GET or HEAD request is answered without looking at the form: no
    prediction, no error, the inputs are [DEFAULTS], the model is not
    called and nothing is logged. *)
Theorem get_renders_defaults
        (model : float -> float -> float -> float -> string + string)
        (cstr : string -> string) (posted : gmap string string) (st : State)
        (m : Method) :
  m <> POST ->
  exists st',
    index model cstr {| method := m; form := posted |} st
    = (Return {| r_prediction := None; r_error := None;
                 r_features := g_IRIS_FEATURES (st_globals st);
                 r_inputs := g_DEFAULTS (st_globals st) |}, st')
    /\ st_trace st' = st_trace st
    /\ st_globals st' = st_globals st.
Proof.
  intros Hm. exists (entered st). split; [|split; reflexivity].
  now rewrite index_other_method.
Qed.

Lemma get_renders_defaults_witness :
  GET <> POST
  /\ exists st',
      index (failing_model "unused") fallback_str
            (Build_Request GET {[ "SepalLengthCm" := "abc" ]})
            (fresh module_load)
      = (Return {| r_prediction := None; r_error := None;
                   r_features := IRIS_FEATURES; r_inputs := DEFAULTS |}, st')
      /\ st_trace st' = [].
Proof.
  assert (H : GET <> POST) by discriminate.
  split; [exact H|].
  destruct (get_renders_defaults (failing_model "unused") fallback_str
              {[ "SepalLengthCm" := "abc" ]} (fresh module_load) GET H)
    as (st' & Hrun & Ht & _).
  exists st'. split; [exact Hrun | exact Ht].
Defined.

(** ** What the response echoes *)

(** After a validation failure the inputs shown are [DEFAULTS], not what
    was posted; once the four fields have passed, the inputs are the
    parsed values, also when the model then raises. *)
Theorem inputs_echoed_only_after_validation
        (model : float -> float -> float -> float -> string + string)
        (cstr : string -> string) (posted : gmap string string) (st : State) :
  let request := {| method := POST; form := posted |} in
  let features := g_IRIS_FEATURES (st_globals st) in
  exists resp st',
    index model cstr request st = (Return resp, st')
    /\ ((exists e, first_failure features request field_order = Some e)
        /\ r_inputs resp = g_DEFAULTS (st_globals st)
        \/ exists sl sw pl pw,
            validate_field features "SepalLengthCm" (form_get request "SepalLengthCm") = Return sl
            /\ validate_field features "SepalWidthCm" (form_get request "SepalWidthCm") = Return sw
            /\ validate_field features "PetalLengthCm" (form_get request "PetalLengthCm") = Return pl
            /\ validate_field features "PetalWidthCm" (form_get request "PetalWidthCm") = Return pw
            /\ r_inputs resp = posted_inputs sl sw pl pw).
Proof.
  intros request features.
  destruct (validation_cases features request)
    as [[e He] | (sl & sw & pl & pw & H1 & H2 & H3 & H4)].
  - do 2 eexists. split.
    + apply (index_post_failure model cstr request st e eq_refl He).
    + left. split; [eauto | reflexivity].
  - pose proof (index_post_valid model cstr request st sl sw pl pw
                  eq_refl H1 H2 H3 H4) as Hrun.
    cbv zeta in Hrun. do 2 eexists. split; [exact Hrun|].
    right. exists sl, sw, pl, pw. repeat (split; [assumption|]).
    destruct (model sl sw pl pw); reflexivity.
Qed.

(** ** When the model is called *)

(** On a POST request the trace grows in one of three ways: a single
    error line when a field fails (the model is not called); one call of
    the model on the four parsed values, in the order sepal length, sepal
    width, petal length, petal width, followed by one info line with the
    label; or that call followed by one error line with the text of the
    model's exception.  So the model is called at most once, and exactly
    when the four fields validate. *)
Theorem model_called_once_iff_all_valid
        (model : float -> float -> float -> float -> string + string)
        (cstr : string -> string) (posted : gmap string string) (st : State) :
  let request := {| method := POST; form := posted |} in
  let features := g_IRIS_FEATURES (st_globals st) in
  let st' := snd (index model cstr request st) in
  (exists e,
      first_failure features request field_order = Some e
      /\ st_trace st'
         = (st_trace st ++ [LogError ("Prediction failed: " ++ exn_str cstr e)])%list)
  \/ (exists sl sw pl pw,
         first_failure features request field_order = None
         /\ validate_field features "SepalLengthCm" (form_get request "SepalLengthCm") = Return sl
         /\ validate_field features "SepalWidthCm" (form_get request "SepalWidthCm") = Return sw
         /\ validate_field features "PetalLengthCm" (form_get request "PetalLengthCm") = Return pl
         /\ validate_field features "PetalWidthCm" (form_get request "PetalWidthCm") = Return pw
         /\ st_trace st'
            = (st_trace st
                 ++ [Predict sl sw pl pw;
                     match model sl sw pl pw with
                     | inl label => LogInfo ("Prediction successful: " ++ label)
                     | inr text => LogError ("Prediction failed: " ++ text)
                     end])%list).
Proof.
  intros request features st'. subst st'.
  destruct (validation_cases features request)
    as [[e He] | (sl & sw & pl & pw & H1 & H2 & H3 & H4)].
  - left. exists e. split; [exact He|].
    rewrite (index_post_failure model cstr request st e eq_refl He).
    cbn [snd failed st_trace]. now rewrite app_nil_r.
  - right. exists sl, sw, pl, pw.
    split.
    { unfold field_order. cbn [first_failure]. fold features.
      now rewrite H1, H2, H3, H4. }
    repeat (split; [assumption|]).
    rewrite (index_post_valid model cstr request st sl sw pl pw
               eq_refl H1 H2 H3 H4).
    cbn [snd].
    destruct (model sl sw pl pw); cbn [failed predicted st_trace exn_str];
      now rewrite <- app_assoc.
Qed.

(** ** The range check as an order test *)

Lemma SFcompare_antisym (x y : float) (c : comparison) :
  SFcompare x y = Some c -> SFcompare y x = Some (CompOpp c).
Proof.
  destruct x as [sx|sx| |sx mx ex], y as [sy|sy| |sy my ey];
    cbn [SFcompare]; intros H; try discriminate H; injection H as <-; f_equal;
    repeat match goal with
           | |- context [if ?b then _ else _] => destruct b
           end;
    cbn [CompOpp]; try reflexivity;
    rewrite (Z.compare_antisym ex ey);
    destruct (ex ?= ey)%Z; cbn [CompOpp]; try reflexivity.
  - now rewrite (Pos.compare_cont_antisym mx my Eq).
  - now rewrite (Pos.compare_cont_antisym mx my Eq).
Qed.

Lemma SFcompare_total (x y : float) :
  x <> nan -> y <> nan -> exists c, SFcompare x y = Some c.
Proof.
  unfold nan.
  destruct x as [sx|sx| |sx mx ex], y as [sy|sy| |sy my ey];
    cbn [SFcompare]; intros Hx Hy; try congruence; eauto.
Qed.

Lemma nan_or_number (x : float) : x = nan \/ x <> nan.
Proof. unfold nan. destruct x; (now left) || (right; discriminate). Qed.

(** For numbers, [not (x < y)] is [y <= x]. *)
Lemma not_ltb_leb (x y : float) :
  x <> nan -> y <> nan -> (ltb x y = false <-> SFleb y x = true).
Proof.
  intros Hx Hy. destruct (SFcompare_total x y Hx Hy) as [c Hc].
  pose proof (SFcompare_antisym x y c Hc) as Hs.
  unfold ltb, SFltb, SFleb. rewrite Hc, Hs.
  destruct c; cbn [CompOpp]; split; congruence.
Qed.

Lemma bounds_are_numbers name conf :
  IRIS_FEATURES !! name = Some conf -> f_min conf <> nan /\ f_max conf <> nan.
Proof.
  intros Hc. pose proof (features_keys _ _ Hc) as Hin.
  unfold field_order in Hin.
  repeat (apply elem_of_cons in Hin as [-> | Hin]);
    [..| now apply elem_of_nil in Hin];
    vm_compute in Hc; injection Hc as <-; split; discriminate.
Qed.

(** [_parse_and_validate] returns [x] for a configured feature exactly
    when the text parses to [x] and [x] is NaN or [min <= x <= max]: a
    number that is returned is within the bounds, and every number within
    the bounds is returned. *)
Theorem accepted_iff_within_bounds
        (name value : string) (conf : FeatureConf) (x : float) (st : State) :
  st_globals st = module_load ->
  IRIS_FEATURES !! name = Some conf ->
  _parse_and_validate name value st = (Return x, st)
  <-> py_float value = Some x /\ (x = nan \/ within conf x = true).
Proof.
  intros Hg Hc.
  destruct (bounds_are_numbers name conf Hc) as [Hmin Hmax].
  rewrite parse_and_validate_run, Hg.
  change (g_IRIS_FEATURES module_load) with IRIS_FEATURES.
  unfold validate_field. rewrite Hc.
  assert (Hrange : forall y, y <> nan ->
            (ltb y (f_min conf) || gtb y (f_max conf) = false
             <-> within conf y = true)).
  { intros y Hy. unfold within, gtb.
    rewrite orb_false_iff, andb_true_iff.
    rewrite (not_ltb_leb y (f_min conf) Hy Hmin).
    change (SFltb (f_max conf) y) with (ltb (f_max conf) y).
    rewrite (not_ltb_leb (f_max conf) y Hmax Hy). tauto. }
  destruct (py_float value) as [y|]; [|split; [discriminate | intros [[=] _]]].
  destruct (ltb y (f_min conf) || gtb y (f_max conf)) eqn:E.
  - split; [discriminate|]. intros [[= ->] [-> | Hw]].
    + now rewrite nan_compares_false in E.
    + destruct (nan_or_number x) as [-> | Hx].
      * now rewrite nan_compares_false in E.
      * apply (Hrange x Hx) in Hw. congruence.
  - split.
    + intros [= ->]. split; [reflexivity|].
      destruct (nan_or_number x) as [-> | Hx]; [now left|].
      right. now apply (Hrange x Hx).
    + now intros [[= ->] _].
Qed.

Lemma accepted_iff_within_bounds_witness :
  let st := fresh module_load in
  (exists conf,
      st_globals st = module_load
      /\ IRIS_FEATURES !! "PetalWidthCm" = Some conf
      /\ py_float "1.3" = Some (lit 13 (-1))
      /\ within conf (lit 13 (-1)) = true)
  /\ _parse_and_validate "PetalWidthCm" "1.3" st = (Return (lit 13 (-1)), st).
Proof.
  intros st.
  destruct (IRIS_FEATURES !! "PetalWidthCm") as [conf|] eqn:Ec;
    [|vm_compute in Ec; discriminate].
  assert (Hg : st_globals st = module_load) by reflexivity.
  assert (Hp : py_float "1.3" = Some (lit 13 (-1))) by (vm_compute; reflexivity).
  assert (Hw : within conf (lit 13 (-1)) = true).
  { vm_compute in Ec. injection Ec as <-. vm_compute. reflexivity. }
  split; [exists conf; repeat split; assumption|].
  apply (accepted_iff_within_bounds "PetalWidthCm" "1.3" conf _ st Hg Ec).
  split; [exact Hp | now right].
Defined.

(** ** Infinities *)

(** Text that parses to an infinity ([inf], [-Infinity], a decimal that
    overflows) is rejected for each feature by the range error, so,
    unlike NaN, it never reaches the model. *)
Theorem infinities_are_rejected
        (model : float -> float -> float -> float -> string + string)
        (cstr : string -> string) (name value : string) (conf : FeatureConf)
        (negative : bool) (st : State) :
  st_globals st = module_load ->
  IRIS_FEATURES !! name = Some conf ->
  py_float value = Some (inf negative) ->
  _parse_and_validate name value st
  = (Raise (CustomException
              (f_label conf ++ ": " ++ (if negative then "-inf" else "inf")
                 ++ " is out of range [" ++ py_repr (f_min conf) ++ ", "
                 ++ py_repr (f_max conf) ++ "].")), st)
  /\ forall request,
      method request = POST ->
      form_get request name = value ->
      exists resp st',
        index model cstr request st = (Return resp, st')
        /\ r_prediction resp = None
        /\ model_not_invoked st st'.
Proof.
  intros Hg Hc Hp.
  assert (Hf : g_IRIS_FEATURES (st_globals st) = IRIS_FEATURES)
    by now rewrite Hg.
  assert (Hout : ltb (inf negative) (f_min conf)
                 || gtb (inf negative) (f_max conf) = true).
  { pose proof (features_keys _ _ Hc) as Hin. unfold field_order in Hin.
    repeat (apply elem_of_cons in Hin as [-> | Hin]);
      [..| now apply elem_of_nil in Hin];
      vm_compute in Hc; injection Hc as <-; now destruct negative. }
  assert (Hv : validate_field IRIS_FEATURES name value
               = Raise (CustomException (range_message conf (inf negative)))).
  { unfold validate_field. now rewrite Hc, Hp, Hout. }
  split.
  - rewrite parse_and_validate_run, Hf, Hv. unfold range_message.
    now destruct negative.
  - intros request Hm Hval.
    destruct (failure_blocks_prediction model cstr request st name
                (CustomException (range_message conf (inf negative))) Hm
                (features_keys _ _ Hc))
      as (e & resp & st' & _ & Hrun & Hpred & _ & Hni).
    { now rewrite Hf, Hval. }
    exists resp, st'. now repeat split.
Qed.

Lemma infinities_are_rejected_witness :
  let st := fresh module_load in
  (exists conf,
      st_globals st = module_load
      /\ IRIS_FEATURES !! "PetalLengthCm" = Some conf
      /\ py_float "1e999" = Some (inf false))
  /\ _parse_and_validate "PetalLengthCm" "1e999" st
     = (Raise (CustomException
                 "Petal Length (cm): inf is out of range [1.0, 6.9]."), st).
Proof.
  intros st.
  destruct (IRIS_FEATURES !! "PetalLengthCm") as [conf|] eqn:Ec;
    [|vm_compute in Ec; discriminate].
  assert (Hg : st_globals st = module_load) by reflexivity.
  assert (Hp : py_float "1e999" = Some (inf false)) by (vm_compute; reflexivity).
  split; [exists conf; repeat split; assumption|].
  destruct (infinities_are_rejected (constant_model "Iris-setosa") fallback_str
              "PetalLengthCm" "1e999" conf false st Hg Ec Hp) as [Hr _].
  rewrite Hr. vm_compute in Ec. injection Ec as <-. vm_compute. reflexivity.
Defined.

(** ** Missing and blank fields *)

Lemma space_is_not_underscore (c : ascii) :
  is_space c = true -> is_char c "_" = false.
Proof.
  destruct c as [[] [] [] [] [] [] [] []]; vm_compute; congruence.
Qed.

Lemma strip_underscores_spaces (s : list ascii) (prev : option ascii) :
  forallb is_space s = true ->
  from_option (fun p => is_char p "_") false prev = false ->
  strip_underscores prev s = Some s.
Proof.
  revert prev. induction s as [|c s IH]; intros prev Hs Hprev.
  - cbn [strip_underscores]. destruct prev as [p|]; [|reflexivity].
    cbn [from_option] in Hprev. now rewrite Hprev.
  - cbn [forallb] in Hs. apply andb_true_iff in Hs as [Hc Hs].
    pose proof (space_is_not_underscore c Hc) as Hu.
    cbn [strip_underscores]. rewrite Hu, Hprev. cbn [andb].
    rewrite (IH (Some c) Hs Hu). reflexivity.
Qed.

Lemma lstrip_spaces (s : list ascii) : forallb is_space s = true -> lstrip s = [].
Proof.
  induction s as [|c s IH]; [reflexivity|].
  cbn [forallb lstrip]. intros H. apply andb_true_iff in H as [-> Hs]. auto.
Qed.

(** [float] of blank text raises. *)
Lemma blank_does_not_parse (value : string) :
  blank value = true -> py_float value = None.
Proof.
  unfold blank, py_float. intros H.
  rewrite (strip_underscores_spaces _ None H eq_refl).
  cbn [mbind option_bind]. unfold strip.
  rewrite (lstrip_spaces _ H). reflexivity.
Qed.

(** A field that the form does not hold, or that holds only white space,
    fails like text that is not numeric: the parse error with the
    feature's label; a POST request with such a field gets no prediction
    and does not reach the model. *)
Theorem missing_field_is_a_parse_error
        (model : float -> float -> float -> float -> string + string)
        (cstr : string -> string) (request : Request) (name : string)
        (conf : FeatureConf) (st : State) :
  st_globals st = module_load ->
  IRIS_FEATURES !! name = Some conf ->
  form request !! name = None
  \/ (exists v, form request !! name = Some v /\ blank v = true) ->
  _parse_and_validate name (form_get request name) st
  = (Raise (CustomException (f_label conf ++ ": value must be numeric.")), st)
  /\ (method request = POST ->
      exists resp st',
        index model cstr request st = (Return resp, st')
        /\ r_prediction resp = None
        /\ is_Some (r_error resp)
        /\ model_not_invoked st st').
Proof.
  intros Hg Hc Hmiss.
  assert (Hf : g_IRIS_FEATURES (st_globals st) = IRIS_FEATURES)
    by now rewrite Hg.
  assert (Hp : py_float (form_get request name) = None).
  { unfold form_get. destruct Hmiss as [-> | (v & -> & Hb)]; cbn [default].
    - reflexivity.
    - now apply blank_does_not_parse. }
  assert (Hv : validate_field IRIS_FEATURES name (form_get request name)
               = Raise (CustomException (parse_message conf))).
  { unfold validate_field. now rewrite Hc, Hp. }
  split; [now rewrite parse_and_validate_run, Hf, Hv|].
  intros Hm.
  destruct (failure_blocks_prediction model cstr request st name
              (CustomException (parse_message conf)) Hm (features_keys _ _ Hc))
    as (e & resp & st' & _ & Hrun & Hpred & Herr & Hni).
  { now rewrite Hf. }
  exists resp, st'. repeat split; eauto.
Qed.

(** A form without the petal width. *)
Lemma missing_field_is_a_parse_error_witness :
  let request := {| method := POST;
                    form := {[ "SepalLengthCm" := "5.1"; "SepalWidthCm" := "3.5";
                               "PetalLengthCm" := " " ]} |} in
  let st := fresh module_load in
  (exists conf,
      st_globals st = module_load
      /\ IRIS_FEATURES !! "PetalWidthCm" = Some conf
      /\ form request !! "PetalWidthCm" = None)
  /\ _parse_and_validate "PetalWidthCm" (form_get request "PetalWidthCm") st
     = (Raise (CustomException "Petal Width (cm): value must be numeric."), st)
  /\ exists resp st',
      index (constant_model "Iris-setosa") fallback_str request st
      = (Return resp, st')
      /\ r_prediction resp = None.
Proof.
  intros request st.
  destruct (IRIS_FEATURES !! "PetalWidthCm") as [conf|] eqn:Ec;
    [|vm_compute in Ec; discriminate].
  assert (Hg : st_globals st = module_load) by reflexivity.
  assert (Hm : form request !! "PetalWidthCm" = None) by (vm_compute; reflexivity).
  split; [exists conf; repeat split; assumption|].
  destruct (missing_field_is_a_parse_error (constant_model "Iris-setosa")
              fallback_str request "PetalWidthCm" conf st Hg Ec (or_introl Hm))
    as [Hr Hpost].
  split.
  - rewrite Hr. vm_compute in Ec. injection Ec as <-. reflexivity.
  - destruct (Hpost eq_refl) as (resp & st' & Hrun & Hpred & _).
    exists resp, st'. now split.
Defined.

(** ** The values the form proposes *)

(** For every feature of [IRIS_FEATURES] the default ([DEFAULTS], the
    mean), the two quartiles and the three suggested values lie within
    the feature's [min, max], with the mean between the quartiles: what
    the page proposes passes the page's own range check. *)
Theorem proposed_values_are_within_bounds :
  map_Forall
    (fun name conf =>
       DEFAULTS !! name = Some (f_mean conf)
       /\ within conf (f_mean conf) = true
       /\ within conf (fst (f_iqr conf)) = true
       /\ within conf (snd (f_iqr conf)) = true
       /\ SFleb (fst (f_iqr conf)) (f_mean conf) = true
       /\ SFleb (f_mean conf) (snd (f_iqr conf)) = true
       /\ forallb (within conf) (f_suggested conf) = true
       /\ ltb (f_mean conf) (f_min conf) || gtb (f_mean conf) (f_max conf) = false)
    IRIS_FEATURES.
Proof.
  apply map_Forall_lookup. intros name conf Hc.
  pose proof (features_keys _ _ Hc) as Hin. unfold field_order in Hin.
  repeat (apply elem_of_cons in Hin as [-> | Hin]);
    [..| now apply elem_of_nil in Hin];
    vm_compute in Hc; injection Hc as <-;
    repeat split; vm_compute; reflexivity.
Qed.

End AppExtra.

(* ===================================================================== *)
(** * Further properties of the data preparation *)
(* ===================================================================== *)

Module DataExtra.
Import PyFloat DataProcessing OutlierProps SplitProps.

Local Open Scope Q_scope.

(** ** [handle_outliers] on the frame *)

(** A successful [handle_outliers(column)] touches nothing but the
    values of that column: the row index, the names of the columns, every
    other column, the number of values of the column and the paths of the
    object are kept. *)
Theorem handle_outliers_changes_one_column
        (self self' : DataProcessing) (column : string) :
  handle_outliers self column = Ok self' ->
  exists d d' values values',
    df self = Some d /\ df self' = Some d'
    /\ df_columns d !! column = Some (NumCol values)
    /\ df_columns d' !! column = Some (NumCol values')
    /\ length values' = length values
    /\ df_index d' = df_index d
    /\ dom (df_columns d') = dom (df_columns d)
    /\ (forall other, other <> column ->
                      df_columns d' !! other = df_columns d !! other)
    /\ file_path self' = file_path self
    /\ processed_data_path self' = processed_data_path self.
Proof.
  unfold handle_outliers. intros H.
  destruct (df self) as [d|] eqn:Ed; [|discriminate].
  destruct (df_columns d !! column) as [[values|values]|] eqn:Ec;
    try discriminate.
  injection H as <-.
  exists d. eexists. exists values, (handle_outliers_values values).
  cbn [df set_df df_columns df_index file_path processed_data_path].
  split; [reflexivity|]. split; [reflexivity|]. split; [exact Ec|].
  cbn [df_columns df_index].
  split; [apply lookup_insert_eq|].
  split.
  { rewrite handle_outliers_values_closed_form. apply length_map. }
  split; [reflexivity|].
  split.
  { rewrite dom_insert_L. apply (elem_of_dom_2 (D := gset string)) in Ec.
    apply subseteq_union_1_L. now apply singleton_subseteq_l. }
  split; [|split; reflexivity].
  intros other Hne. now apply lookup_insert_ne.
Qed.

(** The sepal width of nine rows, with the outlier 9.0 twice. *)
Lemma handle_outliers_changes_one_column_witness :
  let d := iris_frame [(5.1, 3.5, 1.4, 0.2, "Iris-setosa");
                       (4.9, 9.0, 1.4, 0.2, "Iris-setosa");
                       (4.7, 3.2, 1.3, 0.2, "Iris-setosa");
                       (7.0, 3.2, 4.7, 1.4, "Iris-versicolor");
                       (6.4, 3.1, 4.5, 1.5, "Iris-versicolor");
                       (6.9, 3.4, 4.9, 1.5, "Iris-versicolor");
                       (6.3, 3.3, 6.0, 2.5, "Iris-virginica");
                       (5.8, 9.0, 5.1, 1.9, "Iris-virginica");
                       (7.1, 3.0, 5.9, 2.1, "Iris-virginica")]%string in
  let self := set_df (__init__ "artifacts/raw/data.csv") d in
  exists self',
    handle_outliers self "SepalWidthCm" = Ok self'
    /\ exists d',
        df self' = Some d'
        /\ df_index d' = df_index d
        /\ df_columns d' !! "SepalLengthCm"%string
           = df_columns d !! "SepalLengthCm"%string
        /\ df_columns d' !! "SepalWidthCm"%string
           = Some (NumCol (map dec [3.5; 3.3; 3.2; 3.2; 3.1; 3.4; 3.3; 3.3; 3.0])).
Proof.
  intros d self.
  destruct (handle_outliers self "SepalWidthCm") as [self'|] eqn:E;
    [|vm_compute in E; discriminate].
  exists self'. split; [reflexivity|].
  destruct (handle_outliers_changes_one_column self self' "SepalWidthCm" E)
    as (d0 & d' & values & values' & H0 & H1 & _ & _ & _ & Hi & _ & Ho & _).
  assert (d0 = d) as -> by (cbn in H0; congruence).
  exists d'. split; [exact H1|]. split; [exact Hi|].
  split; [apply Ho; discriminate|].
  assert (Some d' = df self') as Hd by now rewrite H1.
  assert (Ok self' = handle_outliers self "SepalWidthCm") as Hs by now rewrite E.
  vm_compute in Hs. injection Hs as ->.
  cbn [df] in Hd. injection Hd as ->.
  vm_compute. reflexivity.
Defined.

(** ** A column without outliers *)

(** When every value of the column lies within the bounds, as binary64
    computes them from the column, the call changes nothing:
    [handle_outliers] returns the object it was given. *)
Theorem column_without_outliers_is_unchanged
        (self : DataProcessing) (column : string) (d : DataFrame)
        (values : list float) :
  df self = Some d ->
  df_columns d !! column = Some (NumCol values) ->
  Forall (fun x => within_bounds (Lower_value values) (Upper_value values) x
                   = true) values ->
  handle_outliers self column = Ok self.
Proof.
  intros Hd Hc Hall. unfold handle_outliers. rewrite Hd, Hc.
  assert (Hsame : handle_outliers_values values = values).
  { rewrite handle_outliers_values_closed_form.
    transitivity (map (fun x : float => x) values); [|apply map_id].
    apply map_ext_in. intros x Hx. unfold clip_to_median.
    rewrite List.Forall_forall in Hall.
    now rewrite (within_not_out _ _ x (Hall x Hx)). }
  rewrite Hsame, insert_id by exact Hc.
  destruct self as [path frame dir]. cbn [df] in Hd. subst frame.
  destruct d as [index columns]. reflexivity.
Qed.

Lemma column_without_outliers_is_unchanged_witness :
  let values := map dec [3.5; 3.0; 3.2; 3.2; 3.1; 3.4; 3.3; 3.6; 3.0] in
  let d := {| df_index := seq 0 9;
              df_columns := {[ "SepalWidthCm"%string := NumCol values ]} |} in
  let self := set_df (__init__ "artifacts/raw/data.csv") d in
  Forall (fun x => within_bounds (Lower_value values) (Upper_value values) x
                   = true) values
  /\ handle_outliers self "SepalWidthCm" = Ok self.
Proof.
  intros values d self.
  assert (H : Forall (fun x => within_bounds (Lower_value values)
                                 (Upper_value values) x = true) values).
  { repeat constructor; vm_compute; reflexivity. }
  split; [exact H|].
  apply (column_without_outliers_is_unchanged
           self "SepalWidthCm" d values); [reflexivity | reflexivity | exact H].
Defined.

End DataExtra.

(* ===================================================================== *)
(** * Further properties of the train/test split and of the stage *)
(* ===================================================================== *)

Module SplitExtra.
Import PyFloat DataProcessing OutlierProps SplitProps.

Local Open Scope nat_scope.

(** ** Paths *)

Lemma path_join_inj (dir a b : string) : path_join dir a = path_join dir b -> a = b.
Proof.
  unfold path_join. induction dir as [|c dir IH]; cbn [String.append].
  - intros H. now injection H.
  - intros H. injection H as H. now apply IH.
Qed.

Lemma lookup_four_dumps (m : gmap string Artifact) (dir : string) a1 a2 a3 a4 :
  let m' := <[path_join dir "y_test.pkl" := a4]>
              (<[path_join dir "y_train.pkl" := a3]>
                 (<[path_join dir "X_test.pkl" := a2]>
                    (<[path_join dir "X_train.pkl" := a1]> m))) in
  m' !! path_join dir "X_train.pkl" = Some a1
  /\ m' !! path_join dir "X_test.pkl" = Some a2
  /\ m' !! path_join dir "y_train.pkl" = Some a3
  /\ m' !! path_join dir "y_test.pkl" = Some a4.
Proof.
  cbv zeta.
  repeat split;
    repeat first
      [ rewrite lookup_insert_eq; reflexivity
      | rewrite lookup_insert_ne
          by (intros H; apply path_join_inj in H; discriminate H) ].
Qed.

(** ** Column selection *)

Lemma select_lookup (d X : DataFrame) (names : list string) :
  select d names = Some X ->
  df_index X = df_index d
  /\ (forall c, c ∈ names -> is_Some (df_columns d !! c))
  /\ (forall c, df_columns X !! c
                = if decide (c ∈ names) then df_columns d !! c else None).
Proof.
  unfold select. intros H.
  destruct (mapM _ names) as [cols|] eqn:E; [|discriminate].
  cbn in H. injection H as <-. cbn [df_index df_columns].
  split; [reflexivity|].
  apply mapM_Some in E.
  induction E as [|c kv names cols Hc _ [IH1 IH2]].
  - split; [intros c Hc; now apply elem_of_nil in Hc|].
    intros c. cbn. rewrite lookup_empty. now destruct (decide _).
  - destruct (df_columns d !! c) as [v|] eqn:Ev; [|discriminate].
    cbn in Hc. injection Hc as <-. split.
    + intros c' Hc'. apply elem_of_cons in Hc' as [-> | Hc'];
        [rewrite Ev; eauto | now apply IH1].
    + intros c'. cbn [list_to_map foldr uncurry]. cbn [fst snd].
      change (foldr _ ∅ cols) with (list_to_map cols : gmap string Column).
      rewrite lookup_insert. destruct (decide (c = c')) as [<- | Hne].
      * rewrite decide_True by (now left). now rewrite Ev.
      * rewrite IH2. destruct (decide (c' ∈ names)) as [Hin | Hnin].
        -- rewrite decide_True by (now right). reflexivity.
        -- rewrite decide_False; [reflexivity|].
           intros Hin. apply elem_of_cons in Hin as [-> | Hin]; tauto.
Qed.

Lemma select_features_of (d X : DataFrame) :
  select d feature_columns = Some X -> X = features_of d.
Proof.
  intros H. apply select_lookup in H as (Hi & _ & Hc).
  destruct X as [i cols]. cbn [df_index df_columns] in *. subst i.
  unfold features_of. f_equal. apply map_eq. intros c.
  rewrite Hc, map_lookup_filter.
  destruct (df_columns d !! c) as [v|]; cbn; [|now destruct (decide _)].
  destruct (decide (c ∈ feature_columns)) as [Hin | Hnin].
  - now rewrite option_guard_True.
  - now rewrite option_guard_False.
Qed.

(** ** Sizes *)

Lemma validate_fifth_inv (n n_train n_test : nat) :
  validate_shuffle_split n (2 # 10) = Some (n_train, n_test) ->
  n_test = Z.to_nat (Qceiling ((2 # 10) * inject_Z (Z.of_nat n)))
  /\ n_train = n - n_test /\ 2 <= n.
Proof.
  unfold validate_shuffle_split.
  change (Qle_bool (2 # 10) 0 || Qle_bool 1 (2 # 10)) with false. cbv iota.
  cbv zeta.
  destruct (_ =? 0) eqn:E; [discriminate|].
  intros H. injection H as <- <-. split; [reflexivity|]. split; [reflexivity|].
  apply Nat.eqb_neq in E.
  destruct n as [|[|n]]; [exfalso; apply E; reflexivity
                         |exfalso; apply E; vm_compute; reflexivity | lia].
Qed.

Section WithGenerator.

Context {RandomState : Type}.
Variable RandomState_seed : Z -> RandomState.
Variable permutation : RandomState -> nat -> list nat * RandomState.

Local Abbreviation split_data := (split_data RandomState_seed permutation).
Local Abbreviation split_positions :=
  (split_positions RandomState_seed permutation).

(** What a successful [split_data] has done. *)
Lemma split_data_success_inv (self : DataProcessing) (w w' : World RandomState) :
  split_data self w = (Ok tt, w') ->
  exists d species,
    df self = Some d
    /\ (forall c, c ∈ feature_columns -> is_Some (df_columns d !! c))
    /\ df_columns d !! "Species"%string = Some species
    /\ 2 <= length (df_index d)
    /\ in_range (length (df_index d))
                (split_positions (length (df_index d))).1 = true
    /\ in_range (length (df_index d))
                (split_positions (length (df_index d))).2 = true
    /\ let train := (split_positions (length (df_index d))).1 in
       let test := (split_positions (length (df_index d))).2 in
       let dir := processed_data_path self in
       w' = dump (dump (dump (dump w
              (path_join dir "X_train.pkl")
              (FramePkl (frame_rows (features_of d) train)))
              (path_join dir "X_test.pkl")
              (FramePkl (frame_rows (features_of d) test)))
              (path_join dir "y_train.pkl")
              (SeriesPkl (series_rows (target_of d species) train)))
              (path_join dir "y_test.pkl")
              (SeriesPkl (series_rows (target_of d species) test)).
Proof.
  unfold DataProcessing.split_data. intros H.
  destruct (df self) as [d|]; [|discriminate].
  destruct (select d feature_columns) as [X|] eqn:EX; [|discriminate].
  destruct (column d "Species") as [Y|] eqn:EY; [|discriminate].
  pose proof (select_lookup _ _ _ EX) as (_ & Hcols & _).
  apply select_features_of in EX. subst X.
  unfold column in EY.
  destruct (df_columns d !! "Species"%string) as [species|] eqn:Es; [|discriminate].
  cbn in EY. injection EY as <-.
  unfold DataProcessing.train_test_split in H.
  cbn [features_of df_index s_index] in H.
  rewrite Nat.eqb_refl in H. cbn [negb] in H.
  destruct (validate_shuffle_split _ _) as [[n_train n_test]|] eqn:Ev;
    [|discriminate].
  apply validate_fifth_inv in Ev as (-> & -> & Hn).
  cbn [shuffle_indices] in H.
  unfold frame_iloc, series_iloc in H. cbn [df_index s_index] in H.
  fold (split_positions (length (df_index d))) in H.
  exists d, species.
  unfold DataProcessing.split_positions in *.
  cbn [fst snd] in *.
  destruct (in_range _ (take (_ - _) _)) eqn:E1; [|discriminate].
  destruct (in_range _ (take _ (fst _))) eqn:E2; [|discriminate].
  cbn in H. injection H as <-.
  repeat (split; [first [reflexivity | assumption]|]).
  reflexivity.
Qed.


(** ** The footprint of [split_data] *)

(** [split_data] ends without an exception or with the one message
    [Failed to split data]; when it fails it has written nothing; and in
    either case a file other than its four files is as it was before. *)
Theorem split_data_writes_only_its_four_files
        (self : DataProcessing) (w : World RandomState) :
  (fst (split_data self w) = Ok tt
   \/ split_data self w = (Err "Failed to split data", w))
  /\ (forall k, k ∉ split_paths self ->
                w_files (snd (split_data self w)) !! k = w_files w !! k).
Proof.
  destruct (split_data_run RandomState_seed permutation self w)
    as [(X_train & X_test & y_train & y_test & Hrun) | Hrun];
    rewrite Hrun; cbn [fst snd].
  - split; [now left|]. intros k Hk. unfold dump. cbn [w_files].
    unfold split_paths in Hk. cbn [map] in Hk.
    rewrite !lookup_insert_ne; [reflexivity|..];
      intros <-; apply Hk; repeat constructor.
  - split; [now right | reflexivity].
Qed.

Hypothesis permutation_permutes :
  forall g n, Permutation (fst (permutation g n)) (seq 0 n).

Lemma split_positions_partition (n : nat) :
  Permutation ((split_positions n).1 ++ (split_positions n).2) (seq 0 n)
  /\ in_range n (split_positions n).1 = true
  /\ in_range n (split_positions n).2 = true.
Proof.
  unfold DataProcessing.split_positions. cbn [fst snd].
  set (p := fst (permutation (RandomState_seed 42%Z) n)).
  set (n_test := Z.to_nat _).
  pose proof (permutation_permutes (RandomState_seed 42%Z) n) as Hp.
  fold p in Hp.
  assert (Hplen : length p = n).
  { rewrite (Permutation_length Hp). apply length_seq. }
  assert (Hall : take (n - n_test) (drop n_test p) = drop n_test p).
  { apply take_ge. rewrite length_drop. lia. }
  rewrite Hall.
  assert (Hperm : Permutation (drop n_test p ++ take n_test p) (seq 0 n)).
  { rewrite Permutation_app_comm, take_drop. exact Hp. }
  split; [exact Hperm|].
  assert (Hrange : Forall (fun i => i < n) (drop n_test p ++ take n_test p)).
  { apply Forall_forall. intros i Hi. rewrite Hperm in Hi.
    apply elem_of_seq in Hi. lia. }
  apply Forall_app in Hrange as [H1 H2].
  split; now apply in_range_Forall.
Qed.

Lemma split_data_succeeds (self : DataProcessing) (w : World RandomState)
      (d : DataFrame) :
  df self = Some d ->
  (forall c, c ∈ "Species"%string :: feature_columns ->
             is_Some (df_columns d !! c)) ->
  2 <= length (df_index d) ->
  fst (split_data self w) = Ok tt.
Proof.
  intros Hd Hcols Hn.
  destruct (select_features d) as (X & HX & HXi).
  { intros c Hc. apply Hcols. now right. }
  destruct (Hcols "Species"%string) as [sp Hsp]; [left|].
  destruct (test_size_fifth _ Hn) as (n_test & Hv & _ & _).
  pose proof (validate_fifth_inv _ _ _ Hv) as (Hnt & _ & _).
  destruct (split_positions_partition (length (df_index d))) as (_ & R1 & R2).
  unfold DataProcessing.split_positions in R1, R2. cbn [fst snd] in R1, R2.
  rewrite <- Hnt in R1, R2.
  unfold DataProcessing.split_data. rewrite Hd, HX.
  unfold column. rewrite Hsp. cbn [mbind option_bind].
  unfold DataProcessing.train_test_split. cbn [s_index].
  rewrite HXi, Nat.eqb_refl. cbn [negb]. rewrite Hv.
  cbn [shuffle_indices]. unfold frame_iloc, series_iloc. cbn [s_index].
  rewrite HXi, R1, R2. reflexivity.
Qed.

(** [split_data] succeeds exactly on an object whose frame is loaded, has
    the four measurement columns and the [Species] column, and has at
    least two rows. *)
Theorem split_succeeds_iff_frame_is_splittable
        (self : DataProcessing) (w : World RandomState) :
  fst (split_data self w) = Ok tt
  <-> exists d,
        df self = Some d
        /\ (forall c, c ∈ "Species"%string :: feature_columns ->
                      is_Some (df_columns d !! c))
        /\ 2 <= length (df_index d).
Proof.
  split.
  - intros H. destruct (split_data self w) as [r w'] eqn:E.
    cbn [fst] in H. subst r.
    apply split_data_success_inv in E
      as (d & species & Hd & Hf & Hs & Hn & _).
    exists d. split; [exact Hd|]. split; [|exact Hn].
    intros c Hc. apply elem_of_cons in Hc as [-> | Hc];
      [rewrite Hs; eauto | now apply Hf].
  - intros (d & Hd & Hcols & Hn). now apply split_data_succeeds with d.
Qed.

Lemma split_pairs_features_core
      (self : DataProcessing) (w w' : World RandomState) :
  split_data self w = (Ok tt, w') ->
  exists d species,
    df self = Some d
    /\ df_columns d !! "Species"%string = Some species
    /\ let n := length (df_index d) in
       let train := (split_positions n).1 in
       let test := (split_positions n).2 in
       persisted_split self w'
       = [Some (FramePkl (frame_rows (features_of d) train));
          Some (FramePkl (frame_rows (features_of d) test));
          Some (SeriesPkl (series_rows (target_of d species) train));
          Some (SeriesPkl (series_rows (target_of d species) test))].
Proof.
  intros H.
  apply split_data_success_inv in H
    as (d & species & Hd & Hf & Hs & Hn & _ & _ & ->).
  exists d, species. split; [exact Hd|]. split; [exact Hs|].
  cbv zeta.
  unfold persisted_split, dump. cbn [w_files map].
  destruct (lookup_four_dumps (w_files w) (processed_data_path self)
              (FramePkl (frame_rows (features_of d)
                 (split_positions (length (df_index d))).1))
              (FramePkl (frame_rows (features_of d)
                 (split_positions (length (df_index d))).2))
              (SeriesPkl (series_rows (target_of d species)
                 (split_positions (length (df_index d))).1))
              (SeriesPkl (series_rows (target_of d species)
                 (split_positions (length (df_index d))).2)))
    as (E1 & E2 & E3 & E4).
  cbv zeta in E1, E2, E3, E4. now rewrite E1, E2, E3, E4.
Qed.

(** After a successful [split_data] the four files hold the rows of the
    frame at the positions [train] and [test] that the seeded permutation
    gives: the feature files hold the four measurement columns (and not
    [Species]) at these positions, the target files hold the [Species]
    column at the same positions, so that a row of features and its label
    stay together; the positions are row positions of the frame, and each
    row position is in exactly one of the two sets. *)
Theorem split_pairs_features_with_targets
        (self : DataProcessing) (w w' : World RandomState) :
  split_data self w = (Ok tt, w') ->
  exists d species,
    df self = Some d
    /\ df_columns d !! "Species"%string = Some species
    /\ let n := length (df_index d) in
       let train := (split_positions n).1 in
       let test := (split_positions n).2 in
       persisted_split self w'
       = [Some (FramePkl (frame_rows (features_of d) train));
          Some (FramePkl (frame_rows (features_of d) test));
          Some (SeriesPkl (series_rows (target_of d species) train));
          Some (SeriesPkl (series_rows (target_of d species) test))]
       /\ Permutation (train ++ test) (seq 0 n)
       /\ (forall c, is_Some (df_columns (features_of d) !! c)
                     <-> c ∈ feature_columns).
Proof.
  intros H.
  apply split_data_success_inv in H
    as (d & species & Hd & Hf & Hs & Hn & _ & _ & ->).
  exists d, species. split; [exact Hd|]. split; [exact Hs|].
  cbv zeta. split; [|split].
  - unfold persisted_split, dump. cbn [w_files map].
    destruct (lookup_four_dumps (w_files w) (processed_data_path self)
                (FramePkl (frame_rows (features_of d)
                   (split_positions (length (df_index d))).1))
                (FramePkl (frame_rows (features_of d)
                   (split_positions (length (df_index d))).2))
                (SeriesPkl (series_rows (target_of d species)
                   (split_positions (length (df_index d))).1))
                (SeriesPkl (series_rows (target_of d species)
                   (split_positions (length (df_index d))).2)))
      as (E1 & E2 & E3 & E4).
    cbv zeta in E1, E2, E3, E4. now rewrite E1, E2, E3, E4.
  - apply split_positions_partition.
  - intros c. unfold features_of. cbn [df_columns].
    rewrite map_lookup_filter. split.
    + intros [v Hv]. destruct (df_columns d !! c) as [v'|]; [|discriminate].
      cbn in Hv. destruct (decide (c ∈ feature_columns)) as [Hin|Hnin];
        [exact Hin|].
      now rewrite option_guard_False in Hv.
    + intros Hc. destruct (Hf c Hc) as [v ->]. cbn.
      rewrite option_guard_True by exact Hc. eauto.
Qed.


(** ** The stage as a whole: [run] *)

Variable read_csv : string -> option DataFrame.

Local Abbreviation run := (run RandomState_seed permutation read_csv).

Lemma run_success_inv (self self' : DataProcessing) (w w' : World RandomState) :
  run self w = (Ok self', w') ->
  exists raw widths,
    read_csv (file_path self) = Some raw
    /\ df_columns raw !! "SepalWidthCm"%string = Some (NumCol widths)
    /\ self' = set_df self (cleaned_frame raw widths)
    /\ split_data self' w = (Ok tt, w').
Proof.
  unfold DataProcessing.run, load_data, handle_outliers. intros H.
  destruct (read_csv (file_path self)) as [raw|]; [|discriminate].
  cbn [df set_df] in H.
  destruct (df_columns raw !! "SepalWidthCm"%string) as [[widths|?]|] eqn:Ew;
    try discriminate.
  destruct (DataProcessing.split_data _ _ _ _) as [[[]|m] w1] eqn:Es;
    [|discriminate].
  injection H as <- <-. exists raw, widths.
  split; [reflexivity|]. split; [exact Ew|]. split; [reflexivity|].
  exact Es.
Qed.

Lemma pick_elem_of {A} (l : list A) (idx : list nat) (x : A) :
  x ∈ pick l idx -> x ∈ l.
Proof.
  unfold pick. rewrite list_elem_of_omap. intros (i & _ & Hi).
  now apply list_elem_of_lookup_2 in Hi.
Qed.

(** After a successful [run] the object holds the frame read from the
    file with the sepal widths cleaned, and the four files hold the split
    of that frame.  In the feature files, whatever the rows taken, each
    sepal width is the median of the raw column or a value of the raw
    column that is not out of bounds (bounds and median as binary64
    computes them from the raw column); the three other measurements are
    those of the file. *)
Theorem run_persists_cleaned_measurements
        (self self' : DataProcessing) (w w' : World RandomState) :
  run self w = (Ok self', w') ->
  exists raw widths species,
    read_csv (file_path self) = Some raw
    /\ df_columns raw !! "SepalWidthCm"%string = Some (NumCol widths)
    /\ df_columns raw !! "Species"%string = Some species
    /\ df self' = Some (cleaned_frame raw widths)
    /\ let cleaned := cleaned_frame raw widths in
       let n := length (df_index raw) in
       let train := (split_positions n).1 in
       let test := (split_positions n).2 in
       persisted_split self w'
       = [Some (FramePkl (frame_rows (features_of cleaned) train));
          Some (FramePkl (frame_rows (features_of cleaned) test));
          Some (SeriesPkl (series_rows (target_of raw species) train));
          Some (SeriesPkl (series_rows (target_of raw species) test))]
       /\ forall idx,
            numeric_all
              (fun x => x = median widths
                        \/ (In x widths
                            /\ out_of_bounds (Lower_value widths)
                                 (Upper_value widths) x = false))
              (df_columns (frame_rows (features_of cleaned) idx)
                 !! "SepalWidthCm"%string)
            /\ forall c, c ∈ feature_columns -> c <> "SepalWidthCm"%string ->
                 df_columns (frame_rows (features_of cleaned) idx) !! c
                 = col_pick idx <$> df_columns raw !! c.
Proof.
  intros H. apply run_success_inv in H as (raw & widths & Hr & Hw & -> & Hs).
  apply split_pairs_features_core in Hs
    as (d & species & Hd & Hsp & Hfiles).
  cbn [df set_df] in Hd. injection Hd as <-.
  unfold cleaned_frame in Hsp at 1. cbn [df_columns] in Hsp.
  rewrite lookup_insert_ne in Hsp by discriminate.
  exists raw, widths, species.
  split; [exact Hr|]. split; [exact Hw|]. split; [exact Hsp|].
  split; [reflexivity|].
  cbv zeta. split; [exact Hfiles|].
  intros idx. unfold frame_rows, features_of. cbn [df_columns]. split.
  - exists (pick (handle_outliers_values widths) idx). split.
    + rewrite lookup_fmap, map_lookup_filter.
      unfold cleaned_frame. cbn [df_columns]. rewrite lookup_insert_eq.
      cbn. rewrite option_guard_True; [reflexivity|].
      unfold feature_columns. repeat constructor.
    + apply Forall_forall. intros x Hx. apply pick_elem_of in Hx.
      rewrite handle_outliers_values_closed_form in Hx.
      apply list_elem_of_In, in_map_iff in Hx as (x0 & <- & Hx0).
      unfold clip_to_median.
      destruct (out_of_bounds _ _ x0) eqn:E; [now left | right; now split].
  - intros c Hc Hne. rewrite lookup_fmap, map_lookup_filter.
    unfold cleaned_frame. cbn [df_columns].
    rewrite lookup_insert_ne by congruence.
    destruct (df_columns raw !! c) as [v|]; [|reflexivity].
    cbn. now rewrite option_guard_True.
Qed.

(** When [run] fails it has written nothing, and the message names the
    first stage that failed: reading, when the file cannot be read;
    outlier handling, when the frame has no numeric [SepalWidthCm]
    column; splitting, when one of the other columns is missing or the
    frame has fewer than two rows. *)
Theorem run_failure_names_the_stage
        (self : DataProcessing) (w w' : World RandomState) (message : string) :
  run self w = (Err message, w') ->
  w' = w
  /\ ((message = "Failed to read data"%string
       /\ read_csv (file_path self) = None)
      \/ (message = "Failed to handle outliers"%string
          /\ exists raw,
               read_csv (file_path self) = Some raw
               /\ forall widths,
                    df_columns raw !! "SepalWidthCm"%string
                    <> Some (NumCol widths))
      \/ (message = "Failed to split data"%string
          /\ exists raw widths,
               read_csv (file_path self) = Some raw
               /\ df_columns raw !! "SepalWidthCm"%string
                  = Some (NumCol widths)
               /\ ((exists c, c ∈ "Species"%string :: feature_columns
                              /\ df_columns raw !! c = None)
                   \/ length (df_index raw) < 2))).
Proof.
  unfold DataProcessing.run, load_data, handle_outliers. intros H.
  destruct (read_csv (file_path self)) as [raw|];
    [|injection H as <- <-; split; [reflexivity | now left]].
  cbn [df set_df] in H.
  destruct (df_columns raw !! "SepalWidthCm"%string) as [[widths|?]|] eqn:Ew;
    [| injection H as <- <-; split; [reflexivity|];
       right; left; split; [reflexivity|]; exists raw;
       split; [reflexivity | congruence] ..].
  set (self2 := set_df _ _) in H.
  destruct (split_data_run RandomState_seed permutation self2 w)
    as [(X_train & X_test & y_train & y_test & Hok) | Hf].
  - rewrite Hok in H. discriminate H.
  - specialize (Hf w). pose proof Hf as Hf'.
    rewrite Hf in H. injection H as <- <-. split; [reflexivity|].
    right; right. split; [reflexivity|]. exists raw, widths.
    split; [reflexivity|]. split; [exact Ew|].
    destruct (decide (2 <= length (df_index raw))) as [Hn|Hn]; [|right; lia].
    left.
    destruct (decide (Exists (fun c => df_columns raw !! c = None)
                             ("Species"%string :: feature_columns)))
      as [Hex|Hall].
    { apply Exists_exists in Hex as (c & Hc & Hnone). now exists c. }
    exfalso. apply not_Exists_Forall in Hall; [|solve_decision].
    rewrite Forall_forall in Hall.
    assert (Hok : fst (split_data self2 w) = Ok tt).
    { apply split_data_succeeds with (cleaned_frame raw widths);
        [reflexivity | | exact Hn].
      intros c Hc. unfold cleaned_frame. cbn [df_columns].
      apply lookup_insert_is_Some'. right.
      specialize (Hall c Hc). cbn in Hall.
      destruct (df_columns raw !! c); [eauto | contradiction]. }
    rewrite Hf' in Hok. discriminate Hok.
Qed.

End WithGenerator.

(** The characterisation on a frame of six rows, with a generator whose
    permutation reverses the rows. *)
Lemma split_succeeds_iff_frame_is_splittable_witness :
  let d := iris_frame [(5.1, 3.5, 1.4, 0.2, "Iris-setosa");
                       (4.9, 3.0, 1.4, 0.2, "Iris-setosa");
                       (7.0, 3.2, 4.7, 1.4, "Iris-versicolor");
                       (6.4, 3.2, 4.5, 1.5, "Iris-versicolor");
                       (6.3, 3.3, 6.0, 2.5, "Iris-virginica");
                       (5.8, 2.7, 5.1, 1.9, "Iris-virginica")]%Q%string in
  let self := set_df (__init__ "artifacts/raw/data.csv") d in
  let w := {| w_rng := tt; w_files := ∅ |} in
  (forall g n, Permutation (fst (reversing_permutation g n)) (seq 0 n))
  /\ fst (split_data (fun _ => tt) reversing_permutation self w) = Ok tt.
Proof.
  intros d self w. split; [exact reversing_permutation_permutes|].
  apply (split_succeeds_iff_frame_is_splittable
           (fun _ => tt) reversing_permutation
           reversing_permutation_permutes self w).
  exists d. split; [reflexivity|]. split; [|vm_compute; lia].
  intros c Hc. unfold feature_columns in Hc.
  repeat (apply elem_of_cons in Hc as [-> | Hc]);
    [..| now apply elem_of_nil in Hc]; vm_compute; eauto.
Defined.

(** The pairing on the same frame: rows [5; 4] (in the order of the
    reversed permutation) are the test set, rows [3; 2; 1; 0] the train
    set. *)
Lemma split_pairs_features_with_targets_witness :
  let d := iris_frame [(5.1, 3.5, 1.4, 0.2, "Iris-setosa");
                       (4.9, 3.0, 1.4, 0.2, "Iris-setosa");
                       (7.0, 3.2, 4.7, 1.4, "Iris-versicolor");
                       (6.4, 3.2, 4.5, 1.5, "Iris-versicolor");
                       (6.3, 3.3, 6.0, 2.5, "Iris-virginica");
                       (5.8, 2.7, 5.1, 1.9, "Iris-virginica")]%Q%string in
  let self := set_df (__init__ "artifacts/raw/data.csv") d in
  let w := {| w_rng := tt; w_files := ∅ |} in
  let w' := snd (split_data (fun _ => tt) reversing_permutation self w) in
  ((forall g n, Permutation (fst (reversing_permutation g n)) (seq 0 n))
   /\ split_data (fun _ => tt) reversing_permutation self w = (Ok tt, w'))
  /\ split_positions (fun _ => tt) reversing_permutation 6 = ([3; 2; 1; 0], [5; 4])
  /\ exists species,
       df_columns d !! "Species"%string = Some species
       /\ persisted_split self w'
          = [Some (FramePkl (frame_rows (features_of d) [3; 2; 1; 0]));
             Some (FramePkl (frame_rows (features_of d) [5; 4]));
             Some (SeriesPkl (series_rows (target_of d species) [3; 2; 1; 0]));
             Some (SeriesPkl (series_rows (target_of d species) [5; 4]))].
Proof.
  intros d self w w'.
  assert (Hrun : split_data (fun _ => tt) reversing_permutation self w
                 = (Ok tt, w')) by (vm_compute; reflexivity).
  split; [split; [exact reversing_permutation_permutes | exact Hrun]|].
  split; [vm_compute; reflexivity|].
  destruct (split_pairs_features_with_targets
              (fun _ => tt) reversing_permutation
              reversing_permutation_permutes self w w' Hrun)
    as (d' & species & Hd & Hs & Hfiles & _ & _).
  cbn [df self set_df] in Hd. injection Hd as <-.
  exists species. split; [exact Hs | exact Hfiles].
Defined.

(** A file of nine rows with two sepal widths of 9.0: after [run] the
    sepal widths saved for training are 3.3 (the median, where the file
    had 9.0 at row 7) and values of the file. *)
Lemma run_persists_cleaned_measurements_witness :
  let raw := iris_frame [(5.1, 3.5, 1.4, 0.2, "Iris-setosa");
                         (4.9, 9.0, 1.4, 0.2, "Iris-setosa");
                         (4.7, 3.2, 1.3, 0.2, "Iris-setosa");
                         (7.0, 3.2, 4.7, 1.4, "Iris-versicolor");
                         (6.4, 3.1, 4.5, 1.5, "Iris-versicolor");
                         (6.9, 3.4, 4.9, 1.5, "Iris-versicolor");
                         (6.3, 3.3, 6.0, 2.5, "Iris-virginica");
                         (5.8, 9.0, 5.1, 1.9, "Iris-virginica");
                         (7.1, 3.0, 5.9, 2.1, "Iris-virginica")]%Q%string in
  let read_csv := fun path : string =>
    if String.eqb path "artifacts/raw/data.csv" then Some raw else None in
  let self := __init__ "artifacts/raw/data.csv" in
  let w := {| w_rng := tt; w_files := ∅ |} in
  let r := run (fun _ => tt) reversing_permutation read_csv self w in
  let widths := map dec [3.5; 9.0; 3.2; 3.2; 3.1; 3.4; 3.3; 9.0; 3.0]%Q in
  exists self',
    r = (Ok self', snd r)
    /\ median widths = dec 3.3
    /\ numeric_all
         (fun x => x = median widths
                   \/ (In x widths
                       /\ out_of_bounds (Lower_value widths)
                            (Upper_value widths) x = false))
         (df_columns
            (frame_rows (features_of (cleaned_frame raw widths))
               (split_positions (fun _ => tt) reversing_permutation 9).1)
            !! "SepalWidthCm"%string).
Proof.
  intros raw read_csv self w r widths.
  assert (Hrun : r = (Ok (set_df self (cleaned_frame raw widths)), snd r))
    by (vm_compute; reflexivity).
  destruct (run_persists_cleaned_measurements
              (fun _ => tt) reversing_permutation read_csv self _ w (snd r) Hrun)
    as (raw' & widths' & species & Hr & Hw & _ & _ & _ & Hvalues).
  cbn in Hr. injection Hr as <-.
  assert (Hw' : Some (NumCol widths') = Some (NumCol widths))
    by (rewrite <- Hw; vm_compute; reflexivity).
  injection Hw' as ->.
  eexists. split; [exact Hrun|]. split; [vm_compute; reflexivity|].
  exact (proj1 (Hvalues
                  (split_positions (fun _ => tt) reversing_permutation 9).1)).
Defined.

(** A file without the [Species] column: outlier handling goes through,
    the split fails, and nothing is written. *)
Lemma run_failure_names_the_stage_witness :
  let raw := {| df_index := [0; 1; 2];
                df_columns :=
                  {[ "SepalWidthCm"%string :=
                       NumCol (map dec [3.0; 3.1; 3.2]%Q) ]} |} in
  let read_csv := fun _ : string => Some raw in
  let self := __init__ "artifacts/raw/data.csv" in
  let w := {| w_rng := tt; w_files := ∅ |} in
  ((forall g n, Permutation (fst (reversing_permutation g n)) (seq 0 n))
   /\ run (fun _ => tt) reversing_permutation read_csv self w
      = (Err "Failed to split data", w))
  /\ exists c, c ∈ "Species"%string :: feature_columns
               /\ df_columns raw !! c = None.
Proof.
  intros raw read_csv self w.
  assert (Hrun : run (fun _ => tt) reversing_permutation read_csv self w
                 = (Err "Failed to split data", w)) by (vm_compute; reflexivity).
  split; [split; [exact reversing_permutation_permutes | exact Hrun]|].
  destruct (run_failure_names_the_stage
              (fun _ => tt) reversing_permutation
              reversing_permutation_permutes read_csv self w w _ Hrun)
    as [_ [[Hm _] | [[Hm _] | (_ & raw' & widths & Hr & _ & [Hc | Hn])]]].
  - discriminate Hm.
  - discriminate Hm.
  - cbn in Hr. injection Hr as <-. exact Hc.
  - cbn in Hr. injection Hr as <-. cbn in Hn. lia.
Defined.

End SplitExtra.

(* ===================================================================== *)
(** * From the data stage to the training stage *)
(* ===================================================================== *)

Module PipelineExtra.
Import DataProcessing SplitProps SplitExtra.

Local Open Scope nat_scope.

(** The training stage of [pipeline/training_pipeline.py] starts where the
    data stage ended.  After a successful
    [DataProcessing(path).run()], [ModelTraining().load_data()] succeeds
    and returns, in this order, the train and test rows of the four
    measurement columns of the cleaned frame and the train and test rows
    of its [Species] column, whatever files were there before. *)
Theorem training_loads_the_split_of_the_cleaned_data
        {RandomState : Type} (RandomState_seed : Z -> RandomState)
        (permutation : RandomState -> nat -> list nat * RandomState)
        (read_csv : string -> option DataFrame)
        (path : string) (self' : DataProcessing) (w w' : World RandomState) :
  run RandomState_seed permutation read_csv (__init__ path) w = (Ok self', w') ->
  exists raw widths species,
    read_csv path = Some raw
    /\ df_columns raw !! "SepalWidthCm"%string = Some (NumCol widths)
    /\ df_columns raw !! "Species"%string = Some species
    /\ let cleaned := cleaned_frame raw widths in
       let n := length (df_index raw) in
       let train := (split_positions RandomState_seed permutation n).1 in
       let test := (split_positions RandomState_seed permutation n).2 in
       ModelTraining.load_data ModelTraining.__init__ (w_files w')
       = Ok (FramePkl (frame_rows (features_of cleaned) train),
             FramePkl (frame_rows (features_of cleaned) test),
             SeriesPkl (series_rows (target_of raw species) train),
             SeriesPkl (series_rows (target_of raw species) test)).
Proof.
  intros H.
  apply run_success_inv in H as (raw & widths & Hr & Hw & -> & Hs).
  apply split_pairs_features_core in Hs as (d & species & Hd & Hsp & Hfiles).
  cbn [df set_df] in Hd. injection Hd as <-.
  unfold cleaned_frame in Hsp at 1. cbn [df_columns] in Hsp.
  rewrite lookup_insert_ne in Hsp by discriminate.
  exists raw, widths, species.
  split; [exact Hr|]. split; [exact Hw|]. split; [exact Hsp|].
  cbv zeta in Hfiles |- *.
  unfold persisted_split in Hfiles. cbn [map] in Hfiles.
  injection Hfiles as E1 E2 E3 E4.
  cbn [processed_data_path set_df __init__] in E1, E2, E3, E4.
  unfold ModelTraining.load_data.
  cbn [ModelTraining.processed_data_path ModelTraining.__init__].
  rewrite E1, E2, E3, E4. reflexivity.
Qed.

Lemma training_loads_the_split_of_the_cleaned_data_witness :
  let raw := iris_frame [(5.1, 3.5, 1.4, 0.2, "Iris-setosa");
                         (4.9, 9.0, 1.4, 0.2, "Iris-setosa");
                         (4.7, 3.2, 1.3, 0.2, "Iris-setosa");
                         (7.0, 3.2, 4.7, 1.4, "Iris-versicolor");
                         (6.4, 3.1, 4.5, 1.5, "Iris-versicolor");
                         (6.9, 3.4, 4.9, 1.5, "Iris-versicolor");
                         (6.3, 3.3, 6.0, 2.5, "Iris-virginica");
                         (5.8, 9.0, 5.1, 1.9, "Iris-virginica");
                         (7.1, 3.0, 5.9, 2.1, "Iris-virginica")]%Q%string in
  let read_csv := fun path : string =>
    if String.eqb path "artifacts/raw/data.csv" then Some raw else None in
  let stale := SeriesPkl {| s_index := []; s_values := ObjCol [] |} in
  let w := {| w_rng := tt;
              w_files := {[ "artifacts/processed/X_train.pkl"%string := stale ]} |} in
  let r := run (fun _ => tt) reversing_permutation read_csv
               (__init__ "artifacts/raw/data.csv") w in
  exists self' X_train X_test y_train y_test,
    r = (Ok self', snd r)
    /\ ModelTraining.load_data ModelTraining.__init__ (w_files (snd r))
       = Ok (FramePkl X_train, FramePkl X_test,
             SeriesPkl y_train, SeriesPkl y_test)
    /\ s_values y_test = ObjCol ["Iris-virginica"; "Iris-virginica"]%string.
Proof.
  intros raw read_csv stale w r.
  assert (Hrun : r = (Ok (set_df (__init__ "artifacts/raw/data.csv")
                            (cleaned_frame raw
                               (map dec [3.5; 9.0; 3.2; 3.2; 3.1; 3.4;
                                         3.3; 9.0; 3.0]%Q))),
                      snd r)) by (vm_compute; reflexivity).
  destruct (training_loads_the_split_of_the_cleaned_data
              (fun _ => tt) reversing_permutation read_csv
              "artifacts/raw/data.csv" _ w (snd r) Hrun)
    as (raw' & widths & species & Hr & _ & Hs & Hload).
  cbn in Hr. injection Hr as <-.
  vm_compute in Hs. injection Hs as <-.
  do 5 eexists. split; [exact Hrun|]. split; [exact Hload|].
  vm_compute. reflexivity.
Defined.

End PipelineExtra.

(* ===================================================================== *)
(** * Further properties of the evaluation *)
(* ===================================================================== *)

Module EvaluateExtra.
Import ModelTraining EvaluateProps.

Local Open Scope string_scope.
Local Open Scope nat_scope.

(** ** Sums over the classes *)

Lemma sum_list_fmap {A} (f : A -> nat) (l : list A) :
  sum_list (f <$> l) = sum_list_with f l.
Proof. induction l as [|x l IH]; cbn; [reflexivity | now rewrite IH]. Qed.

Lemma sum_list_with_add {A} (f g : A -> nat) (l : list A) :
  sum_list_with (fun x => f x + g x) l = sum_list_with f l + sum_list_with g l.
Proof. induction l as [|x l IH]; cbn; [reflexivity | rewrite IH; lia]. Qed.

Lemma sum_list_with_ext {A} (f g : A -> nat) (l : list A) :
  (forall x, x ∈ l -> f x = g x) -> sum_list_with f l = sum_list_with g l.
Proof.
  induction l as [|x l IH]; intros H; cbn; [reflexivity|].
  rewrite (H x) by (now left). rewrite IH; [reflexivity|].
  intros y Hy. apply H. now right.
Qed.

Lemma sum_list_with_zero {A} (l : list A) : sum_list_with (fun _ => 0) l = 0.
Proof. induction l as [|x l IH]; cbn; [reflexivity | exact IH]. Qed.

(** Among classes without duplicates, a sample belongs to one class. *)
Lemma sum_indicator (classes : list string) (c0 : string)
      (R : string -> Prop) `{!forall c, Decision (R c)} :
  NoDup classes -> c0 ∈ classes -> (forall c, R c <-> c0 = c) ->
  sum_list_with (fun c => if decide (R c) then 1 else 0) classes = 1.
Proof.
  intros Hnd Hin HR. induction Hnd as [|c classes Hc Hnd IH].
  - now apply elem_of_nil in Hin.
  - cbn. destruct (decide (R c)) as [Hr | Hr].
    + apply HR in Hr. subst c0.
      rewrite (sum_list_with_ext _ (fun _ => 0)), sum_list_with_zero;
        [reflexivity|].
      intros c' Hc'. destruct (decide (R c')) as [Hr'|]; [|reflexivity].
      apply HR in Hr'. now subst c'.
    + apply elem_of_cons in Hin as [-> | Hin];
        [exfalso; apply Hr, HR; reflexivity|].
      now apply IH.
Qed.

Lemma sum_over_classes {A} (key : A -> string) (classes : list string)
      (P : A -> Prop) `{!forall x, Decision (P x)}
      (R : string -> A -> Prop) `{!forall c x, Decision (R c x)}
      (xs : list A) :
  NoDup classes ->
  (forall x, x ∈ xs -> key x ∈ classes) ->
  (forall c x, R c x <-> P x /\ key x = c) ->
  sum_list_with (fun c => length (filter (R c) xs)) classes
  = length (filter P xs).
Proof.
  intros Hnd Hkey HR. induction xs as [|x xs IH].
  - cbn. apply sum_list_with_zero.
  - rewrite (sum_list_with_ext _
               (fun c => (if decide (R c x) then 1 else 0)
                         + length (filter (R c) xs))).
    2:{ intros c _. rewrite filter_cons.
        now destruct (decide (R c x)). }
    rewrite sum_list_with_add, IH by (intros y Hy; apply Hkey; now right).
    rewrite filter_cons. destruct (decide (P x)) as [Hp | Hp].
    + rewrite (sum_indicator classes (key x)); [reflexivity | exact Hnd | |].
      * apply Hkey. now left.
      * intros c. rewrite HR. tauto.
    + rewrite (sum_list_with_ext _ (fun _ => 0)), sum_list_with_zero;
        [reflexivity|].
      intros c _. destruct (decide (R c x)) as [Hr|]; [|reflexivity].
      apply HR in Hr. tauto.
Qed.

Lemma filter_True {A} (xs : list A) : filter (fun _ : A => True) xs = xs.
Proof.
  induction xs as [|x xs IH]; [reflexivity|].
  rewrite filter_cons. destruct (decide True); [now rewrite IH | tauto].
Qed.

Lemma cm_labels_NoDup y_true y_pred : NoDup (cm_labels y_true y_pred).
Proof. apply sorted_labels_NoDup, np_unique_sorted. Qed.

Lemma zip_labels y_true y_pred (p : string * string) :
  p ∈ zip y_true y_pred ->
  p.1 ∈ cm_labels y_true y_pred /\ p.2 ∈ cm_labels y_true y_pred.
Proof.
  destruct p as [a b]. intros Hp. unfold cm_labels.
  rewrite !np_unique_elem, !elem_of_app. split.
  - left. eapply elem_of_zip_l, Hp.
  - right. eapply elem_of_zip_r, Hp.
Qed.

Lemma confusion_matrix_total y_true y_pred :
  matrix_total (confusion_matrix y_true y_pred) = length (zip y_true y_pred).
Proof.
  unfold matrix_total, confusion_matrix.
  change (map ?f ?l) with (f <$> l).
  rewrite <- list_fmap_compose, sum_list_fmap.
  rewrite (sum_list_with_ext _
             (fun a => length (filter (fun p : string * string => p.1 = a)
                                      (zip y_true y_pred)))).
  - rewrite (sum_over_classes fst _ (fun _ => True)).
    + now rewrite filter_True.
    + apply cm_labels_NoDup.
    + intros p Hp. now apply zip_labels.
    + intros c p. tauto.
  - intros a _. cbn [compose]. change (map ?f ?l) with (f <$> l).
    rewrite sum_list_fmap. unfold count_pairs.
    apply (sum_over_classes snd).
    + apply cm_labels_NoDup.
    + intros p Hp. now apply zip_labels.
    + intros c p. tauto.
Qed.

Lemma confusion_matrix_diagonal y_true y_pred :
  matrix_diagonal (confusion_matrix y_true y_pred)
  = correct_predictions y_true y_pred.
Proof.
  unfold matrix_diagonal, confusion_matrix, correct_predictions.
  set (classes := cm_labels y_true y_pred).
  set (pairs := zip y_true y_pred).
  assert (Hdiag :
    imap (fun i row => default 0 (row !! i))
         (map (fun actual =>
                 map (fun predicted => count_pairs actual predicted pairs)
                     classes) classes)
    = (fun a => count_pairs a a pairs) <$> classes).
  { apply list_eq. intros i. rewrite list_lookup_imap.
    change (map ?f ?l) with (f <$> l). rewrite !list_lookup_fmap.
    destruct (classes !! i) as [a|] eqn:Ea; [|reflexivity]. cbn.
    change (map ?f ?l) with (f <$> l). now rewrite list_lookup_fmap, Ea. }
  rewrite Hdiag, sum_list_fmap. unfold count_pairs.
  apply (sum_over_classes fst).
  - apply cm_labels_NoDup.
  - intros p Hp. now apply zip_labels.
  - intros c p. split; intros [H1 H2]; split; congruence.
Qed.

Lemma confusion_matrix_square y_true y_pred :
  length (confusion_matrix y_true y_pred) = length (cm_labels y_true y_pred)
  /\ Forall (fun row => length row = length (cm_labels y_true y_pred))
            (confusion_matrix y_true y_pred).
Proof.
  unfold confusion_matrix. split; [apply length_map|].
  apply List.Forall_forall. intros row Hrow.
  apply in_map_iff in Hrow as (a & <- & _). apply length_map.
Qed.

Section Evaluation.

Variable Rows : Type.
Variable model_predict : Rows -> list string + string.
Variable Score : Type.
Variable accuracy_score : list string -> list string -> Score.
Variable precision_score_weighted : list string -> list string -> Score.
Variable recall_score_weighted : list string -> list string -> Score.
Variable f1_score_weighted : list string -> list string -> Score.
Variable format_4f : Score -> string.

Local Abbreviation evaluate_model :=
  (evaluate_model Rows model_predict Score accuracy_score
                  precision_score_weighted recall_score_weighted
                  f1_score_weighted format_4f).

(** When the model predicts one label per test row, [evaluate_model]
    saves one figure, at [confusion_matrix.png] in the model directory.
    Its matrix is square, with one row and one column per class; each
    test row is counted in exactly one cell, so the cells add up to the
    number of test rows; and the diagonal adds up to the number of
    correct predictions. *)
Theorem saved_matrix_counts_each_test_row_once
        (self : ModelTraining) (X_test : Rows) (y_test y_pred : list string) :
  model_predict X_test = inl y_pred ->
  length y_pred = length y_test ->
  y_test <> [] ->
  exists fig,
    saved_figures (evaluate_model self X_test y_test).2
    = [(model_path self ++ "/" ++ "confusion_matrix.png", fig)]
    /\ fig_data fig = confusion_matrix y_test y_pred
    /\ length (fig_data fig) = length (cm_labels y_test y_pred)
    /\ Forall (fun row => length row = length (cm_labels y_test y_pred))
              (fig_data fig)
    /\ matrix_total (fig_data fig) = length y_test
    /\ matrix_diagonal (fig_data fig) = correct_predictions y_test y_pred.
Proof.
  intros Hpred Hlen _. unfold ModelTraining.evaluate_model. rewrite Hpred.
  eexists. split; [reflexivity|]. cbn [fig_data].
  split; [reflexivity|].
  split; [apply confusion_matrix_square|].
  split; [apply confusion_matrix_square|].
  split; [|apply confusion_matrix_diagonal].
  rewrite confusion_matrix_total, length_zip. lia.
Qed.

(** The tick labels that [evaluate_model] puts on both axes are the
    sorted labels of the test set.  They are the classes of the matrix it
    draws exactly when every label that the model predicts occurs in the
    test set; otherwise the matrix has more rows and columns than the
    axes have labels. *)
Theorem tick_labels_match_matrix_iff_predictions_seen
        (self : ModelTraining) (X_test : Rows) (y_test y_pred : list string) :
  model_predict X_test = inl y_pred ->
  length y_pred = length y_test ->
  y_test <> [] ->
  exists fig,
    saved_figures (evaluate_model self X_test y_test).2
    = [(model_path self ++ "/" ++ "confusion_matrix.png", fig)]
    /\ fig_xticklabels fig = np_unique y_test
    /\ fig_yticklabels fig = np_unique y_test
    /\ length (fig_data fig) = length (cm_labels y_test y_pred)
    /\ (fig_xticklabels fig = cm_labels y_test y_pred
        <-> forall p, p ∈ y_pred -> p ∈ y_test)
    /\ (~ (forall p, p ∈ y_pred -> p ∈ y_test) ->
        length (fig_xticklabels fig) < length (fig_data fig)).
Proof.
  intros Hpred _ _. unfold ModelTraining.evaluate_model. rewrite Hpred.
  eexists. split; [reflexivity|]. cbn [fig_data fig_xticklabels fig_yticklabels].
  split; [reflexivity|]. split; [reflexivity|].
  split; [apply confusion_matrix_square|].
  assert (Hiff : np_unique y_test = cm_labels y_test y_pred
                 <-> forall p, p ∈ y_pred -> p ∈ y_test).
  { split; [|intros H; symmetry; now apply cm_labels_of_seen_predictions].
    intros E p Hp. apply (np_unique_elem p y_test). rewrite E.
    unfold cm_labels. rewrite np_unique_elem, elem_of_app. now right. }
  split; [exact Hiff|].
  intros Hnot.
  rewrite (proj1 (confusion_matrix_square y_test y_pred)).
  assert (Hsub : np_unique y_test ⊆ cm_labels y_test y_pred).
  { intros x Hx. rewrite np_unique_elem in Hx.
    unfold cm_labels. rewrite np_unique_elem, elem_of_app. now left. }
  pose proof (sorted_labels_NoDup _ (np_unique_sorted y_test)) as Hnd.
  pose proof (cm_labels_NoDup y_test y_pred) as Hnd'.
  destruct (decide (length (np_unique y_test)
                    < length (cm_labels y_test y_pred))) as [Hlt|Hge];
    [exact Hlt|].
  exfalso. apply Hnot, Hiff.
  apply (StronglySorted_unique_strong label_lt);
    [| apply np_unique_sorted | apply np_unique_sorted |].
  - intros a b _ _ Hab Hba. exfalso.
    exact (label_lt_irrefl a (label_lt_trans a b a Hab Hba)).
  - apply submseteq_length_Permutation; [|lia].
    now apply NoDup_submseteq.
Qed.

End Evaluation.

(** Four test rows, three of them predicted correctly. *)
Lemma saved_matrix_counts_each_test_row_once_witness :
  let y_test := ["Iris-setosa"; "Iris-versicolor";
                 "Iris-virginica"; "Iris-versicolor"] in
  let y_pred := ["Iris-setosa"; "Iris-virginica";
                 "Iris-virginica"; "Iris-versicolor"] in
  let model_predict := fun _ : unit => inl y_pred : list string + string in
  let score := fun _ _ : list string => 0 in
  let format_4f := fun _ : nat => "" in
  (length y_pred = length y_test /\ y_test <> [])
  /\ exists fig,
       saved_figures
         (evaluate_model unit model_predict nat score score score score
                         format_4f __init__ tt y_test).2
       = [("artifacts/models/confusion_matrix.png", fig)]
       /\ fig_data fig = [[1; 0; 0]; [0; 1; 1]; [0; 0; 1]]
       /\ matrix_total (fig_data fig) = 4
       /\ matrix_diagonal (fig_data fig) = 3.
Proof.
  intros y_test y_pred model_predict score format_4f.
  assert (H1 : length y_pred = length y_test) by reflexivity.
  assert (H2 : y_test <> []) by discriminate.
  split; [now split|].
  destruct (saved_matrix_counts_each_test_row_once
              unit model_predict nat score score score score format_4f
              __init__ tt y_test y_pred eq_refl H1 H2)
    as (fig & Hsaved & Hdata & _ & _ & Htotal & Hdiag).
  exists fig. split; [exact Hsaved|].
  split; [rewrite Hdata; vm_compute; reflexivity|].
  split; [exact Htotal | exact Hdiag].
Defined.

(** One test row of [Iris-setosa] that the model calls [Iris-versicolor]:
    the axes carry one label, the matrix has two rows. *)
Lemma tick_labels_match_matrix_iff_predictions_seen_witness :
  let y_test := ["Iris-setosa"] in
  let y_pred := ["Iris-versicolor"] in
  let model_predict := fun _ : unit => inl y_pred : list string + string in
  let score := fun _ _ : list string => 0 in
  let format_4f := fun _ : nat => "" in
  (length y_pred = length y_test /\ y_test <> [])
  /\ exists fig,
       saved_figures
         (evaluate_model unit model_predict nat score score score score
                         format_4f __init__ tt y_test).2
       = [("artifacts/models/confusion_matrix.png", fig)]
       /\ fig_xticklabels fig = ["Iris-setosa"]
       /\ length (fig_data fig) = 2
       /\ fig_xticklabels fig <> cm_labels y_test y_pred.
Proof.
  intros y_test y_pred model_predict score format_4f.
  assert (H1 : length y_pred = length y_test) by reflexivity.
  assert (H2 : y_test <> []) by discriminate.
  split; [now split|].
  destruct (tick_labels_match_matrix_iff_predictions_seen
              unit model_predict nat score score score score format_4f
              __init__ tt y_test y_pred eq_refl H1 H2)
    as (fig & Hsaved & Hx & _ & Hrows & Hiff & _).
  exists fig. split; [exact Hsaved|].
  split; [rewrite Hx; vm_compute; reflexivity|].
  split; [rewrite Hrows; vm_compute; reflexivity|].
  intros E.
  assert (Hin : "Iris-versicolor" ∈ y_test)
    by (apply (proj1 Hiff E); now left).
  apply elem_of_cons in Hin as [Hin | Hin];
    [discriminate Hin | now apply elem_of_nil in Hin].
Defined.

End EvaluateExtra.
